(** * Spector: readers of the legacy GIRPAS spectra formats

    A shallow embedding of [spector/utils/io.py], [spector/utils/misc.py],
    [spector/io/_iofmt.py], [spector/io/_iocodes.py] and
    [spector/io/legacy.py], together with the part of the Python runtime
    these modules call ([struct], [datetime], [re], [float], [int],
    [bytes.decode], [numpy.fromfile], [numpy.frombuffer]).

    Conventions.
    - A Python [bytes] object is a [list byte]; iterating it yields the
      integers [byte_val b].
    - A Python [int] is a [Z]; a Python [float] is a binary64 primitive
      [float], so every floating-point operation below is the IEEE one.
    - A Python [dict] with string keys is a [gmap string value].
    - A Python [str] is the [string] of its UTF-8 bytes, so an ASCII text
      is written as it reads; its characters are its code points.
    - A Python exception is a value of [exn]; code that may raise lives in
      the error monad [res].  [NotModelled] is not a Python exception: it
      marks a call that leaves the fragment of the runtime modelled here
      (an exotic [struct] code, an operand of another type, ...); no
      content of a file leads the readers to it.
    - A file opened in binary mode is its content and a read position. *)

From Stdlib Require Import ZArith List String Ascii Strings.Byte.
From Stdlib Require Import Floats Uint63 Lia Bool DecimalString.
From stdpp Require Import gmap strings list.

Local Open Scope string_scope.
Local Open Scope list_scope.
Local Open Scope Z_scope.
Set Warnings "-inexact-float".

(* ===================================================================== *)
(** * Part I: definitions                                                 *)
(* ===================================================================== *)

(** ** Unicode character data

    The character classes and case mappings that [str] methods, [int],
    [float] and [re] consult, from the Unicode 14.0 database of
    CPython 3.11.  A code point is a [Z]. *)

Module Unicode.

Definition in_ranges (c : Z) (l : list (Z * Z)) : bool :=
  existsb (fun r => (r.1 <=? c) && (c <=? r.2)) l.

(** The whitespace characters: [chr(c).isspace()], what [str.strip] drops
    and what [\s] matches. *)
Definition space_ranges : list (Z * Z) := [
  (9, 13); (28, 32); (133, 133); (160, 160); (5760, 5760); (8192, 8202);
  (8232, 8233); (8239, 8239); (8287, 8287); (12288, 12288)
].

(** The code points of the digits zero: each opens a run of ten decimal
    digits, 0 to 9 ([str.isdecimal], category Nd). *)
Definition decimal_zeros : list Z := [
  48; 1632; 1776; 1984; 2406; 2534; 2662; 2790; 2918; 3046; 3174; 3302;
  3430; 3558; 3664; 3792; 3872; 4160; 4240; 6112; 6160; 6470; 6608; 6784;
  6800; 6992; 7088; 7232; 7248; 42528; 43216; 43264; 43472; 43504; 43600;
  44016; 65296; 66720; 68912; 69734; 69872; 69942; 70096; 70384; 70736;
  70864; 71248; 71360; 71472; 71904; 72016; 72784; 73040; 73120; 92768;
  92864; 93008; 120782; 120792; 120802; 120812; 120822; 123200; 123632;
  125264; 130032
].

(** The ranges of the alphanumeric code points ([str.isalnum]). *)
Definition alnum_ranges : list (Z * Z) := [
  (48, 57); (65, 90); (97, 122); (170, 170); (178, 179); (181, 181); (185,
  186); (188, 190); (192, 214); (216, 246); (248, 705); (710, 721); (736,
  740); (748, 748); (750, 750); (880, 884); (886, 887); (890, 893); (895,
  895); (902, 902); (904, 906); (908, 908); (910, 929); (931, 1013); (1015,
  1153); (1162, 1327); (1329, 1366); (1369, 1369); (1376, 1416); (1488,
  1514); (1519, 1522); (1568, 1610); (1632, 1641); (1646, 1647); (1649,
  1747); (1749, 1749); (1765, 1766); (1774, 1788); (1791, 1791); (1808,
  1808); (1810, 1839); (1869, 1957); (1969, 1969); (1984, 2026); (2036,
  2037); (2042, 2042); (2048, 2069); (2074, 2074); (2084, 2084); (2088,
  2088); (2112, 2136); (2144, 2154); (2160, 2183); (2185, 2190); (2208,
  2249); (2308, 2361); (2365, 2365); (2384, 2384); (2392, 2401); (2406,
  2415); (2417, 2432); (2437, 2444); (2447, 2448); (2451, 2472); (2474,
  2480); (2482, 2482); (2486, 2489); (2493, 2493); (2510, 2510); (2524,
  2525); (2527, 2529); (2534, 2545); (2548, 2553); (2556, 2556); (2565,
  2570); (2575, 2576); (2579, 2600); (2602, 2608); (2610, 2611); (2613,
  2614); (2616, 2617); (2649, 2652); (2654, 2654); (2662, 2671); (2674,
  2676); (2693, 2701); (2703, 2705); (2707, 2728); (2730, 2736); (2738,
  2739); (2741, 2745); (2749, 2749); (2768, 2768); (2784, 2785); (2790,
  2799); (2809, 2809); (2821, 2828); (2831, 2832); (2835, 2856); (2858,
  2864); (2866, 2867); (2869, 2873); (2877, 2877); (2908, 2909); (2911,
  2913); (2918, 2927); (2929, 2935); (2947, 2947); (2949, 2954); (2958,
  2960); (2962, 2965); (2969, 2970); (2972, 2972); (2974, 2975); (2979,
  2980); (2984, 2986); (2990, 3001); (3024, 3024); (3046, 3058); (3077,
  3084); (3086, 3088); (3090, 3112); (3114, 3129); (3133, 3133); (3160,
  3162); (3165, 3165); (3168, 3169); (3174, 3183); (3192, 3198); (3200,
  3200); (3205, 3212); (3214, 3216); (3218, 3240); (3242, 3251); (3253,
  3257); (3261, 3261); (3293, 3294); (3296, 3297); (3302, 3311); (3313,
  3314); (3332, 3340); (3342, 3344); (3346, 3386); (3389, 3389); (3406,
  3406); (3412, 3414); (3416, 3425); (3430, 3448); (3450, 3455); (3461,
  3478); (3482, 3505); (3507, 3515); (3517, 3517); (3520, 3526); (3558,
  3567); (3585, 3632); (3634, 3635); (3648, 3654); (3664, 3673); (3713,
  3714); (3716, 3716); (3718, 3722); (3724, 3747); (3749, 3749); (3751,
  3760); (3762, 3763); (3773, 3773); (3776, 3780); (3782, 3782); (3792,
  3801); (3804, 3807); (3840, 3840); (3872, 3891); (3904, 3911); (3913,
  3948); (3976, 3980); (4096, 4138); (4159, 4169); (4176, 4181); (4186,
  4189); (4193, 4193); (4197, 4198); (4206, 4208); (4213, 4225); (4238,
  4238); (4240, 4249); (4256, 4293); (4295, 4295); (4301, 4301); (4304,
  4346); (4348, 4680); (4682, 4685); (4688, 4694); (4696, 4696); (4698,
  4701); (4704, 4744); (4746, 4749); (4752, 4784); (4786, 4789); (4792,
  4798); (4800, 4800); (4802, 4805); (4808, 4822); (4824, 4880); (4882,
  4885); (4888, 4954); (4969, 4988); (4992, 5007); (5024, 5109); (5112,
  5117); (5121, 5740); (5743, 5759); (5761, 5786); (5792, 5866); (5870,
  5880); (5888, 5905); (5919, 5937); (5952, 5969); (5984, 5996); (5998,
  6000); (6016, 6067); (6103, 6103); (6108, 6108); (6112, 6121); (6128,
  6137); (6160, 6169); (6176, 6264); (6272, 6276); (6279, 6312); (6314,
  6314); (6320, 6389); (6400, 6430); (6470, 6509); (6512, 6516); (6528,
  6571); (6576, 6601); (6608, 6618); (6656, 6678); (6688, 6740); (6784,
  6793); (6800, 6809); (6823, 6823); (6917, 6963); (6981, 6988); (6992,
  7001); (7043, 7072); (7086, 7141); (7168, 7203); (7232, 7241); (7245,
  7293); (7296, 7304); (7312, 7354); (7357, 7359); (7401, 7404); (7406,
  7411); (7413, 7414); (7418, 7418); (7424, 7615); (7680, 7957); (7960,
  7965); (7968, 8005); (8008, 8013); (8016, 8023); (8025, 8025); (8027,
  8027); (8029, 8029); (8031, 8061); (8064, 8116); (8118, 8124); (8126,
  8126); (8130, 8132); (8134, 8140); (8144, 8147); (8150, 8155); (8160,
  8172); (8178, 8180); (8182, 8188); (8304, 8305); (8308, 8313); (8319,
  8329); (8336, 8348); (8450, 8450); (8455, 8455); (8458, 8467); (8469,
  8469); (8473, 8477); (8484, 8484); (8486, 8486); (8488, 8488); (8490,
  8493); (8495, 8505); (8508, 8511); (8517, 8521); (8526, 8526); (8528,
  8585); (9312, 9371); (9450, 9471); (10102, 10131); (11264, 11492); (11499,
  11502); (11506, 11507); (11517, 11517); (11520, 11557); (11559, 11559);
  (11565, 11565); (11568, 11623); (11631, 11631); (11648, 11670); (11680,
  11686); (11688, 11694); (11696, 11702); (11704, 11710); (11712, 11718);
  (11720, 11726); (11728, 11734); (11736, 11742); (11823, 11823); (12293,
  12295); (12321, 12329); (12337, 12341); (12344, 12348); (12353, 12438);
  (12445, 12447); (12449, 12538); (12540, 12543); (12549, 12591); (12593,
  12686); (12690, 12693); (12704, 12735); (12784, 12799); (12832, 12841);
  (12872, 12879); (12881, 12895); (12928, 12937); (12977, 12991); (13312,
  19903); (19968, 42124); (42192, 42237); (42240, 42508); (42512, 42539);
  (42560, 42606); (42623, 42653); (42656, 42735); (42775, 42783); (42786,
  42888); (42891, 42954); (42960, 42961); (42963, 42963); (42965, 42969);
  (42994, 43009); (43011, 43013); (43015, 43018); (43020, 43042); (43056,
  43061); (43072, 43123); (43138, 43187); (43216, 43225); (43250, 43255);
  (43259, 43259); (43261, 43262); (43264, 43301); (43312, 43334); (43360,
  43388); (43396, 43442); (43471, 43481); (43488, 43492); (43494, 43518);
  (43520, 43560); (43584, 43586); (43588, 43595); (43600, 43609); (43616,
  43638); (43642, 43642); (43646, 43695); (43697, 43697); (43701, 43702);
  (43705, 43709); (43712, 43712); (43714, 43714); (43739, 43741); (43744,
  43754); (43762, 43764); (43777, 43782); (43785, 43790); (43793, 43798);
  (43808, 43814); (43816, 43822); (43824, 43866); (43868, 43881); (43888,
  44002); (44016, 44025); (44032, 55203); (55216, 55238); (55243, 55291);
  (63744, 64109); (64112, 64217); (64256, 64262); (64275, 64279); (64285,
  64285); (64287, 64296); (64298, 64310); (64312, 64316); (64318, 64318);
  (64320, 64321); (64323, 64324); (64326, 64433); (64467, 64829); (64848,
  64911); (64914, 64967); (65008, 65019); (65136, 65140); (65142, 65276);
  (65296, 65305); (65313, 65338); (65345, 65370); (65382, 65470); (65474,
  65479); (65482, 65487); (65490, 65495); (65498, 65500); (65536, 65547);
  (65549, 65574); (65576, 65594); (65596, 65597); (65599, 65613); (65616,
  65629); (65664, 65786); (65799, 65843); (65856, 65912); (65930, 65931);
  (66176, 66204); (66208, 66256); (66273, 66299); (66304, 66339); (66349,
  66378); (66384, 66421); (66432, 66461); (66464, 66499); (66504, 66511);
  (66513, 66517); (66560, 66717); (66720, 66729); (66736, 66771); (66776,
  66811); (66816, 66855); (66864, 66915); (66928, 66938); (66940, 66954);
  (66956, 66962); (66964, 66965); (66967, 66977); (66979, 66993); (66995,
  67001); (67003, 67004); (67072, 67382); (67392, 67413); (67424, 67431);
  (67456, 67461); (67463, 67504); (67506, 67514); (67584, 67589); (67592,
  67592); (67594, 67637); (67639, 67640); (67644, 67644); (67647, 67669);
  (67672, 67702); (67705, 67742); (67751, 67759); (67808, 67826); (67828,
  67829); (67835, 67867); (67872, 67897); (67968, 68023); (68028, 68047);
  (68050, 68096); (68112, 68115); (68117, 68119); (68121, 68149); (68160,
  68168); (68192, 68222); (68224, 68255); (68288, 68295); (68297, 68324);
  (68331, 68335); (68352, 68405); (68416, 68437); (68440, 68466); (68472,
  68497); (68521, 68527); (68608, 68680); (68736, 68786); (68800, 68850);
  (68858, 68899); (68912, 68921); (69216, 69246); (69248, 69289); (69296,
  69297); (69376, 69415); (69424, 69445); (69457, 69460); (69488, 69505);
  (69552, 69579); (69600, 69622); (69635, 69687); (69714, 69743); (69745,
  69746); (69749, 69749); (69763, 69807); (69840, 69864); (69872, 69881);
  (69891, 69926); (69942, 69951); (69956, 69956); (69959, 69959); (69968,
  70002); (70006, 70006); (70019, 70066); (70081, 70084); (70096, 70106);
  (70108, 70108); (70113, 70132); (70144, 70161); (70163, 70187); (70272,
  70278); (70280, 70280); (70282, 70285); (70287, 70301); (70303, 70312);
  (70320, 70366); (70384, 70393); (70405, 70412); (70415, 70416); (70419,
  70440); (70442, 70448); (70450, 70451); (70453, 70457); (70461, 70461);
  (70480, 70480); (70493, 70497); (70656, 70708); (70727, 70730); (70736,
  70745); (70751, 70753); (70784, 70831); (70852, 70853); (70855, 70855);
  (70864, 70873); (71040, 71086); (71128, 71131); (71168, 71215); (71236,
  71236); (71248, 71257); (71296, 71338); (71352, 71352); (71360, 71369);
  (71424, 71450); (71472, 71483); (71488, 71494); (71680, 71723); (71840,
  71922); (71935, 71942); (71945, 71945); (71948, 71955); (71957, 71958);
  (71960, 71983); (71999, 71999); (72001, 72001); (72016, 72025); (72096,
  72103); (72106, 72144); (72161, 72161); (72163, 72163); (72192, 72192);
  (72203, 72242); (72250, 72250); (72272, 72272); (72284, 72329); (72349,
  72349); (72368, 72440); (72704, 72712); (72714, 72750); (72768, 72768);
  (72784, 72812); (72818, 72847); (72960, 72966); (72968, 72969); (72971,
  73008); (73030, 73030); (73040, 73049); (73056, 73061); (73063, 73064);
  (73066, 73097); (73112, 73112); (73120, 73129); (73440, 73458); (73648,
  73648); (73664, 73684); (73728, 74649); (74752, 74862); (74880, 75075);
  (77712, 77808); (77824, 78894); (82944, 83526); (92160, 92728); (92736,
  92766); (92768, 92777); (92784, 92862); (92864, 92873); (92880, 92909);
  (92928, 92975); (92992, 92995); (93008, 93017); (93019, 93025); (93027,
  93047); (93053, 93071); (93760, 93846); (93952, 94026); (94032, 94032);
  (94099, 94111); (94176, 94177); (94179, 94179); (94208, 100343); (100352,
  101589); (101632, 101640); (110576, 110579); (110581, 110587); (110589,
  110590); (110592, 110882); (110928, 110930); (110948, 110951); (110960,
  111355); (113664, 113770); (113776, 113788); (113792, 113800); (113808,
  113817); (119520, 119539); (119648, 119672); (119808, 119892); (119894,
  119964); (119966, 119967); (119970, 119970); (119973, 119974); (119977,
  119980); (119982, 119993); (119995, 119995); (119997, 120003); (120005,
  120069); (120071, 120074); (120077, 120084); (120086, 120092); (120094,
  120121); (120123, 120126); (120128, 120132); (120134, 120134); (120138,
  120144); (120146, 120485); (120488, 120512); (120514, 120538); (120540,
  120570); (120572, 120596); (120598, 120628); (120630, 120654); (120656,
  120686); (120688, 120712); (120714, 120744); (120746, 120770); (120772,
  120779); (120782, 120831); (122624, 122654); (123136, 123180); (123191,
  123197); (123200, 123209); (123214, 123214); (123536, 123565); (123584,
  123627); (123632, 123641); (124896, 124902); (124904, 124907); (124909,
  124910); (124912, 124926); (124928, 125124); (125127, 125135); (125184,
  125251); (125259, 125259); (125264, 125273); (126065, 126123); (126125,
  126127); (126129, 126132); (126209, 126253); (126255, 126269); (126464,
  126467); (126469, 126495); (126497, 126498); (126500, 126500); (126503,
  126503); (126505, 126514); (126516, 126519); (126521, 126521); (126523,
  126523); (126530, 126530); (126535, 126535); (126537, 126537); (126539,
  126539); (126541, 126543); (126545, 126546); (126548, 126548); (126551,
  126551); (126553, 126553); (126555, 126555); (126557, 126557); (126559,
  126559); (126561, 126562); (126564, 126564); (126567, 126570); (126572,
  126578); (126580, 126583); (126585, 126588); (126590, 126590); (126592,
  126601); (126603, 126619); (126625, 126627); (126629, 126633); (126635,
  126651); (127232, 127244); (130032, 130041); (131072, 173791); (173824,
  177976); (177984, 178205); (178208, 183969); (183984, 191456); (194560,
  195101); (196608, 201546)
].

(** The code points with a lowercase of their own, as [(first, last, step,
    offset)]: [first], [first + step], ..., [last] are lower-cased by adding
    [offset]. *)
Definition lower_table : list (Z * Z * Z * Z) := [
  (65, 90, 1, 32); (192, 214, 1, 32); (216, 222, 1, 32); (256, 302, 2, 1);
  (306, 310, 2, 1); (313, 327, 2, 1); (330, 374, 2, 1); (376, 376, 1, -121);
  (377, 381, 2, 1); (385, 385, 1, 210); (386, 388, 2, 1); (390, 390, 1,
  206); (391, 391, 1, 1); (393, 394, 1, 205); (395, 395, 1, 1); (398, 398,
  1, 79); (399, 399, 1, 202); (400, 400, 1, 203); (401, 401, 1, 1); (403,
  403, 1, 205); (404, 404, 1, 207); (406, 406, 1, 211); (407, 407, 1, 209);
  (408, 408, 1, 1); (412, 412, 1, 211); (413, 413, 1, 213); (415, 415, 1,
  214); (416, 420, 2, 1); (422, 422, 1, 218); (423, 423, 1, 1); (425, 425,
  1, 218); (428, 428, 1, 1); (430, 430, 1, 218); (431, 431, 1, 1); (433,
  434, 1, 217); (435, 437, 2, 1); (439, 439, 1, 219); (440, 440, 1, 1);
  (444, 444, 1, 1); (452, 452, 1, 2); (453, 453, 1, 1); (455, 455, 1, 2);
  (456, 456, 1, 1); (458, 458, 1, 2); (459, 475, 2, 1); (478, 494, 2, 1);
  (497, 497, 1, 2); (498, 500, 2, 1); (502, 502, 1, -97); (503, 503, 1,
  -56); (504, 542, 2, 1); (544, 544, 1, -130); (546, 562, 2, 1); (570, 570,
  1, 10795); (571, 571, 1, 1); (573, 573, 1, -163); (574, 574, 1, 10792);
  (577, 577, 1, 1); (579, 579, 1, -195); (580, 580, 1, 69); (581, 581, 1,
  71); (582, 590, 2, 1); (880, 882, 2, 1); (886, 886, 1, 1); (895, 895, 1,
  116); (902, 902, 1, 38); (904, 906, 1, 37); (908, 908, 1, 64); (910, 911,
  1, 63); (913, 929, 1, 32); (931, 939, 1, 32); (975, 975, 1, 8); (984,
  1006, 2, 1); (1012, 1012, 1, -60); (1015, 1015, 1, 1); (1017, 1017, 1,
  -7); (1018, 1018, 1, 1); (1021, 1023, 1, -130); (1024, 1039, 1, 80);
  (1040, 1071, 1, 32); (1120, 1152, 2, 1); (1162, 1214, 2, 1); (1216, 1216,
  1, 15); (1217, 1229, 2, 1); (1232, 1326, 2, 1); (1329, 1366, 1, 48);
  (4256, 4293, 1, 7264); (4295, 4295, 1, 7264); (4301, 4301, 1, 7264);
  (5024, 5103, 1, 38864); (5104, 5109, 1, 8); (7312, 7354, 1, -3008); (7357,
  7359, 1, -3008); (7680, 7828, 2, 1); (7838, 7838, 1, -7615); (7840, 7934,
  2, 1); (7944, 7951, 1, -8); (7960, 7965, 1, -8); (7976, 7983, 1, -8);
  (7992, 7999, 1, -8); (8008, 8013, 1, -8); (8025, 8031, 2, -8); (8040,
  8047, 1, -8); (8072, 8079, 1, -8); (8088, 8095, 1, -8); (8104, 8111, 1,
  -8); (8120, 8121, 1, -8); (8122, 8123, 1, -74); (8124, 8124, 1, -9);
  (8136, 8139, 1, -86); (8140, 8140, 1, -9); (8152, 8153, 1, -8); (8154,
  8155, 1, -100); (8168, 8169, 1, -8); (8170, 8171, 1, -112); (8172, 8172,
  1, -7); (8184, 8185, 1, -128); (8186, 8187, 1, -126); (8188, 8188, 1, -9);
  (8486, 8486, 1, -7517); (8490, 8490, 1, -8383); (8491, 8491, 1, -8262);
  (8498, 8498, 1, 28); (8544, 8559, 1, 16); (8579, 8579, 1, 1); (9398, 9423,
  1, 26); (11264, 11311, 1, 48); (11360, 11360, 1, 1); (11362, 11362, 1,
  -10743); (11363, 11363, 1, -3814); (11364, 11364, 1, -10727); (11367,
  11371, 2, 1); (11373, 11373, 1, -10780); (11374, 11374, 1, -10749);
  (11375, 11375, 1, -10783); (11376, 11376, 1, -10782); (11378, 11378, 1,
  1); (11381, 11381, 1, 1); (11390, 11391, 1, -10815); (11392, 11490, 2, 1);
  (11499, 11501, 2, 1); (11506, 11506, 1, 1); (42560, 42604, 2, 1); (42624,
  42650, 2, 1); (42786, 42798, 2, 1); (42802, 42862, 2, 1); (42873, 42875,
  2, 1); (42877, 42877, 1, -35332); (42878, 42886, 2, 1); (42891, 42891, 1,
  1); (42893, 42893, 1, -42280); (42896, 42898, 2, 1); (42902, 42920, 2, 1);
  (42922, 42922, 1, -42308); (42923, 42923, 1, -42319); (42924, 42924, 1,
  -42315); (42925, 42925, 1, -42305); (42926, 42926, 1, -42308); (42928,
  42928, 1, -42258); (42929, 42929, 1, -42282); (42930, 42930, 1, -42261);
  (42931, 42931, 1, 928); (42932, 42946, 2, 1); (42948, 42948, 1, -48);
  (42949, 42949, 1, -42307); (42950, 42950, 1, -35384); (42951, 42953, 2,
  1); (42960, 42960, 1, 1); (42966, 42968, 2, 1); (42997, 42997, 1, 1);
  (65313, 65338, 1, 32); (66560, 66599, 1, 40); (66736, 66771, 1, 40);
  (66928, 66938, 1, 39); (66940, 66954, 1, 39); (66956, 66962, 1, 39);
  (66964, 66965, 1, 39); (68736, 68786, 1, 64); (71840, 71871, 1, 32);
  (93760, 93791, 1, 32); (125184, 125217, 1, 34)
].

(** The ranges of the cased code points that are not case-ignorable. *)
Definition cased_ranges : list (Z * Z) := [
  (65, 90); (97, 122); (170, 170); (181, 181); (186, 186); (192, 214); (216,
  246); (248, 442); (444, 447); (452, 659); (661, 687); (880, 883); (886,
  887); (891, 893); (895, 895); (902, 902); (904, 906); (908, 908); (910,
  929); (931, 1013); (1015, 1153); (1162, 1327); (1329, 1366); (1376, 1416);
  (4256, 4293); (4295, 4295); (4301, 4301); (4304, 4346); (4349, 4351);
  (5024, 5109); (5112, 5117); (7296, 7304); (7312, 7354); (7357, 7359);
  (7424, 7467); (7531, 7543); (7545, 7578); (7680, 7957); (7960, 7965);
  (7968, 8005); (8008, 8013); (8016, 8023); (8025, 8025); (8027, 8027);
  (8029, 8029); (8031, 8061); (8064, 8116); (8118, 8124); (8126, 8126);
  (8130, 8132); (8134, 8140); (8144, 8147); (8150, 8155); (8160, 8172);
  (8178, 8180); (8182, 8188); (8450, 8450); (8455, 8455); (8458, 8467);
  (8469, 8469); (8473, 8477); (8484, 8484); (8486, 8486); (8488, 8488);
  (8490, 8493); (8495, 8500); (8505, 8505); (8508, 8511); (8517, 8521);
  (8526, 8526); (8544, 8575); (8579, 8580); (9398, 9449); (11264, 11387);
  (11390, 11492); (11499, 11502); (11506, 11507); (11520, 11557); (11559,
  11559); (11565, 11565); (42560, 42605); (42624, 42651); (42786, 42863);
  (42865, 42887); (42891, 42894); (42896, 42954); (42960, 42961); (42963,
  42963); (42965, 42969); (42997, 42998); (43002, 43002); (43824, 43866);
  (43872, 43880); (43888, 43967); (64256, 64262); (64275, 64279); (65313,
  65338); (65345, 65370); (66560, 66639); (66736, 66771); (66776, 66811);
  (66928, 66938); (66940, 66954); (66956, 66962); (66964, 66965); (66967,
  66977); (66979, 66993); (66995, 67001); (67003, 67004); (68736, 68786);
  (68800, 68850); (71840, 71903); (93760, 93823); (119808, 119892); (119894,
  119964); (119966, 119967); (119970, 119970); (119973, 119974); (119977,
  119980); (119982, 119993); (119995, 119995); (119997, 120003); (120005,
  120069); (120071, 120074); (120077, 120084); (120086, 120092); (120094,
  120121); (120123, 120126); (120128, 120132); (120134, 120134); (120138,
  120144); (120146, 120485); (120488, 120512); (120514, 120538); (120540,
  120570); (120572, 120596); (120598, 120628); (120630, 120654); (120656,
  120686); (120688, 120712); (120714, 120744); (120746, 120770); (120772,
  120779); (122624, 122633); (122635, 122654); (125184, 125251); (127280,
  127305); (127312, 127337); (127344, 127369)
].

(** The ranges of the case-ignorable code points. *)
Definition case_ignorable_ranges : list (Z * Z) := [
  (39, 39); (46, 46); (58, 58); (94, 94); (96, 96); (168, 168); (173, 173);
  (175, 175); (180, 180); (183, 184); (688, 879); (884, 885); (890, 890);
  (900, 901); (903, 903); (1155, 1161); (1369, 1369); (1375, 1375); (1425,
  1469); (1471, 1471); (1473, 1474); (1476, 1477); (1479, 1479); (1524,
  1524); (1536, 1541); (1552, 1562); (1564, 1564); (1600, 1600); (1611,
  1631); (1648, 1648); (1750, 1757); (1759, 1768); (1770, 1773); (1807,
  1807); (1809, 1809); (1840, 1866); (1958, 1968); (2027, 2037); (2042,
  2042); (2045, 2045); (2070, 2093); (2137, 2139); (2184, 2184); (2192,
  2193); (2200, 2207); (2249, 2306); (2362, 2362); (2364, 2364); (2369,
  2376); (2381, 2381); (2385, 2391); (2402, 2403); (2417, 2417); (2433,
  2433); (2492, 2492); (2497, 2500); (2509, 2509); (2530, 2531); (2558,
  2558); (2561, 2562); (2620, 2620); (2625, 2626); (2631, 2632); (2635,
  2637); (2641, 2641); (2672, 2673); (2677, 2677); (2689, 2690); (2748,
  2748); (2753, 2757); (2759, 2760); (2765, 2765); (2786, 2787); (2810,
  2815); (2817, 2817); (2876, 2876); (2879, 2879); (2881, 2884); (2893,
  2893); (2901, 2902); (2914, 2915); (2946, 2946); (3008, 3008); (3021,
  3021); (3072, 3072); (3076, 3076); (3132, 3132); (3134, 3136); (3142,
  3144); (3146, 3149); (3157, 3158); (3170, 3171); (3201, 3201); (3260,
  3260); (3263, 3263); (3270, 3270); (3276, 3277); (3298, 3299); (3328,
  3329); (3387, 3388); (3393, 3396); (3405, 3405); (3426, 3427); (3457,
  3457); (3530, 3530); (3538, 3540); (3542, 3542); (3633, 3633); (3636,
  3642); (3654, 3662); (3761, 3761); (3764, 3772); (3782, 3782); (3784,
  3789); (3864, 3865); (3893, 3893); (3895, 3895); (3897, 3897); (3953,
  3966); (3968, 3972); (3974, 3975); (3981, 3991); (3993, 4028); (4038,
  4038); (4141, 4144); (4146, 4151); (4153, 4154); (4157, 4158); (4184,
  4185); (4190, 4192); (4209, 4212); (4226, 4226); (4229, 4230); (4237,
  4237); (4253, 4253); (4348, 4348); (4957, 4959); (5906, 5908); (5938,
  5939); (5970, 5971); (6002, 6003); (6068, 6069); (6071, 6077); (6086,
  6086); (6089, 6099); (6103, 6103); (6109, 6109); (6155, 6159); (6211,
  6211); (6277, 6278); (6313, 6313); (6432, 6434); (6439, 6440); (6450,
  6450); (6457, 6459); (6679, 6680); (6683, 6683); (6742, 6742); (6744,
  6750); (6752, 6752); (6754, 6754); (6757, 6764); (6771, 6780); (6783,
  6783); (6823, 6823); (6832, 6862); (6912, 6915); (6964, 6964); (6966,
  6970); (6972, 6972); (6978, 6978); (7019, 7027); (7040, 7041); (7074,
  7077); (7080, 7081); (7083, 7085); (7142, 7142); (7144, 7145); (7149,
  7149); (7151, 7153); (7212, 7219); (7222, 7223); (7288, 7293); (7376,
  7378); (7380, 7392); (7394, 7400); (7405, 7405); (7412, 7412); (7416,
  7417); (7468, 7530); (7544, 7544); (7579, 7679); (8125, 8125); (8127,
  8129); (8141, 8143); (8157, 8159); (8173, 8175); (8189, 8190); (8203,
  8207); (8216, 8217); (8228, 8228); (8231, 8231); (8234, 8238); (8288,
  8292); (8294, 8303); (8305, 8305); (8319, 8319); (8336, 8348); (8400,
  8432); (11388, 11389); (11503, 11505); (11631, 11631); (11647, 11647);
  (11744, 11775); (11823, 11823); (12293, 12293); (12330, 12333); (12337,
  12341); (12347, 12347); (12441, 12446); (12540, 12542); (40981, 40981);
  (42232, 42237); (42508, 42508); (42607, 42610); (42612, 42621); (42623,
  42623); (42652, 42655); (42736, 42737); (42752, 42785); (42864, 42864);
  (42888, 42890); (42994, 42996); (43000, 43001); (43010, 43010); (43014,
  43014); (43019, 43019); (43045, 43046); (43052, 43052); (43204, 43205);
  (43232, 43249); (43263, 43263); (43302, 43309); (43335, 43345); (43392,
  43394); (43443, 43443); (43446, 43449); (43452, 43453); (43471, 43471);
  (43493, 43494); (43561, 43566); (43569, 43570); (43573, 43574); (43587,
  43587); (43596, 43596); (43632, 43632); (43644, 43644); (43696, 43696);
  (43698, 43700); (43703, 43704); (43710, 43711); (43713, 43713); (43741,
  43741); (43756, 43757); (43763, 43764); (43766, 43766); (43867, 43871);
  (43881, 43883); (44005, 44005); (44008, 44008); (44013, 44013); (64286,
  64286); (64434, 64450); (65024, 65039); (65043, 65043); (65056, 65071);
  (65106, 65106); (65109, 65109); (65279, 65279); (65287, 65287); (65294,
  65294); (65306, 65306); (65342, 65342); (65344, 65344); (65392, 65392);
  (65438, 65439); (65507, 65507); (65529, 65531); (66045, 66045); (66272,
  66272); (66422, 66426); (67456, 67461); (67463, 67504); (67506, 67514);
  (68097, 68099); (68101, 68102); (68108, 68111); (68152, 68154); (68159,
  68159); (68325, 68326); (68900, 68903); (69291, 69292); (69446, 69456);
  (69506, 69509); (69633, 69633); (69688, 69702); (69744, 69744); (69747,
  69748); (69759, 69761); (69811, 69814); (69817, 69818); (69821, 69821);
  (69826, 69826); (69837, 69837); (69888, 69890); (69927, 69931); (69933,
  69940); (70003, 70003); (70016, 70017); (70070, 70078); (70089, 70092);
  (70095, 70095); (70191, 70193); (70196, 70196); (70198, 70199); (70206,
  70206); (70367, 70367); (70371, 70378); (70400, 70401); (70459, 70460);
  (70464, 70464); (70502, 70508); (70512, 70516); (70712, 70719); (70722,
  70724); (70726, 70726); (70750, 70750); (70835, 70840); (70842, 70842);
  (70847, 70848); (70850, 70851); (71090, 71093); (71100, 71101); (71103,
  71104); (71132, 71133); (71219, 71226); (71229, 71229); (71231, 71232);
  (71339, 71339); (71341, 71341); (71344, 71349); (71351, 71351); (71453,
  71455); (71458, 71461); (71463, 71467); (71727, 71735); (71737, 71738);
  (71995, 71996); (71998, 71998); (72003, 72003); (72148, 72151); (72154,
  72155); (72160, 72160); (72193, 72202); (72243, 72248); (72251, 72254);
  (72263, 72263); (72273, 72278); (72281, 72283); (72330, 72342); (72344,
  72345); (72752, 72758); (72760, 72765); (72767, 72767); (72850, 72871);
  (72874, 72880); (72882, 72883); (72885, 72886); (73009, 73014); (73018,
  73018); (73020, 73021); (73023, 73029); (73031, 73031); (73104, 73105);
  (73109, 73109); (73111, 73111); (73459, 73460); (78896, 78904); (92912,
  92916); (92976, 92982); (92992, 92995); (94031, 94031); (94095, 94111);
  (94176, 94177); (94179, 94180); (110576, 110579); (110581, 110587);
  (110589, 110590); (113821, 113822); (113824, 113827); (118528, 118573);
  (118576, 118598); (119143, 119145); (119155, 119170); (119173, 119179);
  (119210, 119213); (119362, 119364); (121344, 121398); (121403, 121452);
  (121461, 121461); (121476, 121476); (121499, 121503); (121505, 121519);
  (122880, 122886); (122888, 122904); (122907, 122913); (122915, 122916);
  (122918, 122922); (123184, 123197); (123566, 123566); (123628, 123631);
  (125136, 125142); (125252, 125259); (127995, 127999); (917505, 917505);
  (917536, 917631); (917760, 917999)
].

Definition is_space (c : Z) : bool := in_ranges c space_ranges.

(** The value of a decimal digit ([unicodedata.decimal]). *)
Definition decimal (c : Z) : option Z :=
  match find (fun z => (z <=? c) && (c <=? z + 9)) decimal_zeros with
  | Some z => Some (c - z)
  | None => None
  end.

(** [chr(c).isdecimal()], what [\d] matches. *)
Definition is_decimal (c : Z) : bool :=
  match decimal c with Some _ => true | None => false end.

(** What [\w] matches: an alphanumeric character or the underscore. *)
Definition is_word (c : Z) : bool := in_ranges c alnum_ranges || (c =? 95).

(** The simple lowercase mapping of a code point (one code point; it sends
    U+0130 to [i]). *)
Definition to_lower (c : Z) : Z :=
  if c =? 304 then 105
  else
    match find (fun q => let '(lo, hi, step, _) := q in
                         (lo <=? c) && (c <=? hi) && ((c - lo) mod step =? 0))
               lower_table with
    | Some (_, _, _, offset) => c + offset
    | None => c
    end.

Definition is_cased (c : Z) : bool := in_ranges c cased_ranges.
Definition is_case_ignorable (c : Z) : bool :=
  in_ranges c case_ignorable_ranges.

End Unicode.

(** ** The Python runtime fragment *)

Module Py.

(** *** Exceptions and the error monad *)

Inductive exn : Type :=
| ValueError (msg : string)
| UnicodeDecodeError            (* a subclass of ValueError *)
| KeyError (key : string)
| AttributeError (msg : string)
| OverflowError
| ZeroDivisionError
| StructError (msg : string)    (* struct.error *)
| IndexError
| NotModelled (what : string).

(** [except ValueError] also catches [UnicodeDecodeError]. *)
Definition is_ValueError (e : exn) : bool :=
  match e with
  | ValueError _ | UnicodeDecodeError => true
  | _ => false
  end.

Inductive res (A : Type) : Type :=
| Ok (a : A)
| Raise (e : exn).
Arguments Ok {A} a.
Arguments Raise {A} e.

Definition bind {A B : Type} (m : res A) (k : A -> res B) : res B :=
  match m with
  | Ok a => k a
  | Raise e => Raise e
  end.

Definition is_Ok {A : Type} (m : res A) : bool :=
  match m with Ok _ => true | Raise _ => false end.

(** A [for] loop whose body may raise and that threads one variable. *)
Fixpoint foldM {A S : Type} (body : S -> A -> res S) (s : S) (l : list A)
  : res S :=
  match l with
  | [] => Ok s
  | a :: l' => bind (body s a) (fun s' => foldM body s' l')
  end.

Notation "x <- m ;; k" := (bind m (fun x => k))
  (at level 100, m at next level, right associativity).
Notation "'let*' p := m 'in' k" := (bind m (fun p => k))
  (at level 10, p pattern, m at level 100, k at level 200).

(** *** Bytes and integers *)

Definition byte_val (b : byte) : Z := Z.of_N (Byte.to_N b).

(** The byte of value [n mod 256]. *)
Definition byte_of (n : Z) : byte :=
  default x00 (Byte.of_N (Z.to_N (n mod 256))).

(** [str(n)] for an integer. *)
Definition str_int (n : Z) : string := NilZero.string_of_int (Z.to_int n).

(** The digits of a base-2 numeral, most significant first. *)
Fixpoint bin_digits (s : string) (acc : Z) : option Z :=
  match s with
  | EmptyString => Some acc
  | String c r =>
      if Ascii.eqb c "0" then bin_digits r (2 * acc)
      else if Ascii.eqb c "1" then bin_digits r (2 * acc + 1)
      else None
  end.

(** [int(s, base=2)] on the strings a join of [str(n)] can produce (decimal
    digits and minus signs): an optional sign, then one binary digit at
    least. *)
Definition int_base2 (s : string) : res Z :=
  let invalid := Raise (ValueError "invalid literal for int() with base 2") in
  let digits (d : string) : option Z :=
    match d with
    | EmptyString => None
    | _ => bin_digits d 0
    end in
  match s with
  | String "-" r =>
      match digits r with Some n => Ok (- n) | None => invalid end
  | _ =>
      match digits s with Some n => Ok n | None => invalid end
  end.

(** *** Floats (binary64) *)

(** [float(n)] for an integer, rounded to nearest even. *)
Definition float_of_Z (n : Z) : float :=
  SF2Prim (binary_normalize prec emax n 0 false).

Definition float_of_int (n : Z) : res float :=
  let x := float_of_Z n in
  if PrimFloat.is_infinity x then Raise OverflowError else Ok x.

(** The integer a finite float truncates to (towards zero). *)
Definition trunc_float (x : float) : option Z :=
  match Prim2SF x with
  | S754_zero _ => Some 0
  | S754_finite s m e =>
      let a := Z.shiftl (Z.pos m) e in
      Some (if s then - a else a)
  | S754_infinity _ | S754_nan => None
  end.

(** [int(x)] for a float. *)
Definition int_of_float (x : float) : res Z :=
  match trunc_float x with
  | Some n => Ok n
  | None =>
      if PrimFloat.is_nan x
      then Raise (ValueError "cannot convert float NaN to integer")
      else Raise OverflowError
  end.

(** [round(x)] for a float: to the nearest integer, ties to even. *)
Definition round_float (x : float) : res Z :=
  match Prim2SF x with
  | S754_zero _ => Ok 0
  | S754_finite s m e =>
      let a :=
        if 0 <=? e then Z.pos m * 2 ^ e
        else
          let d := 2 ^ (- e) in
          let q := Z.pos m / d in
          let r := Z.pos m mod d in
          if 2 * r <? d then q
          else if d <? 2 * r then q + 1
          else if Z.even q then q else q + 1 in
      Ok (if s then - a else a)
  | S754_infinity _ => Raise OverflowError
  | S754_nan => Raise (ValueError "cannot convert float NaN to integer")
  end.

(** [math.modf(x)]: the fractional and integer parts, both with the sign
    of [x]. *)
Definition modf (x : float) : float * float :=
  match Prim2SF x with
  | S754_nan => (nan, nan)
  | S754_infinity s => (if s then (-0)%float else 0%float, x)
  | S754_zero _ => (x, x)
  | S754_finite s _ _ =>
      let signed_zero := if s then (-0)%float else 0%float in
      let ip := match trunc_float x with
                | Some n => if n =? 0 then signed_zero else float_of_Z n
                | None => x
                end in
      let fr := (x - ip)%float in
      (if PrimFloat.is_zero fr then signed_zero else fr, ip)
  end.

(** The float nearest to [n / d], for [0 <= n] and [0 < d]: the quotient is
    computed with at least 55 significant bits and a sticky bit, then
    rounded once. *)
Definition float_of_ratio (n d : Z) : float :=
  if n =? 0 then 0%float
  else
    let s := Z.max 0 (Z.log2 d + 56 - Z.log2 n) in
    let q := (n * 2 ^ s) / d in
    let r := (n * 2 ^ s) mod d in
    SF2Prim (binary_normalize prec emax
               (2 * q + (if r =? 0 then 0 else 1)) (- (s + 1)) false).

(** An IEEE 754 interchange word with [ebits] exponent bits and [mbits]
    fraction bits, read as a binary64 ([struct] widens 'f' to a float). *)
Definition float_of_ieee (ebits mbits : Z) (w : Z) : float :=
  let e := Z.land (Z.shiftr w mbits) (Z.ones ebits) in
  let m := Z.land w (Z.ones mbits) in
  let bias := Z.ones (ebits - 1) in
  let mag :=
    if e =? Z.ones ebits then (if m =? 0 then infinity else nan)
    else if e =? 0
         then Z.ldexp (of_uint63 (Uint63.of_Z m)) (1 - bias - mbits)
         else Z.ldexp (of_uint63 (Uint63.of_Z (m + 2 ^ mbits)))
                (e - bias - mbits) in
  if Z.testbit w (ebits + mbits) then (- mag)%float else mag.

(** *** [datetime.datetime] and [datetime.timedelta]

    A naive datetime is kept as its calendar fields (proleptic Gregorian
    calendar), a timedelta as its total number of microseconds; Python
    keeps a timedelta as normalised (days, seconds, microseconds) and allows
    1 <= year <= 9999 and |days| <= 999999999. *)

Record datetime : Type := mk_datetime {
  year : Z; month : Z; day : Z;
  hour : Z; minute : Z; second : Z; microsecond : Z
}.

Record timedelta : Type := Timedelta { total_us : Z }.

Definition us_per_day : Z := 86400 * 1000000.

Definition is_leap (y : Z) : bool :=
  (y mod 4 =? 0) && (negb (y mod 100 =? 0) || (y mod 400 =? 0)).

Definition days_in_month (y m : Z) : Z :=
  if m =? 2 then (if is_leap y then 29 else 28)
  else if (m =? 4) || (m =? 6) || (m =? 9) || (m =? 11) then 30
  else 31.

(** Days of the year before the first of month [m]. *)
Definition days_before_month (y m : Z) : Z :=
  nth (Z.to_nat m) [0; 0; 31; 59; 90; 120; 151; 181; 212; 243; 273; 304; 334] 0
  + (if (2 <? m) && is_leap y then 1 else 0).

Definition days_before_year (y : Z) : Z :=
  let y := y - 1 in y * 365 + y / 4 - y / 100 + y / 400.

(** The proleptic Gregorian ordinal: 0001-01-01 is day 1. *)
Definition ymd2ord (y m d : Z) : Z :=
  days_before_year y + days_before_month y m + d.

Definition max_ordinal : Z := 3652059.   (* 9999-12-31 *)

(** The inverse of [ymd2ord], by 400-, 100-, 4- and 1-year cycles; year 1
    is a common year, so [days_before_month 1] and [days_in_month 1] are the
    tables of a common year. *)
Definition ord2ymd (n : Z) : Z * Z * Z :=
  let n := n - 1 in
  let n400 := n / 146097 in let n := n mod 146097 in
  let n100 := n / 36524 in let n := n mod 36524 in
  let n4 := n / 1461 in let n := n mod 1461 in
  let n1 := n / 365 in let n := n mod 365 in
  let y := n400 * 400 + 1 + n100 * 100 + n4 * 4 + n1 in
  if (n1 =? 4) || (n100 =? 4) then (y - 1, 12, 31)
  else
    let leapyear := (n1 =? 3) && (negb (n4 =? 24) || (n100 =? 3)) in
    let m := Z.shiftr (n + 50) 5 in
    let preceding :=
      days_before_month 1 m + (if (2 <? m) && leapyear then 1 else 0) in
    if n <? preceding
    then
      let m' := m - 1 in
      let preceding' :=
        preceding - (days_in_month 1 m'
                     + (if (m' =? 2) && leapyear then 1 else 0)) in
      (y, m', n - preceding' + 1)
    else (y, m, n - preceding + 1).

(** [datetime.datetime(y, m, d, H, M, S, us)] with its range checks. *)
Definition datetime_new (y m d H M S us : Z) : res datetime :=
  if negb ((1 <=? y) && (y <=? 9999)) then Raise (ValueError "year is out of range")
  else if negb ((1 <=? m) && (m <=? 12)) then Raise (ValueError "month must be in 1..12")
  else if negb ((1 <=? d) && (d <=? days_in_month y m))
       then Raise (ValueError "day is out of range for month")
  else if negb ((0 <=? H) && (H <=? 23)) then Raise (ValueError "hour must be in 0..23")
  else if negb ((0 <=? M) && (M <=? 59)) then Raise (ValueError "minute must be in 0..59")
  else if negb ((0 <=? S) && (S <=? 59)) then Raise (ValueError "second must be in 0..59")
  else if negb ((0 <=? us) && (us <=? 999999))
       then Raise (ValueError "microsecond must be in 0..999999")
  else Ok (mk_datetime y m d H M S us).

(** Microseconds since the midnight that begins ordinal day 0. *)
Definition datetime_us (t : datetime) : Z :=
  ymd2ord (year t) (month t) (day t) * us_per_day
  + ((hour t * 60 + minute t) * 60 + second t) * 1000000 + microsecond t.

Definition datetime_of_us (us : Z) : res datetime :=
  let ord := us / us_per_day in
  let r := us mod us_per_day in
  if (0 <? ord) && (ord <=? max_ordinal)
  then
    let '(y, m, d) := ord2ymd ord in
    let secs := r / 1000000 in
    Ok (mk_datetime y m d (secs / 3600) (secs mod 3600 / 60) (secs mod 60)
          (r mod 1000000))
  else Raise OverflowError.

Definition timedelta_of_us (us : Z) : res timedelta :=
  let days := us / us_per_day in
  if (-999999999 <=? days) && (days <=? 999999999)
  then Ok (Timedelta us) else Raise OverflowError.

(** [datetime.timedelta(days)] for an integer number of days. *)
Definition timedelta_days (days : Z) : res timedelta :=
  timedelta_of_us (days * us_per_day).

(** [datetime.timedelta(seconds=x)] for a float: whole seconds from
    [modf], the fraction scaled to microseconds and rounded half to even. *)
Definition timedelta_seconds (x : float) : res timedelta :=
  let '(secondsfrac, seconds) := modf x in
  bind (int_of_float seconds) (fun s =>
  bind (round_float (secondsfrac * 1e6)%float) (fun us =>
  timedelta_of_us (s * 1000000 + us))).

(** [t + delta]. *)
Definition datetime_add (t : datetime) (delta : timedelta) : res datetime :=
  datetime_of_us (datetime_us t + total_us delta).

(** [t1 - t2], for naive datetimes. *)
Definition datetime_sub (t1 t2 : datetime) : timedelta :=
  Timedelta (datetime_us t1 - datetime_us t2).

(** [delta / n] for an integer [n]: the quotient of the microseconds,
    rounded half to even. *)
Definition timedelta_div (delta : timedelta) (n : Z) : res timedelta :=
  if n =? 0 then Raise ZeroDivisionError
  else
    let a := total_us delta in
    let q := a / n in
    let r := 2 * (a mod n) in
    let greater_than_half := if 0 <? n then n <? r else r <? n in
    let q := if greater_than_half || ((r =? n) && Z.odd q) then q + 1 else q in
    timedelta_of_us q.

(** *** Text

    A [str] is represented by the [string] of its UTF-8 bytes: an ASCII
    text is the [string] with the same characters, and any other character
    takes two to four of them.  [points] gives the code points of a text
    and [str_of_points] the text of a sequence of code points. *)

Definition is_ascii_byte (b : byte) : bool := byte_val b <? 128.

Definition is_ascii_str (s : string) : bool :=
  forallb is_ascii_byte (list_byte_of_string s).

Definition code (c : ascii) : Z := Z.of_N (N_of_ascii c).

(** The payload of a continuation byte, 10xxxxxx. *)
Definition continuation (c : ascii) : option Z :=
  let n := code c in
  if (128 <=? n) && (n <? 192) then Some (n - 128) else None.

(** The code points of strict UTF-8: no overlong form, no surrogate,
    nothing above U+10FFFF, no truncated sequence. *)
Fixpoint utf8 (s : string) : option (list Z) :=
  match s with
  | EmptyString => Some []
  | String c0 r0 =>
      let b0 := code c0 in
      if b0 <? 128 then cons b0 <$> utf8 r0
      else
        match r0 with
        | EmptyString => None
        | String c1 r1 =>
            match continuation c1 with
            | None => None
            | Some b1 =>
                if b0 <? 224 then
                  if 194 <=? b0
                  then cons ((b0 - 192) * 64 + b1) <$> utf8 r1
                  else None
                else
                  match r1 with
                  | EmptyString => None
                  | String c2 r2 =>
                      match continuation c2 with
                      | None => None
                      | Some b2 =>
                          if b0 <? 240 then
                            let p := (b0 - 224) * 4096 + b1 * 64 + b2 in
                            if (2048 <=? p)
                               && negb ((55296 <=? p) && (p <=? 57343))
                            then cons p <$> utf8 r2
                            else None
                          else
                            match r2 with
                            | EmptyString => None
                            | String c3 r3 =>
                                match continuation c3 with
                                | None => None
                                | Some b3 =>
                                    let p := (b0 - 240) * 262144 + b1 * 4096
                                             + b2 * 64 + b3 in
                                    if (b0 <? 248) && (65536 <=? p)
                                       && (p <=? 1114111)
                                    then cons p <$> utf8 r3
                                    else None
                                end
                            end
                      end
                  end
            end
        end
  end.

(** [bs.decode()]: strict UTF-8. *)
Definition decode (bs : list byte) : res string :=
  let s := string_of_list_byte bs in
  match utf8 s with
  | Some _ => Ok s
  | None => Raise UnicodeDecodeError
  end.

(** The code points of a text. *)
Definition points (s : string) : list Z := default [] (utf8 s).

(** [chr(p)]. *)
Definition chr (p : Z) : string :=
  let b (n : Z) := ascii_of_N (Z.to_N n) in
  if p <? 128 then String (b p) EmptyString
  else if p <? 2048 then
    String (b (192 + p / 64)) (String (b (128 + p mod 64)) EmptyString)
  else if p <? 65536 then
    String (b (224 + p / 4096))
      (String (b (128 + (p / 64) mod 64))
         (String (b (128 + p mod 64)) EmptyString))
  else
    String (b (240 + p / 262144))
      (String (b (128 + (p / 4096) mod 64))
         (String (b (128 + (p / 64) mod 64))
            (String (b (128 + p mod 64)) EmptyString))).

Definition str_of_points (ps : list Z) : string :=
  foldr (fun p s => (chr p ++ s)%string) EmptyString ps.

Fixpoint drop_while (p : Z -> bool) (ps : list Z) : list Z :=
  match ps with
  | c :: r => if p c then drop_while p r else ps
  | [] => []
  end.

(** The characters of a text without those of the class [p] at both
    ends. *)
Definition strip_points (p : Z -> bool) (ps : list Z) : list Z :=
  rev (drop_while p (rev (drop_while p ps))).

(** [s.strip()]. *)
Definition strip (s : string) : string :=
  str_of_points (strip_points Unicode.is_space (points s)).

(** Whether a capital sigma stands at the end of a word: after a cased
    letter and not before one, case-ignorable characters apart.
    [before] holds the characters before it, the nearest first. *)
Definition final_sigma (before after : list Z) : bool :=
  match drop_while Unicode.is_case_ignorable before with
  | c :: _ =>
      Unicode.is_cased c
      && match drop_while Unicode.is_case_ignorable after with
         | c' :: _ => negb (Unicode.is_cased c')
         | [] => true
         end
  | [] => false
  end.

Fixpoint lower_points (before ps : list Z) : list Z :=
  match ps with
  | [] => []
  | c :: r =>
      (if c =? 931 then [if final_sigma before r then 962 else 963]
       else if c =? 304 then [105; 775]
       else [Unicode.to_lower c])
      ++ lower_points (c :: before) r
  end.

(** [s.lower()]. *)
Definition lower (s : string) : string :=
  str_of_points (lower_points [] (points s)).

Fixpoint is_prefix (p s : string) : bool :=
  match p, s with
  | EmptyString, _ => true
  | String a p', String b s' => Ascii.eqb a b && is_prefix p' s'
  | String _ _, EmptyString => false
  end.

(** [p in s] for strings. *)
Fixpoint contains (p s : string) : bool :=
  is_prefix p s ||
  match s with
  | String _ s' => contains p s'
  | EmptyString => false
  end.

(** *** Values and dictionaries *)

Inductive value : Type :=
| VInt (n : Z)
| VFloat (x : float)
| VBool (b : bool)
| VBytes (bs : list byte)
| VStr (s : string)
| VDatetime (t : datetime)
| VArray (xs : list float).    (* a one-dimensional float32 numpy array *)

Abbreviation dict := (gmap string value).

(** [dict(pairs)]: a later pair overrides an earlier one with its key. *)
Definition dict_of (pairs : list (string * value)) : dict :=
  fold_left (fun d kv => <[kv.1 := kv.2]> d) pairs ∅.

(** [d[k]]. *)
Definition getitem (d : dict) (k : string) : res value :=
  match d !! k with
  | Some v => Ok v
  | None => Raise (KeyError k)
  end.

(** [d.pop(k)]: the value and the dictionary without the key. *)
Definition pop (d : dict) (k : string) : res (value * dict) :=
  match d !! k with
  | Some v => Ok (v, delete k d)
  | None => Raise (KeyError k)
  end.

Definition as_int (v : value) : res Z :=
  match v with VInt n => Ok n | _ => Raise (NotModelled "operand type") end.

Definition as_bytes (v : value) : res (list byte) :=
  match v with VBytes bs => Ok bs | _ => Raise (NotModelled "operand type") end.

Definition as_datetime (v : value) : res datetime :=
  match v with VDatetime t => Ok t | _ => Raise (NotModelled "operand type") end.

(** A number as a float operand of mixed arithmetic. *)
Definition as_float (v : value) : res float :=
  match v with
  | VFloat x => Ok x
  | VInt n => float_of_int n
  | _ => Raise (NotModelled "operand type")
  end.

(** [d.update(other)]: the bindings of [other] override those of [d]. *)
Definition update (d other : dict) : dict := other ∪ d.

(** [v.decode()] for a bytes value. *)
Definition decode_value (v : value) : res string :=
  bind (as_bytes v) decode.

(** [a * b] on numbers: an integer product when both are integers, a
    float product otherwise. *)
Definition mul (a b : value) : res value :=
  match a, b with
  | VInt m, VInt n => Ok (VInt (m * n))
  | _, _ =>
      bind (as_float a) (fun x =>
      bind (as_float b) (fun y => Ok (VFloat (x * y)%float)))
  end.

(** [a / b] on numbers (true division).  The quotient of two integers is
    computed from their float images, which is the correctly rounded
    quotient when both are below 2^53 in magnitude. *)
Definition truediv (a b : value) : res value :=
  match a, b with
  | VInt m, VInt n =>
      if n =? 0 then Raise ZeroDivisionError
      else if (Z.abs m <? 2 ^ 53) && (Z.abs n <? 2 ^ 53)
           then Ok (VFloat (float_of_Z m / float_of_Z n)%float)
           else Raise (NotModelled "true division of large integers")
  | _, _ =>
      bind (as_float a) (fun x =>
      bind (as_float b) (fun y =>
      if PrimFloat.is_zero y then Raise ZeroDivisionError
      else Ok (VFloat (x / y)%float)))
  end.

(** [a - b] on floats. *)
Definition sub (a b : value) : res value :=
  match a, b with
  | VInt m, VInt n => Ok (VInt (m - n))
  | _, _ =>
      bind (as_float a) (fun x =>
      bind (as_float b) (fun y => Ok (VFloat (x - y)%float)))
  end.

(** [a + b] on numbers. *)
Definition add (a b : value) : res value :=
  match a, b with
  | VInt m, VInt n => Ok (VInt (m + n))
  | _, _ =>
      bind (as_float a) (fun x =>
      bind (as_float b) (fun y => Ok (VFloat (x + y)%float)))
  end.

(** [v == n] for an integer literal [n]. *)
Definition eq_int (v : value) (n : Z) : bool :=
  match v with
  | VInt m => m =? n
  | VFloat x => PrimFloat.eqb x (float_of_Z n)
  | VBool b => Z.b2z b =? n
  | _ => false
  end.

(** *** Binary files *)

Record file : Type := mk_file { content : list byte; position : nat }.

(** [open(filename, 'rb')] on a file holding [bs]. *)
Definition open (bs : list byte) : file := mk_file bs 0.

(** [f.read(n)]: the next [n] bytes, fewer at the end of the file. *)
Definition read (f : file) (n : nat) : list byte * file :=
  let data := firstn n (skipn (position f) (content f)) in
  (data, mk_file (content f) (position f + length data)).

(** [f.seek(p)]. *)
Definition seek (f : file) (p : nat) : file := mk_file (content f) p.

(** [f.read()]: the bytes from the read position to the end of the file. *)
Definition read_all (f : file) : list byte * file :=
  let data := skipn (position f) (content f) in
  (data, mk_file (content f) (position f + length data)).

End Py.
Import Py.

(** ** The [struct] module: format strings, sizes and unpacking

    The format codes modelled are the ones of standard size under an
    explicit byte order: [x c b B h H i I l L q Q f d s]. *)

Module Struct.

Inductive byte_order : Type := LittleEndian | BigEndian.

Inductive code : Type :=
| Pad                 (* x: a pad byte, no value *)
| Char                (* c: a bytes object of length 1 *)
| SInt (w : nat)      (* b h i l q: a signed integer of w bytes *)
| UInt (w : nat)      (* B H I L Q: an unsigned integer of w bytes *)
| F32                 (* f *)
| F64                 (* d *)
| Bytes.              (* s: the count is the length of one bytes object *)

Definition code_of_char (c : ascii) : option code :=
  match c with
  | "x"%char => Some Pad
  | "c"%char => Some Char
  | "b"%char => Some (SInt 1)
  | "B"%char => Some (UInt 1)
  | "h"%char => Some (SInt 2)
  | "H"%char => Some (UInt 2)
  | "i"%char | "l"%char => Some (SInt 4)
  | "I"%char | "L"%char => Some (UInt 4)
  | "q"%char => Some (SInt 8)
  | "Q"%char => Some (UInt 8)
  | "f"%char => Some F32
  | "d"%char => Some F64
  | "s"%char => Some Bytes
  | _ => None
  end.

Definition digit_of_char (c : ascii) : option nat :=
  let n := nat_of_ascii c in
  if (48 <=? n)%nat && (n <=? 57)%nat then Some (n - 48)%nat else None.

(** The items of a format string after its byte-order character: each an
    optional decimal repeat count and a code. *)
Fixpoint parse_items (s : string) (count : option nat)
  : res (list (nat * code)) :=
  match s with
  | EmptyString =>
      match count with
      | None => Ok []
      | Some _ =>
          Raise (StructError "repeat count given without format specifier")
      end
  | String c r =>
      match digit_of_char c with
      | Some d =>
          parse_items r (Some (10 * default 0%nat count + d)%nat)
      | None =>
          match code_of_char c with
          | Some k =>
              bind (parse_items r None) (fun items =>
              Ok ((default 1%nat count, k) :: items))
          | None => Raise (NotModelled "struct format character")
          end
      end
  end.

Definition parse (fmt : string) : res (byte_order * list (nat * code)) :=
  match fmt with
  | String "<" r => bind (parse_items r None) (fun l => Ok (LittleEndian, l))
  | String ">" r | String "!" r =>
      bind (parse_items r None) (fun l => Ok (BigEndian, l))
  | _ => Raise (NotModelled "struct format without explicit byte order")
  end.

(** Bytes one value of the code takes. *)
Definition width (k : code) : nat :=
  match k with
  | Pad | Char | Bytes => 1
  | SInt w | UInt w => w
  | F32 => 4
  | F64 => 8
  end.

Definition item_size (item : nat * code) : nat := item.1 * width item.2.

Definition items_size (items : list (nat * code)) : nat :=
  foldr (fun item n => (item_size item + n)%nat) 0%nat items.

(** [struct.calcsize(fmt)]. *)
Definition calcsize (fmt : string) : res nat :=
  bind (parse fmt) (fun p => Ok (items_size p.2)).

(** The unsigned integer of a little-endian byte string. *)
Fixpoint le_unsigned (bs : list byte) : Z :=
  match bs with
  | [] => 0
  | b :: r => byte_val b + 256 * le_unsigned r
  end.

(** The same bytes as a two's complement integer. *)
Definition le_signed (bs : list byte) : Z :=
  let u := le_unsigned bs in
  let n := 8 * Z.of_nat (length bs) in
  if u <? 2 ^ (n - 1) then u else u - 2 ^ n.

(** One value of a code from exactly [width k] bytes. *)
Definition decode1 (o : byte_order) (k : code) (bs : list byte) : value :=
  let le := match o with LittleEndian => bs | BigEndian => rev bs end in
  match k with
  | Pad | Char | Bytes => VBytes bs
  | SInt _ => VInt (le_signed le)
  | UInt _ => VInt (le_unsigned le)
  | F32 => VFloat (float_of_ieee 8 23 (le_unsigned le))
  | F64 => VFloat (float_of_ieee 11 52 (le_unsigned le))
  end.

(** [n] consecutive chunks of [w] bytes. *)
Fixpoint chunks (w n : nat) (bs : list byte) : list (list byte) :=
  match n with
  | O => []
  | S n' => firstn w bs :: chunks w n' (skipn w bs)
  end.

(** The values of one item from its [item_size] bytes. *)
Definition unpack_item (o : byte_order) (item : nat * code)
    (bs : list byte) : list value :=
  match item.2 with
  | Pad => []
  | Bytes => [VBytes bs]
  | k => map (decode1 o k) (chunks (width k) item.1 bs)
  end.

Fixpoint unpack_items (o : byte_order) (items : list (nat * code))
    (bs : list byte) : list value :=
  match items with
  | [] => []
  | item :: r =>
      unpack_item o item (firstn (item_size item) bs)
      ++ unpack_items o r (skipn (item_size item) bs)
  end.

(** [struct.unpack(fmt, data)]: the buffer must have the exact size. *)
Definition unpack (fmt : string) (data : list byte) : res (list value) :=
  bind (parse fmt) (fun p =>
  if (length data =? items_size p.2)%nat
  then Ok (unpack_items p.1 p.2 data)
  else Raise (StructError "unpack requires a buffer of the format's size")).

End Struct.

(** ** The part of [numpy] the readers use *)

Module Np.

(** [np.fromfile(f, dtype='f')]: every complete 4-byte item from the read
    position to the end of the file, as little-endian float32.  The item
    count is the number of bytes left divided by 4 and rounded towards
    zero: with the read position 4 bytes or more past the end of the file
    it is negative, and numpy raises. *)
Definition fromfile_f32 (f : file) : res (list float * file) :=
  if (length (content f) + 4 <=? position f)%nat
  then Raise (ValueError "negative dimensions are not allowed")
  else
    let rest := skipn (position f) (content f) in
    let m := (length rest / 4)%nat in
    Ok (map (fun c => float_of_ieee 8 23 (Struct.le_unsigned c))
          (Struct.chunks 4 m rest),
        mk_file (content f) (position f + 4 * m)).

(** [np.frombuffer(buf, dtype='f')]: the whole buffer as little-endian
    float32; its size must be a multiple of 4. *)
Definition frombuffer_f32 (buf : list byte) : res (list float) :=
  if (length buf mod 4 =? 0)%nat
  then Ok (map (fun c => float_of_ieee 8 23 (Struct.le_unsigned c))
             (Struct.chunks 4 (length buf / 4) buf))
  else Raise (ValueError "buffer size must be a multiple of element size").

(** [data[:n]]: the first [n] items, or all but the last [-n] when [n] is
    negative. *)
Definition slice_to (data : list float) (n : Z) : list float :=
  if 0 <=? n then firstn (Z.to_nat n) data
  else firstn (length data - Z.to_nat (- n)) data.

End Np.
(** ** The part of [re] the text reader uses

    A pattern is kept as its syntax tree.  Matching is the backtracking
    search of [re.match]: anchored at the start of the string, quantifiers
    greedy, alternatives tried from the left, the first success taken.
    The text is matched character by character, that is on its code
    points, and the classes are the Unicode ones of a [str] pattern. *)

Module Re.

Inductive re : Type :=
| Eps
| Lit (c : ascii)                               (* a literal character *)
| AnyChar                                       (* . *)
| Rep (p : Z -> bool) (lo : nat) (hi : option nat)
                                                (* [set]{lo,hi}, greedy *)
| Seq (r1 r2 : re)
| Alt (r1 r2 : re)                              (* r1|r2 *)
| Group (name : string) (r : re).               (* (?P<name>r) *)

Definition seq (rs : list re) : re := foldr Seq Eps rs.
Definition alt (r : re) (rs : list re) : re := foldl Alt r rs.
Definition one (p : Z -> bool) : re := Rep p 1 (Some 1%nat).
Definition plus (p : Z -> bool) : re := Rep p 1 None.

Definition in_range (lo hi : Z) (c : Z) : bool := (lo <=? c) && (c <=? hi).

Definition digit : Z -> bool := Unicode.is_decimal.            (* \d *)
Definition upper : Z -> bool := in_range 65 90.                (* [A-Z] *)
Definition word : Z -> bool := Unicode.is_word.                (* \w *)
Definition space : Z -> bool := Unicode.is_space.              (* \s *)
Definition is_char (a : ascii) (c : Z) : bool := code a =? c.
(** A literal under [re.IGNORECASE]: the characters with the lowercase of
    [a], and the two lowercase letters that share their capital with an
    ASCII letter (dotless i with [i], long s with [s]). *)
Definition is_char_ci (a : ascii) (c : Z) : bool :=
  let l := Unicode.to_lower (code a) in
  (Unicode.to_lower c =? l)
  || ((l =? 105) && (c =? 305)) || ((l =? 115) && (c =? 383)).

(** The literal string [s], case-insensitively. *)
Definition lit_ci (s : string) : re :=
  seq (map (fun a => one (is_char_ci a)) (list_ascii_of_string s)).
Definition lit (s : string) : re := seq (map Lit (list_ascii_of_string s)).

(** The length of the longest prefix of [s] within the set, up to [hi]. *)
Fixpoint run (p : Z -> bool) (hi : option nat) (s : list Z) : nat :=
  match hi with
  | Some O => O
  | _ =>
      match s with
      | c :: r =>
          if p c then S (run p (option_map Nat.pred hi) r) else O
      | [] => O
      end
  end.

Section Matcher.
Context {R : Type}.

(** The groups captured so far, the latest first. *)
Definition captures : Type := list (string * string).

(** Try the continuation after [lo + extra], [lo + extra - 1], ..., [lo]
    characters of the set. *)
Fixpoint try_longest (lo extra : nat) (s : list Z)
    (k : list Z -> option R) : option R :=
  match k (skipn (lo + extra) s) with
  | Some x => Some x
  | None =>
      match extra with
      | O => None
      | S extra' => try_longest lo extra' s k
      end
  end.

Fixpoint matches (r : re) (s : list Z) (caps : captures)
    (k : list Z -> captures -> option R) : option R :=
  match r with
  | Eps => k s caps
  | Lit c =>
      match s with
      | c' :: s' => if code c =? c' then k s' caps else None
      | [] => None
      end
  | AnyChar =>
      match s with
      | c' :: s' => if c' =? 10 then None else k s' caps
      | [] => None
      end
  | Rep p lo hi =>
      let n := run p hi s in
      if (n <? lo)%nat then None
      else try_longest lo (n - lo) s (fun s' => k s' caps)
  | Seq r1 r2 =>
      matches r1 s caps (fun s' caps' => matches r2 s' caps' k)
  | Alt r1 r2 =>
      match matches r1 s caps k with
      | Some x => Some x
      | None => matches r2 s caps k
      end
  | Group name r1 =>
      matches r1 s caps (fun s' caps' =>
        k s' ((name, str_of_points (firstn (length s - length s') s))
              :: caps'))
  end.
End Matcher.

(** [re.match(r, s)]: the captures and the unmatched rest of [s]. *)
Definition match_ (r : re) (s : string) : option (captures * string) :=
  matches r (points s) [] (fun rest caps => Some (caps, str_of_points rest)).

(** [m.groupdict()]. *)
Definition groupdict (caps : captures) : dict :=
  dict_of (map (fun c => (c.1, VStr c.2)) (rev caps)).

Definition group (caps : captures) (name : string) : string :=
  match find (fun c => String.eqb c.1 name) caps with
  | Some c => c.2
  | None => EmptyString
  end.

End Re.

(** ** Conversions of header text: [int], [float], [str], [strptime] *)

Module Conv.

(** The value of a run of decimal digits, of any script. *)
Fixpoint digits_value (ps : list Z) (acc : Z) : option Z :=
  match ps with
  | [] => Some acc
  | c :: r =>
      match Unicode.decimal c with
      | Some d => digits_value r (10 * acc + d)
      | None => None
      end
  end.

(** The blanks [int] skips at both ends: the whitespace characters but
    the four ASCII separators 28 to 31. *)
Definition is_blank (c : Z) : bool :=
  Unicode.is_space c && negb ((28 <=? c) && (c <=? 31)).

(** The integer a text of digits and whitespace denotes for [int]:
    the blanks at both ends are dropped and the rest must be a non-empty
    run of digits. *)
Definition int_of_points (ps : list Z) : option Z :=
  match strip_points is_blank ps with
  | [] => None
  | t => digits_value t 0
  end.

(** [int(s)] on text made of digits and whitespace.  Other forms [int]
    accepts (a sign, underscores) are outside this fragment. *)
Definition int_of_str (s : string) : res value :=
  let ps := points s in
  if forallb (fun c => Re.digit c || Unicode.is_space c) ps then
    match int_of_points ps with
    | Some n => Ok (VInt n)
    | None => Raise (ValueError "invalid literal for int() with base 10")
    end
  else Raise (NotModelled "int() of text other than digits and blanks").

(** The characters before and after the first dot. *)
Fixpoint split_dot (ps : list Z) : list Z * option (list Z) :=
  match ps with
  | [] => ([], None)
  | c :: r =>
      if c =? 46 then ([], Some r)
      else let '(a, b) := split_dot r in (c :: a, b)
  end.

(** [float(s)] on text made of digits and dots: digits with at most one
    dot and one digit at least, read as the nearest binary64.  Other forms
    [float] accepts (a sign, an exponent, inf, nan) are outside this
    fragment. *)
Definition float_of_str (s : string) : res value :=
  let invalid := Raise (ValueError "could not convert string to float") in
  let ps := points s in
  if forallb (fun c => Re.digit c || (c =? 46)) ps then
    let '(ip, fp) := split_dot ps in
    let fp := default [] fp in
    match digits_value (ip ++ fp) 0 with
    | Some n =>
        if (length ip + length fp =? 0)%nat then invalid
        else Ok (VFloat (float_of_ratio n (10 ^ Z.of_nat (length fp))))
    | None => invalid        (* a second dot *)
    end
  else Raise (NotModelled "float() of text other than digits and dots").

(** The built-in [int] as a converter. *)
Definition int_ (v : value) : res value :=
  match v with
  | VStr s => int_of_str s
  | VInt n => Ok (VInt n)
  | VBool b => Ok (VInt (Z.b2z b))
  | VFloat x => bind (int_of_float x) (fun n => Ok (VInt n))
  | _ => Raise (NotModelled "operand type")
  end.

(** The built-in [float] as a converter. *)
Definition float_ (v : value) : res value :=
  match v with
  | VStr s => float_of_str s
  | VFloat x => Ok (VFloat x)
  | VInt n => bind (float_of_int n) (fun x => Ok (VFloat x))
  | VBool b => Ok (VFloat (float_of_Z (Z.b2z b)))
  | _ => Raise (NotModelled "operand type")
  end.

(** The built-in [str] as a converter, on text. *)
Definition str_ (v : value) : res value :=
  match v with
  | VStr s => Ok (VStr s)
  | VInt n => Ok (VStr (str_int n))
  | _ => Raise (NotModelled "str() of a value that is not text or an integer")
  end.

(** *** [datetime.strptime]

    A format is translated to a pattern, directive by directive, as
    [_strptime] does (C locale): a blank in the format matches one blank
    at least, the match is case-insensitive and must use up the string. *)

Definition month_abbr : list string :=
  ["jan"; "feb"; "mar"; "apr"; "may"; "jun";
   "jul"; "aug"; "sep"; "oct"; "nov"; "dec"].

Definition directive (c : ascii) : option Re.re :=
  let d := Re.one Re.digit in
  let r lo hi := Re.one (Re.in_range lo hi) in
  match c with
  | "d"%char =>     (* 3[0-1]|[1-2]\d|0[1-9]|[1-9]| [1-9] *)
      Some (Re.Group "d" (Re.alt (Re.Seq (Re.Lit "3") (r 48 49))
              [Re.Seq (r 49 50) d; Re.Seq (Re.Lit "0") (r 49 57);
               (r 49 57); Re.Seq (Re.Lit " ") (r 49 57)]))
  | "b"%char =>
      Some (Re.Group "b" (Re.alt (Re.lit_ci "jan")
              (map Re.lit_ci (tail month_abbr))))
  | "Y"%char => Some (Re.Group "Y" (Re.seq [d; d; d; d]))
  | "H"%char =>     (* 2[0-3]|[0-1]\d|\d *)
      Some (Re.Group "H" (Re.alt (Re.Seq (Re.Lit "2") (r 48 51))
              [Re.Seq (r 48 49) d; d]))
  | "M"%char =>     (* [0-5]\d|\d *)
      Some (Re.Group "M" (Re.alt (Re.Seq (r 48 53) d) [d]))
  | "S"%char =>     (* 6[0-1]|[0-5]\d|\d *)
      Some (Re.Group "S" (Re.alt (Re.Seq (Re.Lit "6") (r 48 49))
              [Re.Seq (r 48 53) d; d]))
  | _ => None
  end.

Fixpoint format_re (fmt : string) : option Re.re :=
  match fmt with
  | EmptyString => Some Re.Eps
  | String "%" (String c r) =>
      match directive c, format_re r with
      | Some d, Some rest => Some (Re.Seq d rest)
      | _, _ => None
      end
  | String c r =>
      match format_re r with
      | Some rest =>
          Some (Re.Seq (if Unicode.is_space (code c) then Re.plus Re.space
                        else Re.one (Re.is_char_ci c)) rest)
      | None => None
      end
  end.

(** The 1-based position of a month abbreviation, 0 when it is none. *)
Fixpoint month_index (name : string) (l : list string) (i : Z) : Z :=
  match l with
  | [] => 0
  | m :: r => if String.eqb m name then i else month_index name r (i + 1)
  end.

(** The number a captured group stands for ([int] of its text; [dflt]
    when the group is absent). *)
Definition group_number (caps : Re.captures) (name : string) (dflt : Z) : Z :=
  match find (fun c => String.eqb c.1 name) caps with
  | Some c => default dflt (int_of_points (points c.2))
  | None => dflt
  end.

(** [datetime.strptime(s, fmt)] for formats over %d %b %Y %H %M %S.  A
    month name the pattern lets through and the month table does not hold
    (one written with a long s) is a [ValueError] too. *)
Definition strptime (s fmt : string) : res datetime :=
  match format_re fmt with
  | None => Raise (NotModelled "strptime directive")
  | Some r =>
      match Re.match_ r s with
      | None => Raise (ValueError "time data does not match format")
      | Some (caps, String _ _) => Raise (ValueError "unconverted data remains")
      | Some (caps, EmptyString) =>
          month <-
            (if existsb (fun c => String.eqb c.1 "b") caps then
               let i := month_index (lower (Re.group caps "b")) month_abbr 1 in
               if i =? 0 then Raise (ValueError "month name is not in list")
               else Ok i
             else Ok 1) ;;
          datetime_new
            (group_number caps "Y" 1900)
            month
            (group_number caps "d" 1)
            (group_number caps "H" 0)
            (group_number caps "M" 0)
            (group_number caps "S" 0)
            0
      end
  end.

End Conv.
(** ** [spector/utils/io.py] *)

Module Io.

(** The eight bits of a byte, least significant first:
    [[(byte >> i) & 1 for i in range(8)]]. *)
Definition bits8 (byte : Z) : list Z :=
  map (fun i => Z.land (Z.shiftr byte (Z.of_nat i)) 1) (seq 0 8).

Definition bytes_2_bits (bytes_list : list byte) (swap : bool) : list Z :=
  fold_left
    (fun bits_list b =>
       let bits8 := bits8 (byte_val b) in
       let bits8 := if swap then rev bits8 else bits8 in
       bits_list ++ bits8)
    bytes_list [].

Definition bits_2_int (bits_list : list Z) (swap : bool) : res Z :=
  let bits_list := if swap then rev bits_list else bits_list in
  int_base2 (String.concat "" (map str_int bits_list)).

Definition intdec_2_float (vi vd : value) : res value :=
  let df := VFloat 16777216%float in        (* 2.**24 *)
  q <- truediv vd df ;;
  add vi q.

(** A field specification: a name or None, and a [struct] format. *)
Definition ffmt_t : Type := list (option string * string).

Definition read_bin_block (f : file) (ffmt : ffmt_t) (pos : option nat)
    (endian : string) : res (dict * file) :=
  let fmt := (endian ++ String.concat "" (map snd ffmt))%string in
  nbytes <- Struct.calcsize fmt ;;
  let f := match pos with Some p => seek f p | None => f end in
  let fkeys := omap fst ffmt in
  let '(data, f) := read f nbytes in
  fvals <- Struct.unpack fmt data ;;
  Ok (dict_of (zip fkeys fvals), f).

(** A table of converters, in the insertion order of the Python dict. *)
Definition ftype_t : Type := list (string * (value -> res value)).

Definition read_str_block (string : string) (regex : Re.re)
    (ftype : option ftype_t) : res dict :=
  fields <-
    match Re.match_ regex string with
    | Some (caps, _) => Ok (Re.groupdict caps)
    | None =>
        Raise (AttributeError
                 "'NoneType' object has no attribute 'groupdict'")
    end ;;
  match ftype with
  | None => Ok fields
  | Some table =>
      foldM (fun fields kf =>
               v <- getitem fields kf.1 ;;
               v' <- kf.2 v ;;
               Ok (<[kf.1 := v']> fields))
            fields table
  end.

End Io.

(** ** [spector/utils/misc.py] *)

Module Misc.

(** [dict((v, k) for k, v in d.items())], the dictionary given by its items
    in insertion order. *)
Definition inv_dict (d : list (Z * string)) : gmap string Z :=
  fold_left (fun m kv => <[kv.2 := kv.1]> m) d ∅.

End Misc.

(** ** [spector/io/_iocodes.py] *)

Module Iocodes.

Definition source_id : list (Z * string) :=
  [(0, "unknown"); (4, "sun"); (5, "moon")].

End Iocodes.

(** ** [spector/io/_iofmt.py] *)

Module Iofmt.

Definition fts1_header_ffmt : Io.ffmt_t := [
  (None, "14x");
  (Some "source", "10s");
  (None, "12x");
  (Some "dayofyear_begin", "h");
  (Some "year_begin", "h");
  (Some "dayofyear_end", "h");
  (Some "year_end", "h");
  (Some "correction_factor", "f");
  (None, "222x");
  (Some "aperture", "f");
  (Some "nb_scan_backward", "h");
  (None, "2x");
  (Some "ftype", "12s");
  (None, "308x");
  (Some "n_points", "i");
  (Some "wavenumber_begin", "d");
  (Some "wavenumber_end", "d");
  (Some "opd", "d");
  (Some "sun_elevation", "f");
  (None, "10x");
  (Some "sn_ratio", "h");
  (Some "secz", "f");
  (Some "hour_avg", "f");
  (None, "138x");
  (Some "name", "12s");
  (None, "68x");
  (Some "nb_scan_forward", "h")
].

Definition bruker_header_ffmt : Io.ffmt_t := [
  (None, "4x");
  (Some "name", "12s");
  (None, "4x");
  (Some "n_points", "i");
  (None, "236x");
  (Some "n_points2", "i");
  (Some "n_scan_forward", "i");
  (None, "4x");
  (Some "scale_factor", "i");
  (Some "waven_begin_i", "i");
  (Some "waven_begin_d", "i");
  (Some "waven_end_i", "i");
  (Some "waven_end_d", "i");
  (Some "date_block", "4s");
  (Some "time_block", "4s");
  (None, "16x");
  (Some "sn_ratio", "i");
  (None, "36x");
  (Some "aperture_id", "i");
  (None, "12x");
  (Some "beamsplitter_id", "i");
  (None, "152x");
  (Some "laserf_i", "i");
  (Some "laserf_d", "i");
  (None, "32x");
  (Some "filter_id", "i");
  (None, "124x");
  (Some "source_id", "i");
  (None, "348x");
  (Some "resolution_i", "i");
  (Some "resolution_d", "i");
  (None, "92x");
  (Some "correction_factor", "f");
  (Some "sun_elevation", "f");
  (None, "124x")
].

Definition spec_header_ffmt : Io.ffmt_t := [
  (Some "n_records", "i");
  (Some "created_pc", "20s");
  (Some "modified_pc", "20s");
  (Some "created_hp1000", "20s");
  (Some "modified_hp1000", "20s");
  (None, "44x")
].

Definition spec_record_ffmt : Io.ffmt_t := [
  (Some "name", "12s");
  (Some "hour_begin", "f");
  (Some "hour_end", "f");
  (Some "hour_avg", "f");
  (Some "sun_elevation", "f");
  (Some "air_mass", "f");
  (Some "mec_velocity", "h");
  (Some "filter_io_ratio", "h");
  (Some "sampling_frequency", "i");
  (None, "2x");
  (Some "n_points_itf", "h");
  (Some "n_points_fft", "h");
  (Some "source_id", "h");
  (Some "detector_id", "h");
  (Some "beamsplitter_id", "h");
  (Some "filter_id", "h");
  (Some "n_scan_forward", "h");
  (Some "n_scan_backward", "h");
  (Some "sn_ratio", "h");
  (Some "aperture", "f");
  (Some "detector_potential", "h");
  (Some "resistance", "h");
  (Some "tape_id", "h");
  (Some "max_transmittance", "f");
  (Some "band_id", "h");
  (Some "rms_noise", "f");
  (Some "year_avg", "h");
  (Some "dayofyear_avg", "h");
  (Some "year_begin", "h");
  (Some "dayofyear_begin", "h");
  (Some "year_end", "h");
  (Some "dayofyear_end", "h");
  (None, "2x");
  (Some "quality", "2s");
  (None, "2x");
  (Some "temperature", "h");
  (Some "pressure", "h");
  (Some "relative_humidity", "c");
  (Some "tropopause_height", "c");
  (Some "wavenumber_begin", "f");
  (Some "wavenumber_end", "f");
  (Some "n_points", "i");
  (Some "resolution", "f");
  (Some "wavenumber_step", "d")
].

(** The pattern
    [(?P<spec_type>[A-Z]{3})-(?P<name>[\w.]{12}) (?P<date>[\w ]{11})  ]
    [(?P<resolution>[\d.]+)mK (?P<aperture>[\d.]+) mm ]
    [Ap.ZA=(?P<zenith_angle>[\d.]+) S/N=(?P<sn_ratio>[\d ]+) ]
    [h=(?P<hour_avg>[\d.]+)], one line of the source per line below. *)
Definition rinsland_header_regex : Re.re :=
  let set (p : Z -> bool) (n : Z) :=
    Re.Rep p (Z.to_nat n) (Some (Z.to_nat n)) in
  let word_dot c := Re.word c || Re.is_char "." c in
  let word_blank c := Re.word c || Re.is_char " " c in
  let digit_dot c := Re.digit c || Re.is_char "." c in
  let digit_blank c := Re.digit c || Re.is_char " " c in
  Re.seq [
    Re.Group "spec_type" (set Re.upper 3); Re.lit "-";
    Re.Group "name" (set word_dot 12); Re.lit " ";
    Re.Group "date" (set word_blank 11); Re.lit "  ";
    Re.Group "resolution" (Re.plus digit_dot); Re.lit "mK ";
    Re.Group "aperture" (Re.plus digit_dot); Re.lit " mm ";
    Re.lit "Ap"; Re.AnyChar; Re.lit "ZA=";
    Re.Group "zenith_angle" (Re.plus digit_dot); Re.lit " ";
    Re.lit "S/N="; Re.Group "sn_ratio" (Re.plus digit_blank); Re.lit " ";
    Re.lit "h="; Re.Group "hour_avg" (Re.plus digit_dot)
  ].

Definition rinsland_header_ftype : Io.ftype_t := [
  ("spec_type", Conv.str_); ("name", Conv.str_);
  ("date", fun d =>
     match d with
     | VStr s => t <- Conv.strptime s "%d %b %Y" ;; Ok (VDatetime t)
     | _ => Raise (NotModelled "operand type")
     end);
  ("resolution", Conv.float_); ("aperture", Conv.float_);
  ("zenith_angle", Conv.float_); ("sn_ratio", Conv.int_);
  ("hour_avg", Conv.float_)
].

Definition rinsland_datahdr_ffmt : Io.ffmt_t := [
  (Some "wavenumber_begin", "d");
  (Some "wavenumber_end", "d");
  (Some "wavenumber_step", "d");
  (Some "n_points", "i")
].

End Iofmt.
(** ** [spector/io/legacy.py] *)

Module Legacy.

(** [spec[k] = spec[k].decode().strip()]. *)
Definition decode_strip (spec : dict) (k : string) : res dict :=
  v <- getitem spec k ;;
  s <- decode_value v ;;
  Ok (<[k := VStr (strip s)]> spec).

(** [[d.pop(k) for k in keys]]. *)
Fixpoint pop_list (d : dict) (keys : list string)
  : res (list value * dict) :=
  match keys with
  | [] => Ok ([], d)
  | k :: r =>
      let* (v, d) := pop d k in
      let* (vs, d) := pop_list d r in
      Ok (v :: vs, d)
  end.

(** [datetime.timedelta(seconds=v)] for a number. *)
Definition timedelta_seconds_of (v : value) : res timedelta :=
  match v with
  | VFloat x => timedelta_seconds x
  | VInt n => timedelta_of_us (n * 1000000)
  | _ => Raise (NotModelled "operand type")
  end.

(** [datetime.datetime(year, 1, 1) + datetime.timedelta(dayofyear - 1)]. *)
Definition year_day (year dayofyear : value) : res datetime :=
  y <- as_int year ;;
  jan1 <- datetime_new y 1 1 0 0 0 0 ;;
  n <- as_int dayofyear ;;
  delta <- timedelta_days (n - 1) ;;
  datetime_add jan1 delta.

(** [t + datetime.timedelta(seconds=hour * 3600)]. *)
Definition plus_hours (t : datetime) (hour : value) : res datetime :=
  seconds <- mul hour (VInt 3600) ;;
  delta <- timedelta_seconds_of seconds ;;
  datetime_add t delta.

(** *** [read_fts1] *)

(** One turn of the loop over the suffixes 'begin' and 'end'. *)
Definition fts1_datetime (spec : dict) (suffix : string) : res dict :=
  let datetime_key := String.concat "_" ["datetime"; suffix] in
  let h_dt_keys :=
    map (fun t => String.concat "_" [t; suffix]) ["year"; "dayofyear"] in
  let* (vals, spec) := pop_list spec h_dt_keys in
  match vals with
  | [year; dayofyear] =>
      t <- year_day year dayofyear ;;
      Ok (<[datetime_key := VDatetime t]> spec)
  | _ => Raise (ValueError "wrong number of values to unpack")
  end.

(** The header of an FTS1 file, read and post-processed (everything before
    the samples are read). *)
Definition fts1_header (filename : list byte) : res dict :=
  (* --- read header *)
  let* (spec, _) :=
    Io.read_bin_block (open filename) Iofmt.fts1_header_ffmt None "<" in
  (* strings *)
  spec <- foldM decode_strip spec ["name"; "source"; "ftype"] ;;
  (* dates *)
  spec <- foldM fts1_datetime spec ["begin"; "end"] ;;
  t_end <- bind (getitem spec "datetime_end") as_datetime ;;
  t_begin <- bind (getitem spec "datetime_begin") as_datetime ;;
  let dt_delta := datetime_sub t_end t_begin in
  let* (hour, spec) := pop spec "hour_avg" in
  t_begin <- bind (getitem spec "datetime_begin") as_datetime ;;
  half <- timedelta_div dt_delta 2 ;;
  t_mid <- datetime_add t_begin half ;;
  t_avg <- plus_hours t_mid hour ;;
  let spec := <["datetime_avg" := VDatetime t_avg]> spec in
  (* source string -> source id *)
  let ids := Misc.inv_dict Iocodes.source_id in
  let* (source, spec) := pop spec "source" in
  source <- match source with
            | VStr s => Ok (lower s)
            | _ => Raise (NotModelled "operand type")
            end ;;
  let spec := <["source_id" := VInt (default 0 (ids !! source))]> spec in
  (* resolution *)
  let* (opd, spec) := pop spec "opd" in
  resolution <- truediv (VFloat 500) opd ;;
  let spec := <["resolution" := resolution]> spec in
  (* wavenumber step *)
  wn_end <- getitem spec "wavenumber_end" ;;
  wn_begin <- getitem spec "wavenumber_begin" ;;
  wn_range <- sub wn_end wn_begin ;;
  n_points <- getitem spec "n_points" ;;
  wn_step <- truediv wn_range n_points ;;
  Ok (<["wavenumber_step" := wn_step]> spec).

Definition read_fts1 (filename : list byte) : res dict :=
  spec <- fts1_header filename ;;
  (* --- read data *)
  let f := seek (open filename) 2048 in     (* header = 2048 bytes *)
  let* (data, _) := Np.fromfile_f32 f in
  n_points <- bind (getitem spec "n_points") as_int ;;
  Ok (<["data" := VArray (Np.slice_to data n_points)]> spec).

(** *** [read_bruker] *)

(** [l[a:b]] for [0 <= a <= b]. *)
Definition slice {A : Type} (l : list A) (a b : nat) : list A :=
  firstn (b - a) (skipn a l).

(** [a != b] on integers. *)
Definition ne (a b : value) : res bool :=
  match a, b with
  | VInt m, VInt n => Ok (negb (m =? n))
  | _, _ => Raise (NotModelled "operand type")
  end.

(** A [str.format] argument rendered by [{}]. *)
Definition format_arg (v : value) : res string :=
  match v with
  | VStr s => Ok s
  | VInt n => Ok (str_int n)
  | _ => Raise (NotModelled "str.format of this value")
  end.

(** The cross-check of the two point counts, and [n_points2] renamed. *)
Definition bruker_n_points (spec : dict) : res dict :=
  n_points <- getitem spec "n_points" ;;
  n_points2 <- getitem spec "n_points2" ;;
  mismatch <- ne n_points n_points2 ;;
  if mismatch : bool then
    a0 <- bind (getitem spec "name") format_arg ;;
    a1 <- bind (getitem spec "n_points1") format_arg ;;
    a2 <- bind (getitem spec "n_points2") format_arg ;;
    Raise (ValueError ("number of points mismatch in file " ++ a0
                       ++ " (" ++ a1 ++ ", " ++ a2 ++ ")"))
  else
    let* (n_points2, spec) := pop spec "n_points2" in
    Ok (<["n_points" := n_points2]> spec).

(** The datetime packed in the date and time blocks. *)
Definition bruker_datetime (date_block time_block : list byte)
  : res datetime :=
  let dateb := Io.bytes_2_bits date_block false in
  let timeb := Io.bytes_2_bits time_block false in
  tenths <- Io.bits_2_int (slice timeb 0 12) true ;;
  sec <- bind (truediv (VInt tenths) (VInt 10)) as_float ;;
  let '(secd, seci) := modf sec in
  y <- Io.bits_2_int (slice dateb 12 24) true ;;
  mo <- Io.bits_2_int (slice dateb 6 12) true ;;
  d <- Io.bits_2_int (slice dateb 0 6) true ;;
  h <- Io.bits_2_int (slice timeb 18 24) true ;;
  mi <- Io.bits_2_int (slice timeb 12 18) true ;;
  s <- int_of_float seci ;;
  us <- int_of_float (secd * 1e6)%float ;;
  datetime_new y mo d h mi s us.

(** [spec[key] = intdec_2_float(spec.pop(ki), spec.pop(kd))]. *)
Definition bruker_intdec (spec : dict) (key ki kd : string) : res dict :=
  let* (vi, spec) := pop spec ki in
  let* (vd, spec) := pop spec kd in
  x <- Io.intdec_2_float vi vd ;;
  Ok (<[key := x]> spec).

Definition read_bruker (filename : list byte) : res dict :=
  (* --- read header *)
  let* (spec, _) :=
    Io.read_bin_block (open filename) Iofmt.bruker_header_ffmt None "<" in
  (* --- post-processing header *)
  (* string *)
  spec <- decode_strip spec "name" ;;
  (* keep `n_points2` *)
  spec <- bruker_n_points spec ;;
  (* date *)
  let* (date_block, spec) := pop spec "date_block" in
  date_block <- as_bytes date_block ;;
  let* (time_block, spec) := pop spec "time_block" in
  time_block <- as_bytes time_block ;;
  t <- bruker_datetime date_block time_block ;;
  let spec := <["datetime_avg" := VDatetime t]> spec in
  (* int, dec -> float *)
  spec <- bruker_intdec spec "wavenumber_begin" "waven_begin_i" "waven_begin_d" ;;
  spec <- bruker_intdec spec "wavenumber_end" "waven_end_i" "waven_end_d" ;;
  spec <- bruker_intdec spec "laser_frequency" "laserf_i" "laserf_d" ;;
  spec <- bruker_intdec spec "resolution" "resolution_i" "resolution_d" ;;
  (* `wavenumber_end` correction (includes last point) *)
  wn_end <- getitem spec "wavenumber_end" ;;
  wn_begin <- getitem spec "wavenumber_begin" ;;
  wn_range <- sub wn_end wn_begin ;;
  n_points <- getitem spec "n_points" ;;
  wn_step <- truediv wn_range n_points ;;
  let spec := <["wavenumber_step" := wn_step]> spec in
  wn_end <- getitem spec "wavenumber_end" ;;
  wn_end <- sub wn_end wn_step ;;
  let spec := <["wavenumber_end" := wn_end]> spec in
  (* scale, type conversion *)
  resolution <- getitem spec "resolution" ;;
  resolution <- mul resolution (VFloat 1e3) ;;
  let spec := <["resolution" := resolution]> spec in
  (* -- read data *)
  let f := seek (open filename) 1280 in     (* header = 1280 bytes *)
  let* (data, _) := Np.fromfile_f32 f in
  Ok (<["data" := VArray data]> spec).

(** *** [read_spec] *)

(** The loop [for r in range(n)]: of every two records read, the first is
    dropped and the second appended to [records]. *)
Fixpoint spec_records (n : nat) (f : file) : res (list dict * file) :=
  match n with
  | O => Ok ([], f)
  | S n' =>
      (* alternating empty/filled records: issue ? *)
      let* (empty_record, f) :=
        Io.read_bin_block f Iofmt.spec_record_ffmt None "<" in
      let* (r, f) := Io.read_bin_block f Iofmt.spec_record_ffmt None "<" in
      let* (records, f) := spec_records n' f in
      Ok (r :: records, f)
  end.

(** Reading the header and the records ([range] of a negative count is
    empty); the file after the last read is returned too. *)
Definition spec_read (filename : list byte)
  : res (dict * list dict * file) :=
  let f := open filename in
  let* (header, f) :=
    Io.read_bin_block f Iofmt.spec_header_ffmt None "<" in
  n_records <- bind (getitem header "n_records") as_int ;;
  let* (records, f) := spec_records (Z.to_nat n_records) f in
  Ok (header, records, f).

(** One turn of the loop over [header.keys()]. *)
Definition spec_header_date (header : dict) (k : string) : res dict :=
  if contains "created" k || contains "modified" k then
    v <- getitem header k ;;
    match (s <- decode_value v ;;
           Conv.strptime s "%d %b %Y %H:%M:%S") with
    | Ok t => Ok (<[k := VDatetime t]> header)
    | Raise e =>
        if is_ValueError e then
          s <- decode_value v ;;
          Ok (<[k := VStr (strip s)]> header)
        else Raise e
    end
  else Ok header.

(** [r[k] = bits_2_int(bytes_2_bits(r.pop(k)))]. *)
Definition spec_parse_byte (r : dict) (k : string) : res dict :=
  let* (v, r) := pop r k in
  bs <- as_bytes v ;;
  n <- Io.bits_2_int (Io.bytes_2_bits bs false) false ;;
  Ok (<[k := VInt n]> r).

(** [if r[k] == sentinel: r[k] = float('nan')]. *)
Definition spec_undefined (r : dict) (k : string) (sentinel : Z)
  : res dict :=
  v <- getitem r k ;;
  if eq_int v sentinel then Ok (<[k := VFloat nan]> r) else Ok r.

(** [r[k] *= factor]. *)
Definition spec_scale (r : dict) (k : string) (factor : value) : res dict :=
  v <- getitem r k ;;
  v' <- mul v factor ;;
  Ok (<[k := v']> r).

(** One turn of the loop over the suffixes 'avg', 'begin' and 'end'. *)
Definition spec_datetime (r : dict) (suffix : string) : res dict :=
  let datetime_key := String.concat "_" ["datetime"; suffix] in
  let r_dt_keys :=
    map (fun t => String.concat "_" [t; suffix])
        ["year"; "dayofyear"; "hour"] in
  let* (vals, r) := pop_list r r_dt_keys in
  match vals with
  | [year; dayofyear; hour] =>
      t <- year_day year dayofyear ;;
      t <- plus_hours t hour ;;
      Ok (<[datetime_key := VDatetime t]> r)
  | _ => Raise (ValueError "wrong number of values to unpack")
  end.

(** [bool(qb[i])]. *)
Definition flag (qb : list Z) (i : nat) : res bool :=
  match nth_error qb i with
  | Some b => Ok (negb (b =? 0))
  | None => Raise IndexError
  end.

(** Decoding the composite field `quality`. *)
Definition spec_quality (r : dict) : res dict :=
  let* (quality, r) := pop r "quality" in
  quality <- as_bytes quality ;;
  let qb := Io.bytes_2_bits quality false in
  b <- flag qb 0 ;;
  let r := <["is_bad_spectrum" := VBool b]> r in
  b <- flag qb 1 ;;
  let r := <["is_mean_spectrum" := VBool b]> r in
  b <- flag qb 2 ;;
  let r := <["is_bad_zero" := VBool b]> r in
  n <- Io.bits_2_int (slice qb 3 5) false ;;
  let r := <["fringing_level" := VInt n]> r in
  b <- flag qb 5 ;;
  let r := <["has_bad_sn_ratio" := VBool b]> r in
  b <- flag qb 6 ;;
  let r := <["has_bad_ils" := VBool b]> r in
  b <- flag qb 7 ;;
  let r := <["is_sun_centered" := VBool (negb b)]> r in
  b <- flag qb 8 ;;
  let r := <["has_pollution" := VBool b]> r in
  b <- flag qb 9 ;;
  let r := <["has_slow_signal_variation" := VBool b]> r in
  b <- flag qb 10 ;;
  let r := <["has_fast_signal_variation" := VBool b]> r in
  b <- flag qb 11 ;;
  let r := <["has_technical_problem" := VBool b]> r in
  n <- Io.bits_2_int (skipn 13 qb) false ;;
  Ok (<["weather_id" := VInt n]> r).

(** The two 1-byte integers parsed and the undefined values replaced
    (the start of the loop body over [records]). *)
Definition spec_undefined_values (r : dict) : res dict :=
  (* parse 1-byte integers *)
  r <- spec_parse_byte r "relative_humidity" ;;
  r <- spec_parse_byte r "tropopause_height" ;;
  (* check for undefined values *)
  r <- spec_undefined r "temperature" (-9999) ;;
  r <- spec_undefined r "pressure" (-9999) ;;
  r <- spec_undefined r "relative_humidity" (-99) ;;
  spec_undefined r "tropopause_height" (-9).

(** The body of the loop over [records]. *)
Definition spec_record (r : dict) : res dict :=
  r <- spec_undefined_values r ;;
  (* scale, type conversion *)
  r <- spec_scale r "n_points_itf" (VInt 1000) ;;      (* Kn -> n *)
  r <- spec_scale r "n_points_fft" (VInt 1000) ;;      (* Kn -> n *)
  r <- spec_scale r "resistance" (VFloat 1e3) ;;       (* KOhms -> Ohms *)
  r <- spec_scale r "temperature" (VFloat 0.1) ;;      (* deg celsius *)
  r <- spec_scale r "pressure" (VFloat 0.1) ;;         (* mbar *)
  r <- spec_scale r "tropopause_height" (VFloat 0.1) ;; (* km *)
  r <- spec_scale r "relative_humidity" (VFloat 1) ;;  (* int to float *)
  r <- spec_scale r "wavenumber_step" (VFloat 1e-3) ;; (* 1e-9 m *)
  (* dates *)
  r <- foldM spec_datetime r ["avg"; "begin"; "end"] ;;
  (* strings *)
  r <- decode_strip r "name" ;;
  (* decode the composite field `quality` *)
  spec_quality r.

(** [for r in records: ...]. *)
Fixpoint spec_post_records (records : list dict) : res (list dict) :=
  match records with
  | [] => Ok []
  | r :: rest =>
      r' <- spec_record r ;;
      rest' <- spec_post_records rest ;;
      Ok (r' :: rest')
  end.

Definition read_spec (filename : list byte) : res (dict * list dict) :=
  (* --- read header and records *)
  let* (header, records, _) := spec_read filename in
  (* --- post-processing header: the keys in insertion order *)
  header <- foldM spec_header_date header
              (omap fst Iofmt.spec_header_ffmt) ;;
  (* --- post-processing records *)
  records <- spec_post_records records ;;
  Ok (header, records).

(** *** [read_rinsland] *)

Definition read_rinsland (filename : list byte) : res dict :=
  (* --- read ascii header (80c), bin header and data *)
  let f := open filename in
  let '(line, f) := read f 80 in
  vals <- Struct.unpack "<80s" line ;;
  line <- match vals with
          | v :: _ => decode_value v
          | [] => Raise IndexError
          end ;;
  spec <- Io.read_str_block line Iofmt.rinsland_header_regex
            (Some Iofmt.rinsland_header_ftype) ;;
  let* (datahdr, f) :=
    Io.read_bin_block f Iofmt.rinsland_datahdr_ffmt None "<" in
  let spec := update spec datahdr in
  let '(buf, _) := read_all f in
  data <- Np.frombuffer_f32 buf ;;
  let spec := <["data" := VArray data]> spec in
  (* --- post-process header *)
  (* date *)
  let* (hour, spec) := pop spec "hour_avg" in
  seconds <- mul hour (VInt 3600) ;;
  hour_dt <- timedelta_seconds_of seconds ;;
  let* (date, spec) := pop spec "date" in
  date <- as_datetime date ;;
  t <- datetime_add date hour_dt ;;
  Ok (<["datetime_avg" := VDatetime t]> spec).

End Legacy.

(** ** Sample files

    Small files in the four layouts, built by writing fields at their
    offsets into a block of zero bytes. *)

Module Samples.

(** The [w] little-endian bytes of [n] (two's complement when negative). *)
Fixpoint le_bytes (w : nat) (n : Z) : list byte :=
  match w with
  | O => []
  | S w' => byte_of n :: le_bytes w' (n / 256)
  end.

Definition ascii_bytes (s : string) : list byte := list_byte_of_string s.

(** [l] with [bs] written at offset [off]. *)
Definition put (off : nat) (bs : list byte) (l : list byte) : list byte :=
  firstn off l ++ bs ++ skipn (off + length bs) l.

Definition zeros (n : nat) : list byte := repeat x00 n.

(** An FTS1 header (2048 bytes): source 'SUN', begin 2000/1, end 2000/32,
    hour_avg 10.5, opd 1.0, wavenumbers 0.0 to 1.0, and [n_points]. *)
Definition fts1_head (n_points : Z) : list byte :=
  put 14 (ascii_bytes "SUN       ")
  (put 36 (le_bytes 2 1) (put 38 (le_bytes 2 2000)
  (put 40 (le_bytes 2 32) (put 42 (le_bytes 2 2000)
  (put 278 (ascii_bytes "FTS1        ")
  (put 598 (le_bytes 4 n_points)
  (put 610 (le_bytes 8 0x3FF0000000000000)
  (put 618 (le_bytes 8 0x3FF0000000000000)
  (put 646 (le_bytes 4 0x41280000)
  (put 788 (ascii_bytes "sample01    ")
  (zeros 2048))))))))))).

(** Three float32 samples: 1.0, 2.0, 10.5. *)
Definition three_samples : list byte :=
  le_bytes 4 0x3F800000 ++ le_bytes 4 0x40000000 ++ le_bytes 4 0x41280000.

(** An FTS1 file declaring 5 points and holding 3. *)
Definition fts1_short : list byte := fts1_head 5 ++ three_samples.

(** [fts1_short] cut 4 bytes before offset 2048: the fields of the header
    are there, the samples and the end of the header block are not. *)
Definition fts1_cut : list byte := firstn 2044 (fts1_head 5).

(** [fts1_short] with a zero [opd]. *)
Definition fts1_zero_opd : list byte := put 618 (le_bytes 8 0) fts1_short.

(** [fts1_short] under the name 'café 01', which UTF-8 writes with the
    two bytes c3 a9 for its fourth letter. *)
Definition cafe_01 : list byte :=
  [x63; x61; x66; xc3; xa9; x20; x30; x31; x20; x20; x20; x20].
Definition fts1_cafe : list byte := put 788 cafe_01 fts1_short.

(** The date block of year/month/day and the time block of
    hour/minute/tenths of seconds, as the Bruker layout packs them. *)
Definition bruker_date (y mo d : Z) : list byte :=
  le_bytes 4 (d + 64 * mo + 4096 * y).
Definition bruker_time (h mi tenths : Z) : list byte :=
  le_bytes 4 (tenths + 4096 * mi + 262144 * h).

(** The blocks of 2000-01-02 10:30:01.2. *)
Definition date_block : list byte := bruker_date 2000 1 2.
Definition time_block : list byte := bruker_time 10 30 12.

(** A Bruker header (1280 bytes) with the two point counts given, dated
    2000-01-02 10:30:01.2. *)
Definition bruker_head (n_points n_points2 : Z) : list byte :=
  put 4 (ascii_bytes "bruker01    ")
  (put 20 (le_bytes 4 n_points)
  (put 260 (le_bytes 4 n_points2)
  (put 276 (le_bytes 4 700) (put 284 (le_bytes 4 800)
  (put 292 date_block
  (put 296 time_block
  (zeros 1280))))))).

Definition bruker_ok : list byte := bruker_head 100 100 ++ three_samples.
Definition bruker_mismatch : list byte := bruker_head 100 101 ++ three_samples.

(** [bruker_ok] under the name 'café 01'. *)
Definition bruker_cafe : list byte := put 4 cafe_01 bruker_ok.

(** A SPEC header block (128 bytes) declaring [n] records. *)
Definition spec_head (n : Z) : list byte :=
  put 0 (le_bytes 4 n)
  (put 4 (ascii_bytes "01 Jan 2000 12:00:00")
  (put 24 (ascii_bytes "not a date          ")
  (zeros 128))).

(** A SPEC record (128 bytes) named [name], measured in 2000 on day 1, with
    the given quality bytes, temperature, pressure and the two 1-byte
    fields. *)
Definition spec_rec (name : string) (quality : list byte)
    (temperature pressure : Z) (humidity tropopause : byte) : list byte :=
  put 0 (ascii_bytes name)
  (put 80 (le_bytes 2 2000) (put 82 (le_bytes 2 1)
  (put 84 (le_bytes 2 2000) (put 86 (le_bytes 2 1)
  (put 88 (le_bytes 2 2000) (put 90 (le_bytes 2 1)
  (put 94 quality
  (put 98 (le_bytes 2 temperature) (put 100 (le_bytes 2 pressure)
  (put 102 [humidity; tropopause]
  (zeros 128))))))))))).

(** The field specifications of the block-reader example. *)
Definition example_ffmt : Io.ffmt_t :=
  [(Some "a", "h"); (None, "2x"); (Some "b", "f")].

(** A stream positioned at offset 3 of 11 bytes (8 are left), and one
    positioned at offset 3 of 10 bytes (7 are left). *)
Definition example_stream : file :=
  mk_file [x00; x00; x00; xfe; xff; xaa; xbb; x00; x00; x28; x41] 3.
Definition example_stream_short : file :=
  mk_file [x00; x00; x00; xfe; xff; xaa; xbb; x00; x00; x28] 3.

(** What [read_fts1] and its header phase return on [fts1_short]. *)
Definition fts1_short_result : dict :=
  match Legacy.read_fts1 fts1_short with Ok d => d | Raise _ => ∅ end.
Definition fts1_short_header : dict :=
  match Legacy.fts1_header fts1_short with Ok d => d | Raise _ => ∅ end.

(** What [read_bruker] returns on [bruker_ok]. *)
Definition bruker_ok_result : dict :=
  match Legacy.read_bruker bruker_ok with Ok d => d | Raise _ => ∅ end.

(** A record holding only the quality bytes: the 16-bit pattern with only
    bit 0 set. *)
Definition quality_bit0 : dict := {[ "quality" := VBytes [x01; x00] ]}.

(** A record holding the four fields checked for undefined values:
    temperature -9999, pressure 9500, and the bytes 0x9d and 0xf7, which
    are -99 and -9 as signed bytes. *)
Definition undefined_fields : dict :=
  {[ "temperature" := VInt (-9999); "pressure" := VInt 9500;
     "relative_humidity" := VBytes [x9d];
     "tropopause_height" := VBytes [xf7] ]}.

Definition rec_empty : list byte := zeros 128.
Definition rec_a : list byte := spec_rec "rec_a       " [x01; x00] (-9999) 9500 x9d xf7.
Definition rec_b : list byte := spec_rec "rec_b       " [xff; xff] 215 (-9999) x32 x64.
Definition rec_c : list byte := spec_rec "rec_c       " [x00; x00] 0 0 x00 x00.

(** The record [rec_a] as [read_bin_block] returns it, and as
    [spec_record] post-processes it. *)
Definition rec_a_read : dict * file :=
  match Io.read_bin_block (open rec_a) Iofmt.spec_record_ffmt None "<" with
  | Ok p => p
  | Raise _ => (∅, open [])
  end.
Definition rec_a_result : dict :=
  match Legacy.spec_record rec_a_read.1 with Ok d => d | Raise _ => ∅ end.

(** A catalog declaring 3 records: 6 records follow the header. *)
Definition spec_three : list byte :=
  spec_head 3 ++ rec_empty ++ rec_a ++ rec_empty ++ rec_b
  ++ rec_empty ++ rec_c.

(** What [read_spec] returns on [spec_three]. *)
Definition spec_three_result : dict * list dict :=
  match Legacy.read_spec spec_three with
  | Ok r => r
  | Raise _ => (∅, [])
  end.

(** [spec_three] with the first kept record named 'café 01' and the header
    date [created_hp1000] written '12 Jan 2000 1:00:00' with an
    Arabic-Indic digit two (the bytes d9 a2) in the day. *)
Definition date_arabic : list byte :=
  [x31; xd9; xa2] ++ ascii_bytes " Jan 2000 1:00:00".
Definition spec_cafe : list byte :=
  put 44 date_arabic (put 256 cafe_01 spec_three).

(** What [read_spec] returns on [spec_cafe]. *)
Definition spec_cafe_result : dict * list dict :=
  match Legacy.read_spec spec_cafe with
  | Ok r => r
  | Raise _ => (∅, [])
  end.

(** What [read_bruker] returns on [bruker_cafe]. *)
Definition bruker_cafe_result : dict :=
  match Legacy.read_bruker bruker_cafe with Ok d => d | Raise _ => ∅ end.

(** What [read_fts1] returns on [fts1_cafe]. *)
Definition fts1_cafe_result : dict :=
  match Legacy.read_fts1 fts1_cafe with Ok d => d | Raise _ => ∅ end.

(** A catalog laid out as an 84-byte header followed by two records,
    declaring one record: 340 bytes. *)
Definition spec_84 : list byte :=
  firstn 84 (spec_head 1) ++ rec_empty ++ rec_a.

(** The header line of the specification's text-block example, whose name
    field holds 8 characters and 3 blanks, and the same line with a name
    of 12 characters. *)
Definition rinsland_line : string :=
  "BRA-sample12   01 Jan 2000  100.0mK 12.0 mm Ap.ZA=30.0 S/N=100 h=10.5".
Definition rinsland_line_12 : string :=
  "BRA-sample12.dat 01 Jan 2000  100.0mK 12.0 mm Ap.ZA=30.0 S/N=100 h=10.5".

(** What [read_str_block] returns on [rinsland_line_12]. *)
Definition rinsland_fields : dict :=
  match Io.read_str_block rinsland_line_12 Iofmt.rinsland_header_regex
          (Some Iofmt.rinsland_header_ftype) with
  | Ok d => d
  | Raise _ => ∅
  end.

(** A Rinsland file: the 80-character header of [rinsland_line_12]
    padded with blanks, the data header (wavenumbers 1.0 to 2.0, step
    0.5, 3 points) and three samples. *)
Definition rinsland_sample : list byte :=
  ascii_bytes (rinsland_line_12 ++ "         ")
  ++ le_bytes 8 0x3FF0000000000000 ++ le_bytes 8 0x4000000000000000
  ++ le_bytes 8 0x3FE0000000000000 ++ le_bytes 4 3
  ++ three_samples.

(** The header line with the name 'samplé12.dat' and the day written 12
    with an Arabic-Indic digit two: 71 characters in 73 bytes. *)
Definition rinsland_line_utf8 : list byte :=
  ascii_bytes "BRA-sampl" ++ [xc3; xa9] ++ ascii_bytes "12.dat 1"
  ++ [xd9; xa2]
  ++ ascii_bytes " Jan 2000  100.0mK 12.0 mm Ap.ZA=30.0 S/N=100 h=10.5".

(** What [read_str_block] returns on it. *)
Definition rinsland_fields_utf8 : dict :=
  match Io.read_str_block (string_of_list_byte rinsland_line_utf8)
          Iofmt.rinsland_header_regex
          (Some Iofmt.rinsland_header_ftype) with
  | Ok d => d
  | Raise _ => ∅
  end.

(** [rinsland_sample] with that header line. *)
Definition rinsland_utf8 : list byte :=
  rinsland_line_utf8 ++ repeat x20 7 ++ skipn 80 rinsland_sample.

(** What [read_rinsland] returns on [rinsland_sample]. *)
Definition rinsland_sample_result : dict :=
  match Legacy.read_rinsland rinsland_sample with
  | Ok d => d
  | Raise _ => ∅
  end.

(** What [read_rinsland] returns on [rinsland_utf8]. *)
Definition rinsland_utf8_result : dict :=
  match Legacy.read_rinsland rinsland_utf8 with
  | Ok d => d
  | Raise _ => ∅
  end.

End Samples.

(** ** Vocabulary of the statements

    Definitions that are not in the source: the mathematical reading of a
    bit sequence, the regrouping of bits into bytes, and the readings of
    the specification that Part II compares with the code. *)

Module Spec.

(** The eight bits of a byte, least significant first. *)
Definition lsb_bits (b : byte) : list Z :=
  map (fun i => Z.b2z (Z.testbit (byte_val b) (Z.of_nat i))) (seq 0 8).

(** The bits [bytes_2_bits] produces for one byte. *)
Definition byte_bits (swap : bool) (b : byte) : list Z :=
  if swap then rev (lsb_bits b) else lsb_bits b.

(** The [n] low bits of [x], least significant first. *)
Definition bits_of (x : Z) (n : nat) : list Z :=
  map (fun i => Z.b2z (Z.testbit x (Z.of_nat i))) (seq 0 n).

(** The number a bit sequence denotes with its first bit most significant,
    and with its first bit least significant. *)
Definition be_value (bits : list Z) : Z :=
  fold_left (fun acc b => 2 * acc + b) bits 0.
Definition le_value (bits : list Z) : Z :=
  fold_right (fun b acc => b + 2 * acc) 0 bits.

(** A loop whose body may raise, collecting the results. *)
Fixpoint mapM {A B : Type} (f : A -> res B) (l : list A) : res (list B) :=
  match l with
  | [] => Ok []
  | a :: l' => b <- f a ;; bs <- mapM f l' ;; Ok (b :: bs)
  end.

(** [n] consecutive groups of 8 bits. *)
Fixpoint groups8 (n : nat) (bits : list Z) : list (list Z) :=
  match n with
  | O => []
  | S n' => firstn 8 bits :: groups8 n' (skipn 8 bits)
  end.

(** Grouping a bit sequence back into bytes of 8: each group is read by
    [bits_2_int] with the bit order that undoes [swap]. *)
Definition bits_2_bytes (bits : list Z) (swap : bool) : res (list byte) :=
  mapM (fun g => n <- Io.bits_2_int g (negb swap) ;; Ok (byte_of n))
       (groups8 (length bits / 8) bits).

(** The microseconds [read_bruker] derives from a count of tenths of
    seconds: [int(math.modf(tenths / 10)[0] * 1e6)], in binary64. *)
Definition usec_of_tenths (tenths : Z) : res Z :=
  int_of_float (fst (modf (float_of_Z tenths / float_of_Z 10)) * 1e6)%float.

(** The Bruker datetime as the specification words it: the blocks turned
    into bits with [bytes_2_bits]'s [swap] set as [byte_swap], day, month
    and year from date bits [0:6), [6:12), [12:24), the hour from time
    bits [12:18) and the minute from [18:24), the seconds from [0:12);
    [slice_swap] is the bit order in which each range is read. *)
Definition bruker_datetime_as_specified (byte_swap slice_swap : bool)
    (date_block time_block : list byte) : res datetime :=
  let dateb := Io.bytes_2_bits date_block byte_swap in
  let timeb := Io.bytes_2_bits time_block byte_swap in
  tenths <- Io.bits_2_int (Legacy.slice timeb 0 12) slice_swap ;;
  sec <- bind (truediv (VInt tenths) (VInt 10)) as_float ;;
  let '(secd, seci) := modf sec in
  y <- Io.bits_2_int (Legacy.slice dateb 12 24) slice_swap ;;
  mo <- Io.bits_2_int (Legacy.slice dateb 6 12) slice_swap ;;
  d <- Io.bits_2_int (Legacy.slice dateb 0 6) slice_swap ;;
  h <- Io.bits_2_int (Legacy.slice timeb 12 18) slice_swap ;;
  mi <- Io.bits_2_int (Legacy.slice timeb 18 24) slice_swap ;;
  s <- int_of_float seci ;;
  us <- int_of_float (secd * 1e6)%float ;;
  datetime_new y mo d h mi s us.

(** The header block of a file in the layout [ffmt], as [read_bin_block]
    returns it from the start of the file, and one field of it. *)
Definition header (ffmt : Io.ffmt_t) (filename : list byte) : res dict :=
  let* (d, _) := Io.read_bin_block (open filename) ffmt None "<" in Ok d.

Definition field (ffmt : Io.ffmt_t) (filename : list byte) (k : string)
  : option value :=
  match header ffmt filename with
  | Ok d => d !! k
  | Raise _ => None
  end.

(** The items of a layout under the little-endian byte order. *)
Definition layout (ffmt : Io.ffmt_t) : list (nat * Struct.code) :=
  match Struct.parse ("<" ++ String.concat "" (map snd ffmt)) with
  | Ok p => p.2
  | Raise _ => []
  end.

(** The flags of a decoded quality field other than [is_bad_spectrum]. *)
Definition other_flags : list string :=
  ["is_mean_spectrum"; "is_bad_zero"; "has_bad_sn_ratio"; "has_bad_ils";
   "is_sun_centered"; "has_pollution"; "has_slow_signal_variation";
   "has_fast_signal_variation"; "has_technical_problem"].

(** The keys [spec_quality] writes. *)
Definition quality_keys : list string :=
  "is_bad_spectrum" :: "fringing_level" :: "weather_id" :: other_flags.

(** [P] holds of [lo], [lo + 1], ..., [lo + n - 1]. *)
Fixpoint all_from (P : Z -> bool) (lo : Z) (n : nat) : bool :=
  match n with
  | O => true
  | S n' => if P lo then all_from P (lo + 1) n' else false
  end.

(** [ord2ymd n] is a date of the calendar whose ordinal is [n]. *)
Definition ord_ok (n : Z) : bool :=
  let '(y, m, d) := ord2ymd n in ymd2ord y m d =? n.

(** The same date [years] years later. *)
Definition shift_year (years : Z) (ymd : Z * Z * Z) : Z * Z * Z :=
  let '(y, m, d) := ymd in (y + years, m, d).

(** The seconds and microseconds [read_bruker] derives from [tenths] are
    the quotient by 10 and, up to one microsecond of rounding, 100000
    times the remainder. *)
Definition tenths_ok (tenths : Z) : bool :=
  let '(secd, seci) := modf (float_of_Z tenths / float_of_Z 10) in
  match int_of_float seci, int_of_float (secd * 1e6)%float with
  | Ok s, Ok us =>
      (s =? tenths / 10)
      && (100000 * (tenths mod 10) - 1 <=? us)
      && (us <=? 100000 * (tenths mod 10))
  | _, _ => false
  end.

Definition is_bit (x : Z) : Prop := x = 0 \/ x = 1.

(** The text [''.join(str(b) for b in bits)] of a sequence of bits. *)
Fixpoint bits_text (bits : list Z) : string :=
  match bits with
  | [] => EmptyString
  | x :: r => String (if x =? 0 then "0"%char else "1"%char) (bits_text r)
  end.

(** [ord2ymd n] is a day of a month of its year. *)
Definition ord_valid (n : Z) : bool :=
  let '(y, m, d) := ord2ymd n in
  (1 <=? m) && (m <=? 12) && (1 <=? d) && (d <=? days_in_month y m).

Definition days_in_year (y : Z) : Z := if is_leap y then 366 else 365.

(** The named groups of a pattern, in the order they close. *)
Fixpoint group_names (r : Re.re) : list string :=
  match r with
  | Re.Seq r1 r2 | Re.Alt r1 r2 => group_names r1 ++ group_names r2
  | Re.Group name r1 => group_names r1 ++ [name]
  | _ => []
  end.

(** No named group stands inside an alternative: every group then takes
    part in every match. *)
Fixpoint groups_outside_alt (r : Re.re) : bool :=
  match r with
  | Re.Seq r1 r2 => groups_outside_alt r1 && groups_outside_alt r2
  | Re.Alt r1 r2 =>
      match group_names r1 ++ group_names r2 with [] => true | _ => false end
  | Re.Group _ r1 => groups_outside_alt r1
  | _ => true
  end.

(** The number of values [struct.unpack] returns for an item: none for pad
    bytes, one bytes object for [s], one value per repetition otherwise. *)
Definition item_values (item : nat * Struct.code) : nat :=
  match item.2 with
  | Struct.Pad => 0
  | Struct.Bytes => 1
  | _ => item.1
  end.

Definition values_count (items : list (nat * Struct.code)) : nat :=
  foldr (fun item n => (item_values item + n)%nat) 0%nat items.

End Spec.

Import Spec.
#[local] Arguments lsb_bits : simpl never.
#[local] Arguments byte_bits : simpl never.

(* ===================================================================== *)
(** * Part II: properties                                                 *)
(* ===================================================================== *)

(** ** The error monad *)

Lemma bind_Ok {A B : Type} (m : res A) (k : A -> res B) (b : B) :
  bind m k = Ok b -> exists a, m = Ok a /\ k a = Ok b.
Proof. destruct m as [a|e]; simpl; [eauto | discriminate]. Qed.

Lemma Ok_inj {A : Type} (a b : A) : Ok a = Ok b -> a = b.
Proof. congruence. Qed.

(** A computation known to succeed returns the value read off it. *)
Lemma is_Ok_get {A : Type} (m : res A) (dflt : A) :
  is_Ok m = true -> m = Ok (match m with Ok a => a | Raise _ => dflt end).
Proof. destruct m; [reflexivity | discriminate]. Qed.

Lemma getitem_Ok (d : dict) (k : string) (v : value) :
  getitem d k = Ok v <-> d !! k = Some v.
Proof. unfold getitem. destruct (d !! k); split; congruence. Qed.

Lemma pop_Ok (d d' : dict) (k : string) (v : value) :
  pop d k = Ok (v, d') <-> d !! k = Some v /\ d' = delete k d.
Proof.
  unfold pop. destruct (d !! k); split; try congruence.
  - intros [= -> <-]. auto.
  - intros [[= ->] ->]. reflexivity.
  - intros [? _]. discriminate.
Qed.

(** ** [bytes_2_bits] *)

Section Bytes2Bits.

Lemma land_shiftr_1 (x : Z) (i : nat) :
  Z.land (Z.shiftr x (Z.of_nat i)) 1 = Z.b2z (Z.testbit x (Z.of_nat i)).
Proof.
  change 1 with (Z.ones 1). rewrite Z.land_ones by lia.
  rewrite <- Z.bit0_mod, Z.shiftr_spec by lia. reflexivity.
Qed.

Lemma bits8_lsb (b : byte) : Io.bits8 (byte_val b) = lsb_bits b.
Proof.
  unfold Io.bits8, lsb_bits. apply map_ext. intros i. apply land_shiftr_1.
Qed.

Lemma fold_left_app_flat {A B : Type} (f : A -> list B) (l : list A)
    (acc : list B) :
  fold_left (fun acc a => acc ++ f a) l acc = acc ++ flat_map f l.
Proof.
  revert acc. induction l as [|a l IH]; intros acc; simpl.
  - by rewrite app_nil_r.
  - rewrite IH. by rewrite <- app_assoc.
Qed.

Lemma bytes_2_bits_flat (bs : list byte) (swap : bool) :
  Io.bytes_2_bits bs swap = flat_map (byte_bits swap) bs.
Proof.
  unfold Io.bytes_2_bits.
  rewrite (fold_left_app_flat
             (fun b => if swap then rev (Io.bits8 (byte_val b))
                       else Io.bits8 (byte_val b))).
  apply flat_map_ext. intros b. unfold byte_bits.
  rewrite bits8_lsb. reflexivity.
Qed.

Lemma bytes_2_bits_cons (b : byte) (bs : list byte) (swap : bool) :
  Io.bytes_2_bits (b :: bs) swap = byte_bits swap b ++ Io.bytes_2_bits bs swap.
Proof. rewrite !bytes_2_bits_flat. reflexivity. Qed.

Lemma byte_bits_length (swap : bool) (b : byte) :
  length (byte_bits swap b) = 8%nat.
Proof. destruct swap; unfold byte_bits; rewrite ?length_rev; reflexivity. Qed.

Lemma lsb_bits_01 (b : byte) : Forall (fun x => x = 0 \/ x = 1) (lsb_bits b).
Proof.
  unfold lsb_bits. apply Forall_map, Forall_forall. intros i _.
  simpl. destruct (Z.testbit _ _); simpl; auto.
Qed.

Lemma byte_bits_01 (swap : bool) (b : byte) :
  Forall (fun x => x = 0 \/ x = 1) (byte_bits swap b).
Proof.
  destruct swap; unfold byte_bits; [apply Forall_rev|]; apply lsb_bits_01.
Qed.

Lemma bytes_2_bits_length (bs : list byte) (swap : bool) :
  length (Io.bytes_2_bits bs swap) = (8 * length bs)%nat.
Proof.
  induction bs as [|b bs IH]; [reflexivity|].
  rewrite bytes_2_bits_cons, length_app, byte_bits_length, IH. simpl. lia.
Qed.

Lemma bytes_2_bits_01 (bs : list byte) (swap : bool) :
  Forall (fun x => x = 0 \/ x = 1) (Io.bytes_2_bits bs swap).
Proof.
  induction bs as [|b bs IH]; [constructor|].
  rewrite bytes_2_bits_cons. apply Forall_app. split; [apply byte_bits_01 | exact IH].
Qed.

(** A byte is recovered from its eight bits by reading them with the other
    bit order. *)
Lemma bits_2_int_byte_bits (swap : bool) (b : byte) :
  Io.bits_2_int (byte_bits swap b) (negb swap) = Ok (byte_val b).
Proof. destruct swap, b; vm_compute; reflexivity. Qed.

Lemma byte_of_val (b : byte) : byte_of (byte_val b) = b.
Proof. destruct b; reflexivity. Qed.

Lemma bits_2_bytes_cons (b : byte) (bits : list Z) (swap : bool) :
  bits_2_bytes (byte_bits swap b ++ bits) swap =
  (bs <- bits_2_bytes bits swap ;; Ok (b :: bs)).
Proof.
  unfold bits_2_bytes.
  assert (Hlen : (length (byte_bits swap b ++ bits) / 8 = S (length bits / 8))%nat).
  { rewrite length_app, byte_bits_length.
    change (8 + length bits)%nat with (1 * 8 + length bits)%nat.
    rewrite Nat.div_add_l by lia. lia. }
  rewrite Hlen. cbn [groups8 mapM].
  rewrite firstn_app, skipn_app, byte_bits_length, Nat.sub_diag.
  rewrite firstn_all2, skipn_all2 by (rewrite byte_bits_length; lia).
  cbn [firstn skipn]. rewrite app_nil_r, app_nil_l.
  rewrite bits_2_int_byte_bits. cbn [bind]. rewrite byte_of_val. reflexivity.
Qed.

(** C9. For every byte sequence and both values of [swap]: [bytes_2_bits]
    yields, byte after byte, the eight bits of the byte least significant
    first (reversed when [swap] is true); the output holds only 0 and 1 and
    has 8 times the length of the input; and grouping the output back into
    bytes of 8 bits gives the original bytes. *)
Theorem bytes_2_bits_roundtrip (bs : list byte) (swap : bool) :
  Io.bytes_2_bits bs swap
  = flat_map (fun b => if swap then rev (lsb_bits b) else lsb_bits b) bs
  /\ length (Io.bytes_2_bits bs swap) = (8 * length bs)%nat
  /\ Forall (fun x => x = 0 \/ x = 1) (Io.bytes_2_bits bs swap)
  /\ bits_2_bytes (Io.bytes_2_bits bs swap) swap = Ok bs.
Proof.
  split; [apply bytes_2_bits_flat|].
  split; [apply bytes_2_bits_length|].
  split; [apply bytes_2_bits_01|].
  induction bs as [|b bs IH]; [reflexivity|].
  rewrite bytes_2_bits_cons, bits_2_bytes_cons, IH. reflexivity.
Qed.

End Bytes2Bits.

(** ** The calendar *)

Section Calendar.

Lemma all_from_spec (P : Z -> bool) (lo : Z) (n : nat) :
  all_from P lo n = true ->
  forall v, lo <= v < lo + Z.of_nat n -> P v = true.
Proof.
  revert lo. induction n as [|n IH]; intros lo H v Hv; [lia|].
  cbn [all_from] in H. destruct (P lo) eqn:E; [|discriminate].
  destruct (Z.eq_dec v lo) as [-> | Hne]; [exact E|].
  apply (IH (lo + 1) H). lia.
Qed.

(** The first 400-year cycle, day by day. *)
Lemma ord_ok_cycle (n : Z) : 1 <= n <= 146097 -> ord_ok n = true.
Proof.
  intros H. apply (all_from_spec ord_ok 1 (Z.to_nat 146097)); [|lia].
  vm_cast_no_check (eq_refl true).
Qed.

Lemma ord2ymd_period (n : Z) :
  ord2ymd n
  = shift_year (400 * ((n - 1) / 146097))
      (ord2ymd ((n - 1) mod 146097 + 1)).
Proof.
  pose proof (Z.mod_pos_bound (n - 1) 146097 ltac:(lia)) as Hr.
  unfold ord2ymd.
  replace ((n - 1) mod 146097 + 1 - 1) with ((n - 1) mod 146097) by lia.
  rewrite (Z.div_small ((n - 1) mod 146097) 146097) by lia.
  rewrite (Z.mod_small ((n - 1) mod 146097) 146097) by lia.
  cbv zeta.
  repeat match goal with
         | |- context [if ?b then _ else _] => destruct b
         end; unfold shift_year; f_equal; try f_equal; lia.
Qed.

Lemma is_leap_period (y k : Z) : is_leap (y + 400 * k) = is_leap y.
Proof.
  unfold is_leap.
  replace (y + 400 * k) with (y + (100 * k) * 4) at 1 by lia.
  replace (y + 400 * k) with (y + (4 * k) * 100) at 1 by lia.
  replace (y + 400 * k) with (y + k * 400) by lia.
  by rewrite !Z.mod_add.
Qed.

Lemma ymd2ord_period (y m d k : Z) :
  ymd2ord (y + 400 * k) m d = ymd2ord y m d + 146097 * k.
Proof.
  unfold ymd2ord, days_before_month, days_before_year.
  rewrite is_leap_period. cbv zeta.
  replace ((y + 400 * k - 1) / 4) with ((y - 1) / 4 + 100 * k)
    by (rewrite <- Z.div_add by lia; f_equal; lia).
  replace ((y + 400 * k - 1) / 100) with ((y - 1) / 100 + 4 * k)
    by (rewrite <- Z.div_add by lia; f_equal; lia).
  replace ((y + 400 * k - 1) / 400) with ((y - 1) / 400 + k)
    by (rewrite <- Z.div_add by lia; f_equal; lia).
  lia.
Qed.

(** [ymd2ord] undoes [ord2ymd]. *)
Lemma ymd2ord_ord2ymd (n : Z) :
  let '(y, m, d) := ord2ymd n in ymd2ord y m d = n.
Proof.
  rewrite ord2ymd_period.
  pose proof (Z.mod_pos_bound (n - 1) 146097 ltac:(lia)) as Hr.
  pose proof (ord_ok_cycle ((n - 1) mod 146097 + 1) ltac:(lia)) as Hc.
  unfold ord_ok in Hc.
  destruct (ord2ymd ((n - 1) mod 146097 + 1)) as [[y m] d].
  cbn [shift_year]. apply Z.eqb_eq in Hc.
  rewrite ymd2ord_period, Hc.
  pose proof (Z.div_mod (n - 1) 146097 ltac:(lia)). lia.
Qed.

(** A datetime made by [datetime_of_us] stands for those microseconds. *)
Lemma datetime_of_us_Ok (us : Z) (t : datetime) :
  datetime_of_us us = Ok t -> datetime_us t = us.
Proof.
  unfold datetime_of_us. destruct (_ && _); [|discriminate].
  pose proof (ymd2ord_ord2ymd (us / us_per_day)) as Hc.
  destruct (ord2ymd (us / us_per_day)) as [[y m] d].
  intros [= <-]. unfold datetime_us. cbn [year month day hour minute second microsecond].
  rewrite Hc. unfold us_per_day in *.
  pose proof (Z.div_mod us (86400 * 1000000) ltac:(lia)) as H1.
  set (r := us mod (86400 * 1000000)) in *.
  pose proof (Z.div_mod r 1000000 ltac:(lia)) as H2.
  set (secs := r / 1000000) in *.
  pose proof (Z.div_mod secs 3600 ltac:(lia)) as H3.
  pose proof (Z.div_mod (secs mod 3600) 60 ltac:(lia)) as H4.
  assert (H5 : secs mod 60 = (secs mod 3600) mod 60).
  { change 3600 with (60 * 60). rewrite Z.rem_mul_r by lia.
    rewrite (Z.mul_comm 60), Z.mod_add by lia.
    by rewrite Z.mod_mod by lia. }
  lia.
Qed.

Lemma datetime_add_us (t t' : datetime) (delta : timedelta) :
  datetime_add t delta = Ok t' ->
  datetime_us t' = datetime_us t + total_us delta.
Proof. apply datetime_of_us_Ok. Qed.

(** Halving a whole number of days is exact. *)
Lemma timedelta_div_2 (delta half : timedelta) (days : Z) :
  total_us delta = days * us_per_day ->
  timedelta_div delta 2 = Ok half ->
  2 * total_us half = total_us delta.
Proof.
  intros Hd. unfold timedelta_div. change (2 =? 0) with false. cbv iota zeta.
  assert (Hm : total_us delta mod 2 = 0).
  { rewrite Hd. unfold us_per_day.
    replace (days * (86400 * 1000000)) with (days * 43200000000 * 2) by lia.
    apply Z.mod_mul. lia. }
  rewrite Hm. cbn [Z.mul Z.ltb Z.compare Z.eqb orb andb].
  unfold timedelta_of_us. destruct (_ && _); [|discriminate].
  intros [= <-]. cbn [total_us].
  pose proof (Z.div_mod (total_us delta) 2 ltac:(lia)). lia.
Qed.

End Calendar.

(** ** [bits_2_int] *)

Section Bits2Int.


Lemma str_int_bit (x : Z) :
  is_bit x -> str_int x = String (if x =? 0 then "0"%char else "1"%char) EmptyString.
Proof. intros [-> | ->]; reflexivity. Qed.

Lemma concat_bits_text (bits : list Z) :
  Forall is_bit bits -> String.concat "" (map str_int bits) = bits_text bits.
Proof.
  induction 1 as [|x r Hx Hr IH]; [reflexivity|].
  cbn [map bits_text]. rewrite (str_int_bit x Hx).
  destruct r as [|y r']; [reflexivity|].
  change (String.concat "" (?s :: map str_int (y :: r')))
    with (s ++ "" ++ String.concat "" (map str_int (y :: r')))%string.
  rewrite IH. reflexivity.
Qed.

Lemma bin_digits_bits_text (bits : list Z) (acc : Z) :
  Forall is_bit bits ->
  bin_digits (bits_text bits) acc
  = Some (fold_left (fun a b => 2 * a + b) bits acc).
Proof.
  intros H. revert acc. induction H as [|x r Hx Hr IH]; intros acc;
    [reflexivity|].
  cbn [bits_text bin_digits fold_left].
  destruct Hx as [-> | ->]; cbn; rewrite IH; do 2 f_equal; lia.
Qed.

Lemma bits_2_int_be (bits : list Z) :
  Forall is_bit bits -> bits <> [] ->
  Io.bits_2_int bits false = Ok (be_value bits).
Proof.
  intros H Hne. unfold Io.bits_2_int. rewrite concat_bits_text by exact H.
  destruct bits as [|x r]; [congruence|].
  pose proof (bin_digits_bits_text (x :: r) 0 H) as Hd.
  inversion H as [|? ? Hx Hr]; subst.
  unfold int_base2. cbn [bits_text] in *.
  destruct Hx as [-> | ->]; cbn in *; rewrite Hd; reflexivity.
Qed.

Lemma be_value_rev (bits : list Z) : be_value (rev bits) = le_value bits.
Proof.
  unfold be_value, le_value.
  induction bits as [|x r IH]; [reflexivity|].
  cbn [fold_right rev]. rewrite fold_left_app, IH. cbn [fold_left]. lia.
Qed.

Lemma bits_2_int_le (bits : list Z) :
  Forall is_bit bits -> bits <> [] ->
  Io.bits_2_int bits true = Ok (le_value bits).
Proof.
  intros H Hne. rewrite <- be_value_rev.
  rewrite <- (bits_2_int_be (rev bits)).
  - unfold Io.bits_2_int. reflexivity.
  - apply Forall_rev, H.
  - intros E. apply Hne. apply (f_equal (@rev Z)) in E.
    rewrite rev_involutive in E. exact E.
Qed.

Lemma bits_of_is_bit (x : Z) (n : nat) : Forall is_bit (bits_of x n).
Proof.
  unfold bits_of. apply Forall_map, Forall_forall. intros i _.
  unfold is_bit. simpl. destruct (Z.testbit _ _); simpl; auto.
Qed.

Lemma bits_of_S (x : Z) (n : nat) :
  bits_of x (S n) = Z.b2z (Z.testbit x 0) :: bits_of (x / 2) n.
Proof.
  unfold bits_of. cbn [seq map]. f_equal.
  rewrite <- seq_shift, map_map. apply map_ext. intros i.
  rewrite Nat2Z.inj_succ, <- Z.add_1_r.
  rewrite <- (Z.div_pow2_bits x 1 (Z.of_nat i)) by lia. reflexivity.
Qed.

(** The [n] low bits of [x], first bit least significant, denote
    [x mod 2^n]. *)
Lemma le_value_bits_of (x : Z) (n : nat) :
  le_value (bits_of x n) = x mod 2 ^ Z.of_nat n.
Proof.
  revert x. induction n as [|n IH]; intros x.
  - cbn. by rewrite Z.mod_1_r.
  - rewrite bits_of_S. unfold le_value in *. cbn [fold_right].
    rewrite IH, Z.bit0_mod, Nat2Z.inj_succ, Z.pow_succ_r by lia.
    rewrite Z.rem_mul_r by lia. lia.
Qed.

Lemma slice_bits_of (x : Z) (n a b : nat) :
  (a <= b <= n)%nat ->
  Legacy.slice (bits_of x n) a b = bits_of (Z.shiftr x (Z.of_nat a)) (b - a).
Proof.
  intros H. unfold Legacy.slice, bits_of.
  rewrite skipn_map, firstn_map, skipn_seq, take_seq.
  replace (Nat.min (b - a) (n - a)) with (b - a)%nat by lia.
  replace (0 + a)%nat with (a + 0)%nat by lia.
  rewrite <- (fmap_add_seq a 0).
  change (Nat.add a <$> seq 0 (b - a)) with (map (Nat.add a) (seq 0 (b - a))).
  rewrite map_map. apply map_ext. intros i.
  rewrite Z.shiftr_spec by lia. do 2 f_equal. lia.
Qed.

Lemma byte_val_range (b : byte) : 0 <= byte_val b < 256.
Proof. destruct b; vm_compute; split; congruence. Qed.

(** The bits of a byte string, without swap, are the low bits of its
    little-endian integer. *)
Lemma bytes_2_bits_bits_of (bs : list byte) :
  Io.bytes_2_bits bs false = bits_of (Struct.le_unsigned bs) (8 * length bs).
Proof.
  induction bs as [|b bs IH]; [reflexivity|].
  rewrite bytes_2_bits_cons, IH. unfold byte_bits, lsb_bits, bits_of.
  replace (8 * length (b :: bs))%nat with (8 + 8 * length bs)%nat
    by (simpl; lia).
  rewrite seq_app, map_app. cbn [Struct.le_unsigned].
  pose proof (byte_val_range b) as Hb. f_equal.
  - apply map_ext_in. intros i Hi. apply in_seq in Hi. f_equal.
    rewrite <- (Z.mod_pow2_bits_low (byte_val b + 256 * _) 8) by lia.
    f_equal. change (2 ^ 8) with 256.
    rewrite (Z.mul_comm 256), Z.mod_add by lia.
    symmetry. apply Z.mod_small; lia.
  - rewrite <- (fmap_add_seq 8 0).
    change (Nat.add 8 <$> ?l) with (map (Nat.add 8) l).
    rewrite map_map. apply map_ext. intros i. f_equal.
    replace (Z.of_nat (8 + i)) with (Z.of_nat i + 8) by lia.
    rewrite <- Z.div_pow2_bits by lia. f_equal. change (2 ^ 8) with 256.
    rewrite (Z.mul_comm 256), Z.div_add by lia.
    rewrite Z.div_small by lia. lia.
Qed.

(** A range of the bits of a byte string, read with its last bit most
    significant, is the corresponding field of the little-endian integer. *)
Lemma bits_2_int_slice (bs : list byte) (a b : nat) :
  (a < b <= 8 * length bs)%nat ->
  Io.bits_2_int (Legacy.slice (Io.bytes_2_bits bs false) a b) true
  = Ok (Z.land (Z.shiftr (Struct.le_unsigned bs) (Z.of_nat a))
          (Z.ones (Z.of_nat (b - a)))).
Proof.
  intros H. rewrite bytes_2_bits_bits_of, slice_bits_of by lia.
  rewrite bits_2_int_le.
  - rewrite le_value_bits_of, Z.land_ones by lia. reflexivity.
  - apply bits_of_is_bit.
  - destruct (b - a)%nat eqn:E; [lia|]. rewrite bits_of_S. discriminate.
Qed.

End Bits2Int.

(** ** The Bruker date and time blocks *)

Section BrukerDatetime.

Lemma tenths_ok_all (v : Z) : 0 <= v < 4096 -> tenths_ok v = true.
Proof.
  apply (all_from_spec tenths_ok 0 4096). vm_cast_no_check (eq_refl true).
Qed.

Lemma land_ones_range (x : Z) (n : Z) :
  0 <= n -> 0 <= Z.land x (Z.ones n) < 2 ^ n.
Proof. intros H. rewrite Z.land_ones by lia. apply Z.mod_pos_bound. lia. Qed.

(** The code's datetime, field by field, in terms of the blocks read as
    little-endian integers. *)
Lemma bruker_datetime_fields (date_block time_block : list byte) :
  length date_block = 4%nat -> length time_block = 4%nat ->
  let D := Struct.le_unsigned date_block in
  let T := Struct.le_unsigned time_block in
  let tenths := Z.land T (Z.ones 12) in
  exists us,
    usec_of_tenths tenths = Ok us
    /\ 100000 * (tenths mod 10) - 1 <= us <= 100000 * (tenths mod 10)
    /\ Legacy.bruker_datetime date_block time_block
       = datetime_new (Z.land (Z.shiftr D 12) (Z.ones 12))
                      (Z.land (Z.shiftr D 6) (Z.ones 6))
                      (Z.land D (Z.ones 6))
                      (Z.land (Z.shiftr T 18) (Z.ones 6))
                      (Z.land (Z.shiftr T 12) (Z.ones 6))
                      (tenths / 10) us.
Proof.
  intros Hd Ht D T tenths.
  assert (Hr : 0 <= tenths < 4096) by (apply (land_ones_range T 12); lia).
  pose proof (tenths_ok_all tenths Hr) as Hok.
  unfold tenths_ok in Hok. unfold usec_of_tenths.
  unfold Legacy.bruker_datetime.
  rewrite !bits_2_int_slice by lia.
  cbn [bind Nat.sub].
  change (Z.of_nat 0) with 0. change (Z.of_nat 6) with 6.
  change (Z.of_nat 12) with 12. change (Z.of_nat 18) with 18.
  rewrite !Z.shiftr_0_r. fold D T. fold tenths.
  unfold truediv. change (10 =? 0) with false. cbn match.
  replace ((Z.abs tenths <? 2 ^ 53) && (Z.abs 10 <? 2 ^ 53)) with true
    by (symmetry; apply andb_true_iff; split; [apply Z.ltb_lt; lia | reflexivity]).
  cbn [bind as_float].
  destruct (modf (float_of_Z tenths / float_of_Z 10)) as [secd seci].
  cbn [fst].
  destruct (int_of_float seci) as [s|]; [|discriminate].
  destruct (int_of_float (secd * 1e6)) as [us|]; [|discriminate].
  apply andb_true_iff in Hok as [Hok H3]. apply andb_true_iff in Hok as [H1 H2].
  apply Z.eqb_eq in H1. apply Z.leb_le in H2, H3. subst s.
  exists us. split; [reflexivity|]. split; [lia|]. reflexivity.
Qed.

End BrukerDatetime.

(** ** Dictionaries built from key and value lists *)

Section DictOf.

Lemma fold_insert_notin (l : list (string * value)) (m : dict) (k : string) :
  k ∉ l.*1 ->
  fold_left (fun d kv => <[kv.1 := kv.2]> d) l m !! k = m !! k.
Proof.
  revert m. induction l as [|[k' v'] l IH]; intros m Hk; [reflexivity|].
  cbn [fold_left]. rewrite fmap_cons in Hk. apply not_elem_of_cons in Hk as [Hne Hk].
  rewrite IH by exact Hk. cbn. by rewrite lookup_insert_ne.
Qed.

Lemma dict_of_notin (l : list (string * value)) (k : string) :
  k ∉ l.*1 -> dict_of l !! k = None.
Proof. intros H. unfold dict_of. by rewrite fold_insert_notin. Qed.

Lemma fold_insert_in (l : list (string * value)) (m : dict) (k : string)
    (v : value) :
  NoDup l.*1 -> (k, v) ∈ l ->
  fold_left (fun d kv => <[kv.1 := kv.2]> d) l m !! k = Some v.
Proof.
  revert m. induction l as [|[k' v'] l IH]; intros m Hnd Hin.
  - by apply elem_of_nil in Hin.
  - rewrite fmap_cons in Hnd. apply NoDup_cons in Hnd as [Hk' Hnd].
    cbn [fold_left]. apply elem_of_cons in Hin as [[= -> ->] | Hin].
    + rewrite fold_insert_notin by exact Hk'. cbn. by rewrite lookup_insert_eq.
    + by apply IH.
Qed.

Lemma zip_fst_subset {A B : Type} (ks : list A) (vs : list B) (k : A) :
  k ∈ (zip ks vs).*1 -> k ∈ ks.
Proof.
  revert vs. induction ks as [|k' ks IH]; intros [|v vs]; cbn;
    try (intros H; by apply elem_of_nil in H).
  rewrite !elem_of_cons. intros [-> | H]; [by left | right; eauto].
Qed.

Lemma zip_fst_NoDup {A B : Type} (ks : list A) (vs : list B) :
  NoDup ks -> NoDup (zip ks vs).*1.
Proof.
  revert vs. induction ks as [|k ks IH]; intros [|v vs] H; cbn;
    try apply NoDup_nil_2.
  apply NoDup_cons in H as [Hk H]. apply NoDup_cons. split; [|by apply IH].
  intros Hin. apply Hk. by eapply zip_fst_subset.
Qed.

(** A key outside [ks] is not in [dict(zip(ks, vs))]. *)
Lemma dict_of_zip_notin (ks : list string) (vs : list value) (k : string) :
  k ∉ ks -> dict_of (zip ks vs) !! k = None.
Proof.
  intros H. apply dict_of_notin. intros Hin. apply H.
  by eapply zip_fst_subset.
Qed.

(** With distinct keys, the [i]-th key is bound to the [i]-th value. *)
Lemma dict_of_zip_lookup (ks : list string) (vs : list value) (i : nat)
    (k : string) (v : value) :
  NoDup ks -> ks !! i = Some k -> vs !! i = Some v ->
  dict_of (zip ks vs) !! k = Some v.
Proof.
  intros Hnd Hk Hv. apply fold_insert_in; [by apply zip_fst_NoDup|].
  apply list_elem_of_lookup. exists i.
  apply lookup_zip_with_Some. eauto.
Qed.

End DictOf.

(** ** [read_bin_block] *)

Section ReadBinBlock.

(** What a successful little-endian read returns, and what it needs. *)
Lemma read_bin_block_Ok (f f' : file) (ffmt : Io.ffmt_t) (d : dict) :
  Io.read_bin_block f ffmt None "<" = Ok (d, f') ->
  exists items,
    Struct.parse ("<" ++ String.concat "" (map snd ffmt))
      = Ok (Struct.LittleEndian, items)
    /\ let n := Struct.items_size items in
       let data := firstn n (skipn (position f) (content f)) in
       length data = n
       /\ d = dict_of (zip (omap fst ffmt)
                         (Struct.unpack_items Struct.LittleEndian items data))
       /\ f' = mk_file (content f) (position f + n).
Proof.
  unfold Io.read_bin_block, Struct.calcsize, Struct.unpack.
  set (fmt := ("<" ++ _)%string).
  destruct (Struct.parse fmt) as [[o items]|e] eqn:Hp; [|discriminate].
  assert (o = Struct.LittleEndian) as ->.
  { apply bind_Ok in Hp as (l & _ & Hp). congruence. }
  cbn [bind snd fst]. unfold read. cbn [bind snd fst].
  destruct (_ =? _)%nat eqn:E; [|discriminate].
  apply Nat.eqb_eq in E. intros [= <- <-].
  exists items. split; [reflexivity|]. cbn zeta.
  split; [exact E|]. split; [reflexivity|]. by rewrite E.
Qed.

Lemma read_bin_block_enough (f : file) (ffmt : Io.ffmt_t)
    (items : list (nat * Struct.code)) :
  Struct.parse ("<" ++ String.concat "" (map snd ffmt))
    = Ok (Struct.LittleEndian, items) ->
  (Struct.items_size items <= length (skipn (position f) (content f)))%nat ->
  let n := Struct.items_size items in
  let data := firstn n (skipn (position f) (content f)) in
  Io.read_bin_block f ffmt None "<"
  = Ok (dict_of (zip (omap fst ffmt)
                   (Struct.unpack_items Struct.LittleEndian items data)),
        mk_file (content f) (position f + n)).
Proof.
  intros Hp Hlen n data.
  unfold Io.read_bin_block, Struct.calcsize, Struct.unpack.
  rewrite Hp. cbn [bind snd fst]. unfold read. cbn [bind snd fst].
  fold n. fold data.
  assert (E : length data = n) by (unfold data; rewrite length_firstn; lia).
  rewrite E, Nat.eqb_refl. reflexivity.
Qed.

Lemma read_bin_block_short (f : file) (ffmt : Io.ffmt_t)
    (items : list (nat * Struct.code)) :
  Struct.parse ("<" ++ String.concat "" (map snd ffmt))
    = Ok (Struct.LittleEndian, items) ->
  (length (skipn (position f) (content f)) < Struct.items_size items)%nat ->
  Io.read_bin_block f ffmt None "<"
  = Raise (StructError "unpack requires a buffer of the format's size").
Proof.
  intros Hp Hlen.
  unfold Io.read_bin_block, Struct.calcsize, Struct.unpack.
  rewrite Hp. cbn [bind snd fst]. unfold read. cbn [bind snd fst].
  destruct (_ =? _)%nat eqn:E; [|reflexivity].
  apply Nat.eqb_eq in E. rewrite length_firstn in E. lia.
Qed.

End ReadBinBlock.

(** ** The block-reader example *)

Section BlockExample.

Lemma le_unsigned_range (bs : list byte) :
  0 <= Struct.le_unsigned bs < 256 ^ Z.of_nat (length bs).
Proof.
  induction bs as [|b bs IH]; [cbn; lia|].
  cbn [Struct.le_unsigned length]. pose proof (byte_val_range b).
  rewrite Nat2Z.inj_succ, Z.pow_succ_r by lia. lia.
Qed.

Lemma le_signed_range (bs : list byte) :
  bs <> [] ->
  - 2 ^ (8 * Z.of_nat (length bs) - 1) <= Struct.le_signed bs
    < 2 ^ (8 * Z.of_nat (length bs) - 1).
Proof.
  intros Hne. unfold Struct.le_signed.
  pose proof (le_unsigned_range bs) as Hu.
  assert (Hl : 1 <= Z.of_nat (length bs)) by (destruct bs; [congruence | cbn [length]; lia]).
  set (n := Z.of_nat (length bs)) in *.
  assert (E : 256 ^ n = 2 * 2 ^ (8 * n - 1)).
  { change 256 with (2 ^ 8). rewrite <- Z.pow_mul_r, <- Z.pow_succ_r by lia.
    f_equal. lia. }
  assert (E2 : 2 ^ (8 * n) = 2 * 2 ^ (8 * n - 1)).
  { rewrite <- Z.pow_succ_r by lia. f_equal. lia. }
  destruct (Z.ltb_spec (Struct.le_unsigned bs) (2 ^ (8 * n - 1))); lia.
Qed.

(** C5. Over the field specs [("a","h"), (None,"2x"), ("b","f")]: on a
    stream with 8 bytes or more left, [read_bin_block] returns exactly the
    mapping with "a" bound to the int16 of the first two bytes and "b" to
    the float32 of bytes 4 to 8, without an entry for the padding, and the
    stream position advanced by exactly 8; on a stream with fewer than 8
    bytes left (7, one byte short, in particular) it raises [struct.error]
    and returns no record. *)
Theorem read_bin_block_example (f : file) :
  let avail := skipn (position f) (content f) in
  ((8 <= length avail)%nat ->
   exists (a : Z) (b : float),
     Io.read_bin_block f Samples.example_ffmt None "<"
     = Ok ({[ "a" := VInt a; "b" := VFloat b ]},
           mk_file (content f) (position f + 8))
     /\ a = Struct.le_signed (firstn 2 avail)
     /\ - 32768 <= a < 32768
     /\ b = float_of_ieee 8 23 (Struct.le_unsigned (firstn 4 (skipn 4 avail))))
  /\ ((length avail < 8)%nat ->
      exists msg,
        Io.read_bin_block f Samples.example_ffmt None "<"
        = Raise (StructError msg)).
Proof.
  intros avail.
  assert (Hp : Struct.parse ("<" ++ String.concat "" (map snd Samples.example_ffmt))
               = Ok (Struct.LittleEndian,
                     [(1%nat, Struct.SInt 2); (2%nat, Struct.Pad); (1%nat, Struct.F32)]))
    by reflexivity.
  split.
  - intros Hlen.
    rewrite (read_bin_block_enough f _ _ Hp) by exact Hlen.
    change (Struct.items_size _) with 8%nat. fold avail.
    exists (Struct.le_signed (firstn 2 avail)),
      (float_of_ieee 8 23 (Struct.le_unsigned (firstn 4 (skipn 4 avail)))).
    split; [|split; [reflexivity | split; [|reflexivity]]].
    + f_equal. f_equal.
      change (omap fst Samples.example_ffmt) with ["a"; "b"].
      cbn [Struct.unpack_items Struct.unpack_item Struct.item_size fst snd
           Struct.width Nat.mul Nat.add Struct.chunks map app
           Struct.decode1 zip zip_with].
      rewrite !skipn_firstn_comm, !firstn_firstn, !skipn_skipn.
      cbn [Nat.sub Nat.min Nat.add]. unfold dict_of.
      cbn [zip zip_with fold_left fst snd].
      rewrite insert_insert_ne by done. reflexivity.
    + assert (Hl : length (firstn 2 avail) = 2%nat)
        by (rewrite length_firstn; lia).
      pose proof (le_signed_range (firstn 2 avail)) as Hr.
      rewrite Hl in Hr. apply Hr. intros E. rewrite E in Hl. discriminate.
  - intros Hlen. eexists. apply (read_bin_block_short f _ _ Hp). exact Hlen.
Qed.

(** The example on a stream with 8 bytes left and on one with 7. *)
Lemma read_bin_block_example_witness :
  (exists (a : Z) (b : float),
     Io.read_bin_block Samples.example_stream Samples.example_ffmt None "<"
     = Ok ({[ "a" := VInt a; "b" := VFloat b ]},
           mk_file (content Samples.example_stream) 11)
     /\ a = -2 /\ b = 10.5%float)
  /\ exists msg,
       Io.read_bin_block Samples.example_stream_short Samples.example_ffmt
         None "<" = Raise (StructError msg).
Proof.
  destruct (read_bin_block_example Samples.example_stream) as [H1 _].
  destruct (read_bin_block_example Samples.example_stream_short) as [_ H2].
  split.
  - destruct H1 as (a & b & E & Ha & _ & Hb); [vm_compute; lia|].
    exists a, b. split; [exact E|]. split; [rewrite Ha | rewrite Hb]; reflexivity.
  - apply H2. vm_compute. lia.
Defined.

End BlockExample.

(** ** Headers and their fields *)

Section Headers.

Lemma field_Some (ffmt : Io.ffmt_t) (filename : list byte) (k : string)
    (v : value) :
  field ffmt filename k = Some v ->
  exists d f',
    Io.read_bin_block (open filename) ffmt None "<" = Ok (d, f')
    /\ d !! k = Some v.
Proof.
  unfold field, header.
  destruct (Io.read_bin_block _ _ _ _) as [[d f']|e]; cbn; [|discriminate].
  eauto.
Qed.

Lemma field_of_header (ffmt : Io.ffmt_t) (filename : list byte) (d : dict)
    (f' : file) (k : string) :
  Io.read_bin_block (open filename) ffmt None "<" = Ok (d, f') ->
  field ffmt filename k = d !! k.
Proof. intros H. unfold field, header. rewrite H. reflexivity. Qed.

(** A header has no key outside its layout. *)
Lemma header_no_key (ffmt : Io.ffmt_t) (f f' : file) (d : dict) (k : string) :
  Io.read_bin_block f ffmt None "<" = Ok (d, f') ->
  k ∉ omap fst ffmt -> d !! k = None.
Proof.
  intros H Hk. apply read_bin_block_Ok in H as (items & _ & _ & -> & _).
  by apply dict_of_zip_notin.
Qed.

Lemma decode_strip_Ok (d d' : dict) (k : string) :
  Legacy.decode_strip d k = Ok d' ->
  exists bs s, d !! k = Some (VBytes bs) /\ decode bs = Ok s
               /\ d' = <[k := VStr (strip s)]> d.
Proof.
  unfold Legacy.decode_strip. intros H.
  apply bind_Ok in H as (v & Hv & H). apply getitem_Ok in Hv.
  apply bind_Ok in H as (s & Hs & [= <-]).
  unfold decode_value in Hs. apply bind_Ok in Hs as (bs & Hb & Hs).
  destruct v; try discriminate. injection Hb as ->. eauto.
Qed.

(** ASCII bytes are UTF-8 text, one character per byte. *)
Lemma code_of_byte (b : byte) : code (ascii_of_byte b) = byte_val b.
Proof. destruct b; reflexivity. Qed.

Lemma utf8_ascii (bs : list byte) :
  forallb is_ascii_byte bs = true ->
  utf8 (string_of_list_byte bs) = Some (map byte_val bs).
Proof.
  induction bs as [|b bs IH]; [reflexivity|].
  cbn [forallb]. intros [Hb Hbs]%andb_true_iff.
  change (string_of_list_byte (b :: bs))
    with (String (ascii_of_byte b) (string_of_list_byte bs)).
  cbn [utf8]. rewrite code_of_byte. unfold is_ascii_byte in Hb.
  rewrite Hb, (IH Hbs). reflexivity.
Qed.

Lemma decode_ascii (bs : list byte) :
  forallb is_ascii_byte bs = true -> decode bs = Ok (string_of_list_byte bs).
Proof. intros H. unfold decode. by rewrite (utf8_ascii _ H). Qed.

End Headers.

(** ** [read_bruker]: the point counts *)

Section BrukerCounts.

(** C1 (defect of the code). When the two stored point
    counts differ, and the name is ASCII text, [read_bruker]
    does not raise the [ValueError] it builds: looking up the key
    'n_points1', which no header has, raises [KeyError] first. *)
Theorem read_bruker_count_mismatch (filename : list byte) (name : list byte)
    (n1 n2 : Z) :
  field Iofmt.bruker_header_ffmt filename "name" = Some (VBytes name) ->
  forallb is_ascii_byte name = true ->
  field Iofmt.bruker_header_ffmt filename "n_points" = Some (VInt n1) ->
  field Iofmt.bruker_header_ffmt filename "n_points2" = Some (VInt n2) ->
  n1 <> n2 ->
  Legacy.read_bruker filename = Raise (KeyError "n_points1").
Proof.
  intros Hname Hascii H1 H2 Hne.
  apply field_Some in Hname as (hdr & f' & Hread & Hname).
  rewrite (field_of_header _ _ _ _ "n_points" Hread) in H1.
  rewrite (field_of_header _ _ _ _ "n_points2" Hread) in H2.
  assert (Hno : hdr !! "n_points1" = None).
  { apply (header_no_key _ _ _ _ _ Hread).
    apply (bool_decide_unpack _). vm_compute. exact I. }
  unfold Legacy.read_bruker. rewrite Hread. cbn [bind].
  unfold Legacy.decode_strip, getitem, decode_value.
  rewrite Hname. cbn [bind as_bytes]. rewrite (decode_ascii _ Hascii).
  cbn [bind].
  unfold Legacy.bruker_n_points, getitem.
  rewrite !lookup_insert_ne by done. rewrite H1, H2. cbn [bind Legacy.ne].
  destruct (Z.eqb_spec n1 n2) as [E|_]; [contradiction|]. cbn [negb bind].
  rewrite lookup_insert_eq. cbn [bind Legacy.format_arg].
  rewrite lookup_insert_ne by done. rewrite Hno. reflexivity.
Qed.

(** The sample file with counts 100 and 101. *)
Lemma read_bruker_count_mismatch_witness :
  Legacy.read_bruker Samples.bruker_mismatch = Raise (KeyError "n_points1").
Proof.
  apply (read_bruker_count_mismatch Samples.bruker_mismatch
           (Samples.ascii_bytes "bruker01    ") 100 101);
    try (vm_compute; reflexivity).
  lia.
Defined.

End BrukerCounts.

(** ** [read_bruker]: the datetime *)

Section BrukerRead.

(** The value list of a header and the lookup of its [i]-th key. *)
Lemma header_lookup (ffmt : Io.ffmt_t) (f f' : file) (d : dict) (i : nat)
    (k : string) (v : value) :
  Io.read_bin_block f ffmt None "<" = Ok (d, f') ->
  NoDup (omap fst ffmt) ->
  omap fst ffmt !! i = Some k ->
  let n := Struct.items_size (layout ffmt) in
  let data := firstn n (skipn (position f) (content f)) in
  length data = n
  /\ (Struct.unpack_items Struct.LittleEndian (layout ffmt) data !! i = Some v ->
      d !! k = Some v).
Proof.
  intros H Hnd Hk. apply read_bin_block_Ok in H as (items & Hp & H).
  unfold layout. rewrite Hp. cbn [snd]. cbn zeta in *.
  destruct H as (Hlen & -> & _). split; [exact Hlen|].
  intros Hv. by eapply dict_of_zip_lookup.
Qed.

Lemma bruker_keys_NoDup : NoDup (omap fst Iofmt.bruker_header_ffmt).
Proof. apply (bool_decide_unpack _). vm_compute. exact I. Qed.

Lemma bruker_layout :
  layout Iofmt.bruker_header_ffmt
  = ltac:(let x := eval vm_compute in (layout Iofmt.bruker_header_ffmt) in
          exact x).
Proof. vm_compute. reflexivity. Qed.

(** The date and time blocks of a Bruker header hold 4 bytes each. *)
Lemma bruker_blocks_length (f f' : file) (hdr : dict) (k : string)
    (bs : list byte) :
  Io.read_bin_block f Iofmt.bruker_header_ffmt None "<" = Ok (hdr, f') ->
  k = "date_block" \/ k = "time_block" ->
  hdr !! k = Some (VBytes bs) -> length bs = 4%nat.
Proof.
  intros H Hk Hbs.
  destruct Hk as [-> | ->].
  - destruct (header_lookup _ _ _ _ 9 "date_block"
                (VBytes (firstn 4 (skipn 292 (firstn 1280 (skipn (position f) (content f))))))
                H bruker_keys_NoDup eq_refl) as [Hlen Hv].
    rewrite bruker_layout in Hlen, Hv.
    rewrite Hv in Hbs.
    + injection Hbs as <-. rewrite length_firstn, length_skipn.
      change (Struct.items_size _) with 1280%nat in Hlen. lia.
    + cbn [Struct.unpack_items Struct.unpack_item Struct.item_size fst snd
           Struct.width Nat.mul Nat.add Struct.chunks map app
           Struct.decode1 lookup list_lookup Struct.items_size foldr].
      rewrite !skipn_skipn. reflexivity.
  - destruct (header_lookup _ _ _ _ 10 "time_block"
                (VBytes (firstn 4 (skipn 296 (firstn 1280 (skipn (position f) (content f))))))
                H bruker_keys_NoDup eq_refl) as [Hlen Hv].
    rewrite bruker_layout in Hlen, Hv.
    rewrite Hv in Hbs.
    + injection Hbs as <-. rewrite length_firstn, length_skipn.
      change (Struct.items_size _) with 1280%nat in Hlen. lia.
    + cbn [Struct.unpack_items Struct.unpack_item Struct.item_size fst snd
           Struct.width Nat.mul Nat.add Struct.chunks map app
           Struct.decode1 lookup list_lookup Struct.items_size foldr].
      rewrite !skipn_skipn. reflexivity.
Qed.

End BrukerRead.

(** Looking a key up through the inserts and deletes of other keys. *)
Ltac lookup_through :=
  repeat first
    [ rewrite lookup_insert_eq
    | rewrite lookup_insert_ne by done
    | rewrite lookup_delete_ne by done ].

Section BrukerDatetimeAvg.


Lemma bruker_n_points_Ok (spec spec' : dict) :
  Legacy.bruker_n_points spec = Ok spec' ->
  exists v, spec !! "n_points2" = Some v
            /\ spec' = <["n_points" := v]> (delete "n_points2" spec).
Proof.
  unfold Legacy.bruker_n_points. intros H.
  apply bind_Ok in H as (v1 & _ & H).
  apply bind_Ok in H as (v2 & _ & H).
  apply bind_Ok in H as ([|] & _ & H).
  - apply bind_Ok in H as (a0 & _ & H).
    apply bind_Ok in H as (a1 & _ & H).
    apply bind_Ok in H as (a2 & _ & H). discriminate.
  - apply bind_Ok in H as ([v d] & Hp & [= <-]).
    apply pop_Ok in Hp as [Hv ->]. eauto.
Qed.

Lemma bruker_intdec_Ok (spec spec' : dict) (key ki kd : string) :
  Legacy.bruker_intdec spec key ki kd = Ok spec' ->
  exists x, spec' = <[key := x]> (delete kd (delete ki spec)).
Proof.
  unfold Legacy.bruker_intdec. intros H.
  apply bind_Ok in H as ([vi d1] & Hp1 & H). apply pop_Ok in Hp1 as [_ ->].
  apply bind_Ok in H as ([vd d2] & Hp2 & H). apply pop_Ok in Hp2 as [_ ->].
  apply bind_Ok in H as (x & _ & [= <-]). eauto.
Qed.

Lemma datetime_new_Ok (y m d H M S us : Z) (t : datetime) :
  datetime_new y m d H M S us = Ok t -> t = mk_datetime y m d H M S us.
Proof.
  unfold datetime_new.
  repeat match goal with
         | |- context [if ?b then _ else _] => destruct b; try discriminate
         end.
  congruence.
Qed.

(** C2 (as amended). Whenever [read_bruker] returns, its [datetime_avg]
    is made of bit fields of the date block [D] and the time block [T],
    each read as a little-endian 32-bit integer (the bits of each byte
    least significant first, every range read with its last bit most
    significant): day = bits 0-5, month = bits 6-11 and year = bits 12-23
    of [D]; minute = bits 12-17 and hour = bits 18-23 of [T]; with
    [tenths] = bits 0-11 of [T], second = [tenths] div 10 and microsecond =
    the binary64 value [modf(tenths / 10)[0] * 1e6] truncated, which is
    100000 * ([tenths] mod 10) or one less. *)
Theorem read_bruker_datetime_avg (filename : list byte) (spec : dict) :
  Legacy.read_bruker filename = Ok spec ->
  exists (date_block time_block : list byte) (us : Z),
    field Iofmt.bruker_header_ffmt filename "date_block"
      = Some (VBytes date_block)
    /\ field Iofmt.bruker_header_ffmt filename "time_block"
       = Some (VBytes time_block)
    /\ let D := Struct.le_unsigned date_block in
       let T := Struct.le_unsigned time_block in
       let tenths := Z.land T (Z.ones 12) in
       usec_of_tenths tenths = Ok us
       /\ 100000 * (tenths mod 10) - 1 <= us <= 100000 * (tenths mod 10)
       /\ spec !! "datetime_avg"
          = Some (VDatetime
                    {| year := Z.land (Z.shiftr D 12) (Z.ones 12);
                       month := Z.land (Z.shiftr D 6) (Z.ones 6);
                       day := Z.land D (Z.ones 6);
                       hour := Z.land (Z.shiftr T 18) (Z.ones 6);
                       minute := Z.land (Z.shiftr T 12) (Z.ones 6);
                       second := tenths / 10;
                       microsecond := us |}).
Proof.
  unfold Legacy.read_bruker. intros H.
  apply bind_Ok in H as ([hdr f'] & Hread & H).
  apply bind_Ok in H as (spec1 & H1 & H).
  apply decode_strip_Ok in H1 as (nm & s & _ & _ & ->).
  apply bind_Ok in H as (spec2 & H2 & H).
  apply bruker_n_points_Ok in H2 as (np & _ & ->).
  apply bind_Ok in H as ([vdb spec3] & Hp & H). apply pop_Ok in Hp as [Hdb ->].
  apply bind_Ok in H as (date_block & Hb & H).
  destruct vdb; try discriminate. injection Hb as ->.
  apply bind_Ok in H as ([vtb spec4] & Hp & H). apply pop_Ok in Hp as [Htb ->].
  apply bind_Ok in H as (time_block & Hb & H).
  destruct vtb; try discriminate. injection Hb as ->.
  apply bind_Ok in H as (t & Ht & H).
  apply bind_Ok in H as (s1 & E1 & H). apply bruker_intdec_Ok in E1 as (x1 & ->).
  apply bind_Ok in H as (s2 & E2 & H). apply bruker_intdec_Ok in E2 as (x2 & ->).
  apply bind_Ok in H as (s3 & E3 & H). apply bruker_intdec_Ok in E3 as (x3 & ->).
  apply bind_Ok in H as (s4 & E4 & H). apply bruker_intdec_Ok in E4 as (x4 & ->).
  do 5 (apply bind_Ok in H as (? & _ & H)).
  do 2 (apply bind_Ok in H as (? & _ & H)).
  do 2 (apply bind_Ok in H as (? & _ & H)).
  apply bind_Ok in H as ([data fend] & _ & H). apply Ok_inj in H as <-.
  (revert Hdb Htb; lookup_through; intros Hdb Htb).
  pose proof (bruker_blocks_length _ _ _ _ _ Hread (or_introl eq_refl) Hdb) as Ld.
  pose proof (bruker_blocks_length _ _ _ _ _ Hread (or_intror eq_refl) Htb) as Lt.
  destruct (bruker_datetime_fields date_block time_block Ld Lt)
    as (us & Hus & Hbound & Hdt).
  exists date_block, time_block, us.
  rewrite (field_of_header _ _ _ _ "date_block" Hread).
  rewrite (field_of_header _ _ _ _ "time_block" Hread).
  split; [exact Hdb|]. split; [exact Htb|]. cbn zeta.
  split; [exact Hus|]. split; [exact Hbound|].
  (rewrite Hdt in Ht; apply datetime_new_Ok in Ht as ->).
  lookup_through. reflexivity.
Qed.

End BrukerDatetimeAvg.

(** ** [read_spec]: the quality field *)

Section SpecQuality.

Lemma bits_of_16 (v : Z) :
  bits_of v 16 =
  map (fun i => Z.b2z (Z.testbit v i))
      [0; 1; 2; 3; 4; 5; 6; 7; 8; 9; 10; 11; 12; 13; 14; 15].
Proof. reflexivity. Qed.

Lemma b2z_flag (b : bool) : negb (Z.b2z b =? 0) = b.
Proof. by destruct b. Qed.

Lemma b2z_is_bit (b : bool) : is_bit (Z.b2z b).
Proof. destruct b; [right | left]; reflexivity. Qed.

(** C8 (as amended). The 2-byte quality field, read as the little-endian
    16-bit pattern [v], decodes bit by bit: bit 0 = bad spectrum, bit 1 =
    mean spectrum, bit 2 = bad zero, bits 3-4 = fringing level (bit 3 the
    more significant), bit 5 = bad signal-to-noise, bit 6 = bad line
    shape, bit 7 = sun centered, inverted, bit 8 = pollution, bit 9 = slow
    variation, bit 10 = fast variation, bit 11 = technical problem, bits
    13-15 = weather code (bit 13 the most significant); bit 12 is not
    read, the 'quality' key is removed and no other key changes. *)
Theorem spec_quality_bits (r : dict) (q0 q1 : byte) :
  r !! "quality" = Some (VBytes [q0; q1]) ->
  let v := Struct.le_unsigned [q0; q1] in
  let bit i := Z.testbit v i in
  exists r',
    Legacy.spec_quality r = Ok r'
    /\ r' !! "is_bad_spectrum" = Some (VBool (bit 0))
    /\ r' !! "is_mean_spectrum" = Some (VBool (bit 1))
    /\ r' !! "is_bad_zero" = Some (VBool (bit 2))
    /\ r' !! "fringing_level"
       = Some (VInt (2 * Z.b2z (bit 3) + Z.b2z (bit 4)))
    /\ r' !! "has_bad_sn_ratio" = Some (VBool (bit 5))
    /\ r' !! "has_bad_ils" = Some (VBool (bit 6))
    /\ r' !! "is_sun_centered" = Some (VBool (negb (bit 7)))
    /\ r' !! "has_pollution" = Some (VBool (bit 8))
    /\ r' !! "has_slow_signal_variation" = Some (VBool (bit 9))
    /\ r' !! "has_fast_signal_variation" = Some (VBool (bit 10))
    /\ r' !! "has_technical_problem" = Some (VBool (bit 11))
    /\ r' !! "weather_id"
       = Some (VInt (4 * Z.b2z (bit 13) + 2 * Z.b2z (bit 14) + Z.b2z (bit 15)))
    /\ r' !! "quality" = None
    /\ forall k, k ∉ "quality" :: quality_keys -> r' !! k = r !! k.
Proof.
  intros Hq v bit. unfold Legacy.spec_quality, pop. rewrite Hq.
  cbn [bind as_bytes]. rewrite bytes_2_bits_bits_of. fold v.
  change (8 * length [q0; q1])%nat with 16%nat. rewrite bits_of_16.
  cbn [map Legacy.flag nth_error bind Legacy.slice skipn firstn Nat.sub].
  rewrite !b2z_flag.
  rewrite !bits_2_int_be
    by first [ discriminate
             | repeat (constructor; [apply b2z_is_bit|]); constructor ].
  cbn [bind]. eexists. split; [reflexivity|].
  unfold be_value. cbn [fold_left]. subst bit. cbn beta.
  repeat split;
    try (lookup_through; first [reflexivity | do 2 f_equal; lia]).
  - lookup_through. apply lookup_delete_eq.
  - intros k Hk. unfold quality_keys, other_flags in Hk.
    rewrite !not_elem_of_cons in Hk.
    destruct Hk as (? & ? & ? & ? & ? & ? & ? & ? & ? & ? & ? & ? & ? & _).
    rewrite !lookup_insert_ne by done. by rewrite lookup_delete_ne.
Qed.

End SpecQuality.

Section SpecQualityExample.

(** The pattern with only bit 0 set: bad spectrum, sun centered (bit 7 is
    clear), every other flag false, fringing level 0 and weather code 0. *)
Lemma spec_quality_bits_witness :
  exists r',
    Legacy.spec_quality Samples.quality_bit0 = Ok r'
    /\ r' !! "is_bad_spectrum" = Some (VBool true)
    /\ r' !! "is_sun_centered" = Some (VBool true)
    /\ r' !! "fringing_level" = Some (VInt 0)
    /\ r' !! "weather_id" = Some (VInt 0)
    /\ forall k, k ∈ other_flags -> k <> "is_sun_centered" ->
                 r' !! k = Some (VBool false).
Proof.
  destruct (spec_quality_bits Samples.quality_bit0 x01 x00 eq_refl)
    as (r' & E & H0 & H1 & H2 & H3 & H5 & H6 & H7 & H8 & H9 & H10 & H11
        & H13 & _).
  exists r'. repeat split; try assumption.
  intros k Hk Hne. unfold other_flags in Hk.
  repeat (apply elem_of_cons in Hk as [-> | Hk]; [assumption || congruence|]).
  by apply elem_of_nil in Hk.
Defined.

(** C8 (counterexample). On the pattern with only bit 0 set the decoded
    [is_sun_centered] is true, so it is not the case that all the flags
    other than [is_bad_spectrum] are false. *)
Lemma spec_quality_bit0_sun_centered :
  exists r',
    Legacy.spec_quality Samples.quality_bit0 = Ok r'
    /\ r' !! "is_sun_centered" = Some (VBool true)
    /\ ~ (forall k, k ∈ other_flags -> r' !! k = Some (VBool false)).
Proof.
  destruct spec_quality_bits_witness as (r' & E & _ & Hs & _).
  exists r'. split; [exact E|]. split; [exact Hs|].
  intros H. specialize (H "is_sun_centered").
  rewrite Hs in H. discriminate H.
  unfold other_flags. set_solver.
Qed.

End SpecQualityExample.

(** ** [read_spec]: undefined values *)

Section SpecUndefined.

Lemma be_value_lsb_bits_range (b : byte) : 0 <= be_value (lsb_bits b) <= 255.
Proof. destruct b; vm_compute; split; congruence. Qed.

Lemma spec_parse_byte_Ok (r : dict) (k : string) (b : byte) :
  r !! k = Some (VBytes [b]) ->
  Legacy.spec_parse_byte r k
  = Ok (<[k := VInt (be_value (lsb_bits b))]> (delete k r)).
Proof.
  intros H. unfold Legacy.spec_parse_byte, pop. rewrite H.
  cbn [bind as_bytes]. rewrite bytes_2_bits_cons.
  change (Io.bytes_2_bits [] false) with (@nil Z). rewrite app_nil_r.
  unfold byte_bits. rewrite bits_2_int_be; [reflexivity | apply lsb_bits_01 |].
  discriminate.
Qed.

Lemma spec_undefined_int (r : dict) (k : string) (n s : Z) :
  r !! k = Some (VInt n) ->
  Legacy.spec_undefined r k s
  = Ok (if n =? s then <[k := VFloat nan]> r else r).
Proof.
  intros H. unfold Legacy.spec_undefined, getitem. rewrite H.
  cbn [bind eq_int]. by destruct (n =? s).
Qed.

(** C3 (defect of the code). After the two 1-byte fields are
    parsed, temperature and pressure equal to -9999 become NaN, as
    specified; but the parsed [relative_humidity] and [tropopause_height]
    are the bytes read with their first bit most significant, numbers
    between 0 and 255, so they never equal -99 or -9 and are never
    replaced by NaN, whatever byte is stored. *)
Theorem spec_undefined_values_result (r : dict) (t p : Z) (h z : byte) :
  r !! "temperature" = Some (VInt t) ->
  r !! "pressure" = Some (VInt p) ->
  r !! "relative_humidity" = Some (VBytes [h]) ->
  r !! "tropopause_height" = Some (VBytes [z]) ->
  exists r',
    Legacy.spec_undefined_values r = Ok r'
    /\ r' !! "temperature"
       = Some (if t =? -9999 then VFloat nan else VInt t)
    /\ r' !! "pressure" = Some (if p =? -9999 then VFloat nan else VInt p)
    /\ r' !! "relative_humidity" = Some (VInt (be_value (lsb_bits h)))
    /\ r' !! "tropopause_height" = Some (VInt (be_value (lsb_bits z)))
    /\ 0 <= be_value (lsb_bits h) <= 255
    /\ 0 <= be_value (lsb_bits z) <= 255.
Proof.
  intros Ht Hp Hh Hz.
  pose proof (be_value_lsb_bits_range h) as Rh.
  pose proof (be_value_lsb_bits_range z) as Rz.
  unfold Legacy.spec_undefined_values.
  rewrite (spec_parse_byte_Ok _ _ h) by exact Hh. cbn [bind].
  rewrite (spec_parse_byte_Ok _ _ z) by (lookup_through; exact Hz).
  cbn [bind].
  rewrite (spec_undefined_int _ _ t) by (lookup_through; exact Ht).
  cbn [bind].
  rewrite (spec_undefined_int _ _ p)
    by (destruct (t =? -9999); lookup_through; exact Hp).
  cbn [bind].
  rewrite (spec_undefined_int _ _ (be_value (lsb_bits h)))
    by (destruct (t =? -9999), (p =? -9999); lookup_through; reflexivity).
  cbn [bind].
  replace (be_value (lsb_bits h) =? -99) with false by (symmetry; apply Z.eqb_neq; lia).
  rewrite (spec_undefined_int _ _ (be_value (lsb_bits z)))
    by (destruct (t =? -9999), (p =? -9999); lookup_through; reflexivity).
  replace (be_value (lsb_bits z) =? -9) with false by (symmetry; apply Z.eqb_neq; lia).
  eexists. split; [reflexivity|].
  repeat split; try lia;
    destruct (t =? -9999), (p =? -9999); lookup_through;
    first [reflexivity | assumption].
Qed.

(** A record with temperature -9999 and the bytes 0x9d and 0xf7 (-99 and
    -9 as signed bytes): the temperature becomes NaN, the two 1-byte
    fields become 185 and 239. *)
Lemma spec_undefined_values_result_witness :
  exists r',
    Legacy.spec_undefined_values Samples.undefined_fields = Ok r'
    /\ r' !! "temperature" = Some (VFloat nan)
    /\ r' !! "pressure" = Some (VInt 9500)
    /\ r' !! "relative_humidity" = Some (VInt 185)
    /\ r' !! "tropopause_height" = Some (VInt 239).
Proof.
  destruct (spec_undefined_values_result Samples.undefined_fields
              (-9999) 9500 x9d xf7 eq_refl eq_refl eq_refl eq_refl)
    as (r' & E & H1 & H2 & H3 & H4 & _).
  exists r'. repeat split; assumption.
Defined.

End SpecUndefined.

(** ** [read_fts1] *)

Section Fts1.

Lemma year_day_Ok (year dayofyear : value) (t : datetime) :
  Legacy.year_day year dayofyear = Ok t ->
  exists y n,
    year = VInt y /\ dayofyear = VInt n
    /\ 1 <= y <= 9999
    /\ timedelta_days (n - 1) = Ok (Timedelta ((n - 1) * us_per_day))
    /\ datetime_add (mk_datetime y 1 1 0 0 0 0)
         (Timedelta ((n - 1) * us_per_day)) = Ok t.
Proof.
  unfold Legacy.year_day. intros H.
  apply bind_Ok in H as (y & Hy & H). destruct year; try discriminate.
  injection Hy as ->.
  apply bind_Ok in H as (jan1 & Hj & H).
  apply bind_Ok in H as (n & Hn & H). destruct dayofyear; try discriminate.
  injection Hn as ->.
  apply bind_Ok in H as (delta & Hd & H).
  exists y, n. split; [reflexivity|]. split; [reflexivity|].
  pose proof (datetime_new_Ok _ _ _ _ _ _ _ _ Hj) as ->.
  assert (Hy : 1 <= y <= 9999).
  { unfold datetime_new in Hj.
    destruct ((1 <=? y) && (y <=? 9999)) eqn:E; [|discriminate].
    apply andb_true_iff in E as [E1 E2]. lia. }
  unfold timedelta_days, timedelta_of_us in Hd |- *.
  destruct (_ && _); [|discriminate]. injection Hd as <-.
  auto.
Qed.

Lemma pop_list_2 (d d' : dict) (k1 k2 : string) (vals : list value) :
  Legacy.pop_list d [k1; k2] = Ok (vals, d') ->
  exists v1 v2, vals = [v1; v2] /\ d !! k1 = Some v1
                /\ delete k1 d !! k2 = Some v2
                /\ d' = delete k2 (delete k1 d).
Proof.
  cbn [Legacy.pop_list]. intros H.
  apply bind_Ok in H as ([v1 d1] & H1 & H). apply pop_Ok in H1 as [H1 ->].
  apply bind_Ok in H as ([vs d2] & H2 & H).
  apply bind_Ok in H2 as ([v2 d3] & H2 & H3). apply pop_Ok in H2 as [H2 ->].
  cbn [bind Legacy.pop_list] in H3. apply Ok_inj in H3.
  cbn [bind] in H. apply Ok_inj in H.
  assert (vs = [v2] /\ d2 = delete k2 (delete k1 d)) as [-> ->]
    by (split; congruence).
  assert (vals = [v1; v2] /\ d' = delete k2 (delete k1 d)) as [-> ->]
    by (split; congruence).
  eauto 10.
Qed.

Lemma fts1_datetime_Ok (spec spec' : dict) (suffix : string) :
  Legacy.fts1_datetime spec suffix = Ok spec' ->
  let ky := String.concat "_" ["year"; suffix] in
  let kd := String.concat "_" ["dayofyear"; suffix] in
  let kt := String.concat "_" ["datetime"; suffix] in
  exists y n t,
    spec !! ky = Some (VInt y) /\ delete ky spec !! kd = Some (VInt n)
    /\ Legacy.year_day (VInt y) (VInt n) = Ok t
    /\ spec' = <[kt := VDatetime t]> (delete kd (delete ky spec)).
Proof.
  intros H ky kd kt. unfold Legacy.fts1_datetime in H.
  apply bind_Ok in H as ([vals d] & Hp & H).
  cbn [map] in Hp. fold ky kd in Hp.
  apply pop_list_2 in Hp as (v1 & v2 & -> & H1 & H2 & ->).
  apply bind_Ok in H as (t & Ht & H). apply Ok_inj in H as <-.
  destruct (year_day_Ok _ _ _ Ht) as (y & n & -> & -> & _).
  exists y, n, t. auto.
Qed.

(** What the header phase of [read_fts1] establishes: the three datetimes
    and how they derive from the header fields, and the keys that pass
    through unchanged. *)
Lemma fts1_header_Ok (filename : list byte) (spec : dict) :
  Legacy.fts1_header filename = Ok spec ->
  exists (hdr : dict) (f' : file) (yb nb ye ne : Z) (hour : value)
         (t_begin t_end t_mid t_avg : datetime) (half : timedelta),
    Io.read_bin_block (open filename) Iofmt.fts1_header_ffmt None "<"
      = Ok (hdr, f')
    /\ hdr !! "year_begin" = Some (VInt yb)
    /\ hdr !! "dayofyear_begin" = Some (VInt nb)
    /\ hdr !! "year_end" = Some (VInt ye)
    /\ hdr !! "dayofyear_end" = Some (VInt ne)
    /\ hdr !! "hour_avg" = Some hour
    /\ Legacy.year_day (VInt yb) (VInt nb) = Ok t_begin
    /\ Legacy.year_day (VInt ye) (VInt ne) = Ok t_end
    /\ timedelta_div (datetime_sub t_end t_begin) 2 = Ok half
    /\ datetime_add t_begin half = Ok t_mid
    /\ Legacy.plus_hours t_mid hour = Ok t_avg
    /\ spec !! "datetime_begin" = Some (VDatetime t_begin)
    /\ spec !! "datetime_end" = Some (VDatetime t_end)
    /\ spec !! "datetime_avg" = Some (VDatetime t_avg)
    /\ spec !! "n_points" = hdr !! "n_points".
Proof.
  unfold Legacy.fts1_header. intros H.
  apply bind_Ok in H as ([hdr f'] & Hread & H).
  apply bind_Ok in H as (s1 & H1 & H). cbn [foldM] in H1.
  apply bind_Ok in H1 as (a1 & E1 & H1). apply decode_strip_Ok in E1 as (? & ? & _ & _ & ->).
  apply bind_Ok in H1 as (a2 & E2 & H1). apply decode_strip_Ok in E2 as (? & ? & _ & _ & ->).
  apply bind_Ok in H1 as (a3 & E3 & H1). apply decode_strip_Ok in E3 as (? & ? & _ & _ & ->).
  apply Ok_inj in H1 as <-.
  apply bind_Ok in H as (s2 & H2 & H). cbn [foldM] in H2.
  apply bind_Ok in H2 as (b1 & E1 & H2).
  apply fts1_datetime_Ok in E1 as (yb & nb & t_begin & Hyb & Hnb & Htb & ->).
  apply bind_Ok in H2 as (b2 & E2 & H2).
  apply fts1_datetime_Ok in E2 as (ye & ne & t_end & Hye & Hne & Hte & ->).
  apply Ok_inj in H2 as <-.
  cbn [String.concat append] in *.
  apply bind_Ok in H as (t_end' & Ge & H).
  apply bind_Ok in Ge as (v & Gv & Ge). apply getitem_Ok in Gv.
  revert Gv. lookup_through. intros [= <-]. injection Ge as <-.
  apply bind_Ok in H as (t_begin' & Gb & H).
  apply bind_Ok in Gb as (v & Gv & Gb). apply getitem_Ok in Gv.
  revert Gv. lookup_through. intros [= <-]. injection Gb as <-.
  apply bind_Ok in H as ([hour s3] & Hp & H). apply pop_Ok in Hp as [Hh ->].
  apply bind_Ok in H as (t_begin' & Gb & H).
  apply bind_Ok in Gb as (v & Gv & Gb). apply getitem_Ok in Gv.
  revert Gv. lookup_through. intros [= <-]. injection Gb as <-.
  apply bind_Ok in H as (half & Hhalf & H).
  apply bind_Ok in H as (t_mid & Hmid & H).
  apply bind_Ok in H as (t_avg & Havg & H).
  apply bind_Ok in H as ([source s4] & Hp & H). apply pop_Ok in Hp as [_ ->].
  apply bind_Ok in H as (src & _ & H).
  apply bind_Ok in H as ([opd s5] & Hp & H). apply pop_Ok in Hp as [_ ->].
  apply bind_Ok in H as (res & _ & H).
  do 5 (apply bind_Ok in H as (? & _ & H)).
  apply Ok_inj in H as <-.
  revert Hyb Hnb Hye Hne Hh. lookup_through. intros Hyb Hnb Hye Hne Hh.
  exists hdr, f', yb, nb, ye, ne, hour, t_begin, t_end, t_mid, t_avg, half.
  repeat split; try assumption; lookup_through; reflexivity.
Qed.

End Fts1.

(** ** [numpy.fromfile]: the samples of a file *)

Section Fromfile.

Lemma chunks_length (w n : nat) (bs : list byte) :
  length (Struct.chunks w n bs) = n.
Proof.
  revert bs. induction n as [|n IH]; intros bs; [reflexivity|].
  cbn [Struct.chunks length]. by rewrite IH.
Qed.

Lemma chunks_lookup (w n i : nat) (bs : list byte) :
  (i < n)%nat ->
  Struct.chunks w n bs !! i = Some (firstn w (skipn (w * i) bs)).
Proof.
  revert i bs. induction n as [|n IH]; intros i bs Hi; [lia|].
  destruct i as [|i]; cbn [Struct.chunks lookup list_lookup].
  - by rewrite Nat.mul_0_r.
  - rewrite IH by lia. rewrite skipn_skipn. do 3 f_equal. lia.
Qed.

(** With the read position 4 bytes or more past the end of the file,
    [np.fromfile] raises. *)
Lemma fromfile_f32_past_end (filename : list byte) (off : nat) :
  (length filename + 4 <= off)%nat ->
  Np.fromfile_f32 (seek (open filename) off)
  = Raise (ValueError "negative dimensions are not allowed").
Proof.
  intros H. unfold Np.fromfile_f32. cbn [seek open position content].
  destruct (Nat.leb_spec (length filename + 4) off); [reflexivity | lia].
Qed.

(** The samples [np.fromfile] returns from offset [off] of a file: one
    per complete group of 4 bytes, each the float32 of its group. *)
Lemma fromfile_f32_samples (filename : list byte) (off : nat)
    (samples : list float) (fend : file) :
  Np.fromfile_f32 (seek (open filename) off) = Ok (samples, fend) ->
  let m := ((length filename - off) / 4)%nat in
  (off < length filename + 4)%nat
  /\ length samples = m
  /\ forall i, (i < m)%nat ->
       samples !! i
       = Some (float_of_ieee 8 23
                 (Struct.le_unsigned (firstn 4 (skipn (off + 4 * i) filename)))).
Proof.
  unfold Np.fromfile_f32. cbn [seek open position content].
  destruct (Nat.leb_spec (length filename + 4) off) as [|Hoff];
    [discriminate|].
  intros [= <- _]. cbn zeta. rewrite length_skipn.
  split; [exact Hoff|]. split; [by rewrite length_map, chunks_length|].
  intros i Hi. rewrite list_lookup_fmap, chunks_lookup by exact Hi.
  cbn [fmap option_fmap option_map]. rewrite skipn_skipn.
  do 5 f_equal. lia.
Qed.

(** Short of that, it returns. *)
Lemma fromfile_f32_Ok (filename : list byte) (off : nat) :
  (off < length filename + 4)%nat ->
  exists samples fend,
    Np.fromfile_f32 (seek (open filename) off) = Ok (samples, fend).
Proof.
  intros H. unfold Np.fromfile_f32. cbn [seek open position content].
  destruct (Nat.leb_spec (length filename + 4) off); [lia | eauto].
Qed.

End Fromfile.

Section Fts1Read.

Lemma fts1_keys_NoDup : NoDup (omap fst Iofmt.fts1_header_ffmt).
Proof. apply (bool_decide_unpack _). vm_compute. exact I. Qed.

Lemma fts1_layout :
  layout Iofmt.fts1_header_ffmt
  = ltac:(let x := eval vm_compute in (layout Iofmt.fts1_header_ffmt) in
          exact x).
Proof. vm_compute. reflexivity. Qed.

Ltac unpack_field :=
  cbn [Struct.unpack_items Struct.unpack_item Struct.item_size fst snd
       Struct.width Nat.mul Nat.add Struct.chunks map app
       Struct.decode1 lookup list_lookup Struct.items_size foldr];
  reflexivity.

(** In an FTS1 header [n_points] is an integer and [hour_avg] a float. *)
Lemma fts1_header_types (f f' : file) (hdr : dict) :
  Io.read_bin_block f Iofmt.fts1_header_ffmt None "<" = Ok (hdr, f') ->
  (exists n, hdr !! "n_points" = Some (VInt n))
  /\ (exists h, hdr !! "hour_avg" = Some (VFloat h)).
Proof.
  intros H. split.
  - eexists.
    refine (proj2 (header_lookup _ _ _ _ 9 "n_points" _ H fts1_keys_NoDup eq_refl) _).
    rewrite fts1_layout. unpack_field.
  - eexists.
    refine (proj2 (header_lookup _ _ _ _ 16 "hour_avg" _ H fts1_keys_NoDup eq_refl) _).
    rewrite fts1_layout. unpack_field.
Qed.

Lemma read_fts1_Ok (filename : list byte) (spec : dict) :
  Legacy.read_fts1 filename = Ok spec ->
  exists spec_h data,
    Legacy.fts1_header filename = Ok spec_h
    /\ spec = <["data" := VArray data]> spec_h.
Proof.
  unfold Legacy.read_fts1. intros H.
  apply bind_Ok in H as (spec_h & Hh & H).
  apply bind_Ok in H as ([samples fend] & _ & H).
  apply bind_Ok in H as (n & _ & H). apply Ok_inj in H as <-. eauto.
Qed.

(** C7. Whenever [read_fts1] returns: [datetime_begin] and [datetime_end]
    are January 1 of the stored year plus (day of year - 1) days, that is
    midnight of the day whose ordinal is the ordinal of January 1 plus
    (day of year - 1); and [datetime_avg] is [datetime_begin] plus half
    of ([datetime_end] - [datetime_begin]), an exact half, plus the
    timedelta of [hour_avg * 3600] seconds.  ([datetime_us] counts the
    microseconds of a datetime from the start of the calendar.) *)
Theorem read_fts1_datetimes (filename : list byte) (spec : dict) :
  Legacy.read_fts1 filename = Ok spec ->
  exists (yb nb ye ne : Z) (h : float)
         (t_begin t_end t_mid t_avg : datetime) (half offset : timedelta),
    field Iofmt.fts1_header_ffmt filename "year_begin" = Some (VInt yb)
    /\ field Iofmt.fts1_header_ffmt filename "dayofyear_begin" = Some (VInt nb)
    /\ field Iofmt.fts1_header_ffmt filename "year_end" = Some (VInt ye)
    /\ field Iofmt.fts1_header_ffmt filename "dayofyear_end" = Some (VInt ne)
    /\ field Iofmt.fts1_header_ffmt filename "hour_avg" = Some (VFloat h)
    /\ spec !! "datetime_begin" = Some (VDatetime t_begin)
    /\ spec !! "datetime_end" = Some (VDatetime t_end)
    /\ spec !! "datetime_avg" = Some (VDatetime t_avg)
    /\ datetime_add (mk_datetime yb 1 1 0 0 0 0)
         (Timedelta ((nb - 1) * us_per_day)) = Ok t_begin
    /\ datetime_add (mk_datetime ye 1 1 0 0 0 0)
         (Timedelta ((ne - 1) * us_per_day)) = Ok t_end
    /\ timedelta_div (datetime_sub t_end t_begin) 2 = Ok half
    /\ timedelta_seconds (h * 3600)%float = Ok offset
    /\ datetime_add t_begin half = Ok t_mid
    /\ datetime_add t_mid offset = Ok t_avg
    /\ datetime_us t_begin = (ymd2ord yb 1 1 + (nb - 1)) * us_per_day
    /\ datetime_us t_end = (ymd2ord ye 1 1 + (ne - 1)) * us_per_day
    /\ 2 * total_us half = datetime_us t_end - datetime_us t_begin
    /\ datetime_us t_avg
       = datetime_us t_begin + total_us half + total_us offset.
Proof.
  intros H. apply read_fts1_Ok in H as (spec_h & data & Hh & ->).
  apply fts1_header_Ok in Hh
    as (hdr & f' & yb & nb & ye & ne & hour & t_begin & t_end & t_mid & t_avg
        & half & Hread & Hyb & Hnb & Hye & Hne & Hhour & Htb & Hte & Hhalf
        & Hmid & Havg & Sb & Se & Sa & _).
  destruct (fts1_header_types _ _ _ Hread) as [_ [h Hh]].
  rewrite Hh in Hhour. injection Hhour as <-.
  unfold Legacy.plus_hours in Havg.
  apply bind_Ok in Havg as (secs & Hs & Havg).
  apply bind_Ok in Havg as (offset & Ho & Havg).
  cbn in Hs. apply Ok_inj in Hs as <-. cbn [Legacy.timedelta_seconds_of] in Ho.
  apply year_day_Ok in Htb as (? & ? & [= <-] & [= <-] & _ & _ & Htb).
  apply year_day_Ok in Hte as (? & ? & [= <-] & [= <-] & _ & _ & Hte).
  exists yb, nb, ye, ne, h, t_begin, t_end, t_mid, t_avg, half, offset.
  rewrite (field_of_header _ _ _ _ "year_begin" Hread).
  rewrite (field_of_header _ _ _ _ "dayofyear_begin" Hread).
  rewrite (field_of_header _ _ _ _ "year_end" Hread).
  rewrite (field_of_header _ _ _ _ "dayofyear_end" Hread).
  rewrite (field_of_header _ _ _ _ "hour_avg" Hread).
  pose proof (datetime_add_us _ _ _ Htb) as Ub.
  pose proof (datetime_add_us _ _ _ Hte) as Ue.
  pose proof (datetime_add_us _ _ _ Hmid) as Um.
  pose proof (datetime_add_us _ _ _ Havg) as Ua.
  assert (Hjan : forall y, datetime_us (mk_datetime y 1 1 0 0 0 0)
                           = ymd2ord y 1 1 * us_per_day).
  { intros y. unfold datetime_us. cbn [year month day hour minute second microsecond]. lia. }
  rewrite Hjan in Ub, Ue. cbn [total_us] in Ub, Ue.
  assert (Uh : 2 * total_us half = datetime_us t_end - datetime_us t_begin).
  { change (datetime_us t_end - datetime_us t_begin)
      with (total_us (datetime_sub t_end t_begin)).
    apply (timedelta_div_2 (datetime_sub t_end t_begin) half
             (ymd2ord ye 1 1 + (ne - 1) - (ymd2ord yb 1 1 + (nb - 1))));
      [|exact Hhalf].
    cbn [datetime_sub total_us]. lia. }
  repeat split; try assumption; try lia; lookup_through; assumption.
Qed.

End Fts1Read.

Section Fts1Data.

(** C10 (as amended). For an FTS1 file whose header is read and
    post-processed without error, reading the samples fails exactly when
    the file holds fewer than 2045 bytes, and then [np.fromfile] raises
    [ValueError].  Otherwise, with [m] the number of complete 4-byte
    floats after offset 2048 (the [i]-th from bytes 2048 + 4i to
    2048 + 4i + 3) and [n] the declared [n_points], [read_fts1] returns
    the header mapping with [data] set to the first [n] of the [m]
    samples; when [m < n] that is all [m] samples, so [n_points] only
    truncates and is never required as a minimum. *)
Theorem read_fts1_short_data (filename : list byte) (spec_h : dict) :
  Legacy.fts1_header filename = Ok spec_h ->
  let m := ((length filename - 2048) / 4)%nat in
  ((length filename < 2045)%nat ->
   Legacy.read_fts1 filename
   = Raise (ValueError "negative dimensions are not allowed"))
  /\ ((2045 <= length filename)%nat ->
      exists (n : Z) (samples : list float),
        field Iofmt.fts1_header_ffmt filename "n_points" = Some (VInt n)
        /\ length samples = m
        /\ (forall i, (i < m)%nat ->
              samples !! i
              = Some (float_of_ieee 8 23
                        (Struct.le_unsigned
                           (firstn 4 (skipn (2048 + 4 * i) filename)))))
        /\ Legacy.read_fts1 filename
           = Ok (<["data" := VArray (Np.slice_to samples n)]> spec_h)
        /\ (0 <= n ->
            length (Np.slice_to samples n) = Nat.min (Z.to_nat n) m)
        /\ (Z.of_nat m < n ->
            Np.slice_to samples n = samples
            /\ length (Np.slice_to samples n) = m)).
Proof.
  intros Hh m. split.
  - intros Hshort. unfold Legacy.read_fts1. rewrite Hh. cbn [bind].
    rewrite fromfile_f32_past_end by lia. reflexivity.
  - intros Hlong.
    destruct (fts1_header_Ok _ _ Hh)
      as (hdr & f' & yb & nb & ye & ne & hour & t_begin & t_end & t_mid
          & t_avg & half & Hread & _ & _ & _ & _ & _ & _ & _ & _ & _ & _
          & _ & _ & _ & Hn).
    destruct (fts1_header_types _ _ _ Hread) as [[n Hnp] _].
    destruct (fromfile_f32_Ok filename 2048) as (samples & fend & Hs);
      [lia|].
    destruct (fromfile_f32_samples _ _ _ _ Hs) as (_ & Hlen & Hi).
    fold m in Hlen, Hi.
    exists n, samples. rewrite (field_of_header _ _ _ _ "n_points" Hread).
    split; [exact Hnp|]. split; [exact Hlen|]. split; [exact Hi|].
    split; [|split].
    + unfold Legacy.read_fts1. rewrite Hh. cbn [bind]. rewrite Hs.
      cbn [bind]. unfold getitem. rewrite Hn, Hnp. reflexivity.
    + intros H0. unfold Np.slice_to.
      destruct (Z.leb_spec 0 n); [|lia]. rewrite length_firstn. lia.
    + intros Hm. unfold Np.slice_to.
      destruct (Z.leb_spec 0 n); [|lia].
      rewrite firstn_all2 by lia. auto.
Qed.

(** The sample file declaring 5 points and holding 3. *)
Lemma read_fts1_short_data_witness :
  exists data,
    Legacy.read_fts1 Samples.fts1_short
    = Ok (<["data" := VArray data]> Samples.fts1_short_header)
    /\ length data = 3%nat
    /\ field Iofmt.fts1_header_ffmt Samples.fts1_short "n_points"
       = Some (VInt 5).
Proof.
  assert (Hh : Legacy.fts1_header Samples.fts1_short
               = Ok Samples.fts1_short_header)
    by (apply is_Ok_get; vm_compute; reflexivity).
  assert (L : length Samples.fts1_short = 2060%nat)
    by (vm_compute; reflexivity).
  destruct (read_fts1_short_data Samples.fts1_short _ Hh) as [_ Hlong].
  destruct Hlong as (n & samples & Hn & Hlen & _ & Hread & _ & Hshort);
    [rewrite L; lia|].
  rewrite L in Hlen, Hshort. change ((2060 - 2048) / 4)%nat with 3%nat in *.
  assert (E : n = 5).
  { assert (Hf : field Iofmt.fts1_header_ffmt Samples.fts1_short "n_points"
                 = Some (VInt 5)) by (vm_compute; reflexivity).
    congruence. }
  subst n. destruct Hshort as [_ Hm]; [lia|].
  eexists. split; [exact Hread|]. split; [exact Hm | exact Hn].
Defined.

(** C10 (counterexample). Two FTS1 files that declare 5 points and hold
    fewer samples, on which [read_fts1] fails: the first stops 4 bytes
    before offset 2048, so that it holds the fields of the header and no
    sample, and [np.fromfile] raises; the second holds 3 samples and a
    zero [opd], and the resolution cannot be computed. *)
Theorem read_fts1_short_fails :
  field Iofmt.fts1_header_ffmt Samples.fts1_cut "n_points" = Some (VInt 5)
  /\ length Samples.fts1_cut = 2044%nat
  /\ is_Ok (Legacy.fts1_header Samples.fts1_cut) = true
  /\ Legacy.read_fts1 Samples.fts1_cut
     = Raise (ValueError "negative dimensions are not allowed")
  /\ field Iofmt.fts1_header_ffmt Samples.fts1_zero_opd "n_points"
     = Some (VInt 5)
  /\ length Samples.fts1_zero_opd = (2048 + 4 * 3)%nat
  /\ Legacy.read_fts1 Samples.fts1_zero_opd = Raise ZeroDivisionError.
Proof. repeat split; vm_compute; reflexivity. Qed.

(** The sample file under the name 'café 01': begin 2000/1, end 2000/32,
    hour_avg 10.5. *)
Lemma read_fts1_datetimes_witness :
  Samples.fts1_cafe_result !! "name"
  = Some (VStr (string_of_list_byte (firstn 8 Samples.cafe_01)))
  /\ Samples.fts1_cafe_result !! "datetime_begin"
     = Some (VDatetime (mk_datetime 2000 1 1 0 0 0 0))
  /\ Samples.fts1_cafe_result !! "datetime_end"
     = Some (VDatetime (mk_datetime 2000 2 1 0 0 0 0))
  /\ Samples.fts1_cafe_result !! "datetime_avg"
     = Some (VDatetime (mk_datetime 2000 1 16 22 30 0 0)).
Proof.
  assert (Hr : Legacy.read_fts1 Samples.fts1_cafe
               = Ok Samples.fts1_cafe_result)
    by (apply is_Ok_get; vm_compute; reflexivity).
  split; [vm_compute; reflexivity|].
  destruct (read_fts1_datetimes _ _ Hr)
    as (yb & nb & ye & ne & h & t_begin & t_end & t_mid & t_avg & half
        & offset & Hyb & Hnb & Hye & Hne & Hh & Sb & Se & Sa & Hb & He
        & Hhalf & Hoff & Hmid & Havg & _).
  vm_compute in Hyb, Hnb, Hye, Hne, Hh.
  injection Hyb as <-. injection Hnb as <-. injection Hye as <-.
  injection Hne as <-. injection Hh as <-.
  vm_compute in Hb. injection Hb as <-.
  vm_compute in He. injection He as <-.
  vm_compute in Hhalf. injection Hhalf as <-.
  vm_compute in Hoff. injection Hoff as <-.
  vm_compute in Hmid. injection Hmid as <-.
  vm_compute in Havg. injection Havg as <-.
  auto.
Defined.

End Fts1Data.

(** ** [read_spec]: the pairing of records *)

Section SpecPairs.

(** A successful block read consumes exactly the size of its layout. *)
Lemma read_bin_block_pos (f f' : file) (ffmt : Io.ffmt_t) (d : dict) :
  Io.read_bin_block f ffmt None "<" = Ok (d, f') ->
  let n := Struct.items_size (layout ffmt) in
  f' = mk_file (content f) (position f + n)
  /\ (n <= length (skipn (position f) (content f)))%nat.
Proof.
  intros H. apply read_bin_block_Ok in H as (items & Hp & H).
  unfold layout. rewrite Hp. cbn [snd]. cbn zeta in *.
  destruct H as (Hlen & _ & ->). split; [reflexivity|].
  rewrite length_firstn in Hlen. lia.
Qed.

Lemma spec_record_size :
  Struct.items_size (layout Iofmt.spec_record_ffmt) = 128%nat.
Proof. vm_compute. reflexivity. Qed.

Lemma spec_header_size :
  Struct.items_size (layout Iofmt.spec_header_ffmt) = 128%nat.
Proof. vm_compute. reflexivity. Qed.

(** The loop reads [2 * n] records of 128 bytes and keeps the second of
    each pair. *)
Lemma spec_records_Ok (n : nat) (f f' : file) (records : list dict) :
  Legacy.spec_records n f = Ok (records, f') ->
  length records = n
  /\ f' = mk_file (content f) (position f + 2 * 128 * n)
  /\ forall (i : nat) (r : dict),
       records !! i = Some r ->
       Io.read_bin_block
         (mk_file (content f) (position f + 2 * 128 * i + 128))
         Iofmt.spec_record_ffmt None "<"
       = Ok (r, mk_file (content f) (position f + 2 * 128 * i + 2 * 128)).
Proof.
  revert f f' records. induction n as [|n IH]; intros f f' records H.
  - cbn in H. injection H as <- <-. split; [reflexivity|].
    split; [destruct f; cbn; f_equal; lia|]. intros i r Hr. discriminate.
  - cbn [Legacy.spec_records] in H.
    apply bind_Ok in H as ([e f1] & He & H).
    apply bind_Ok in H as ([r0 f2] & Hr0 & H).
    apply bind_Ok in H as ([rs f3] & Hrs & H).
    apply Ok_inj in H. injection H as <- <-.
    pose proof (read_bin_block_pos _ _ _ _ He) as [-> _].
    pose proof (read_bin_block_pos _ _ _ _ Hr0) as [E2 _].
    rewrite spec_record_size in *. cbn [content position] in *.
    apply IH in Hrs as (Hlen & -> & Hi). subst f2. cbn [content position] in *.
    split; [cbn [length]; by rewrite Hlen|].
    split; [f_equal; lia|].
    intros [|i] r Hr.
    + injection Hr as <-.
      replace (position f + 2 * 128 * 0 + 128)%nat
        with (position f + 128)%nat by lia.
      rewrite Hr0. do 3 f_equal; lia.
    + cbn in Hr. apply Hi in Hr.
      replace (position f + 2 * 128 * S i + 128)%nat
        with (position f + 128 + 128 + 2 * 128 * i + 128)%nat by lia.
      rewrite Hr. do 3 f_equal. lia.
Qed.

Lemma spec_post_records_Ok (raw records : list dict) :
  Legacy.spec_post_records raw = Ok records ->
  length records = length raw
  /\ forall (i : nat) (r : dict),
       records !! i = Some r ->
       exists r0, raw !! i = Some r0 /\ Legacy.spec_record r0 = Ok r.
Proof.
  revert records. induction raw as [|r0 raw IH]; intros records H.
  - injection H as <-. split; [reflexivity|]. intros i r Hr. discriminate.
  - cbn [Legacy.spec_post_records] in H.
    apply bind_Ok in H as (r' & Hr' & H).
    apply bind_Ok in H as (rest & Hrest & H). apply Ok_inj in H as <-.
    apply IH in Hrest as [Hlen Hi].
    split; [cbn [length]; by rewrite Hlen|].
    intros [|i] r Hr; [injection Hr as <-; eauto|].
    cbn in Hr. apply Hi in Hr as (r1 & ? & ?). exists r1. auto.
Qed.

Lemma spec_header_date_other (header header' : dict) (k k' : string) :
  Legacy.spec_header_date header k = Ok header' ->
  k' <> k -> header' !! k' = header !! k'.
Proof.
  unfold Legacy.spec_header_date. intros H Hne.
  destruct (_ || _); [|by injection H as <-].
  apply bind_Ok in H as (v & _ & H).
  destruct (bind (decode_value v) _) as [t|e].
  - apply Ok_inj in H as <-. by rewrite lookup_insert_ne.
  - destruct (is_ValueError e); [|discriminate].
    apply bind_Ok in H as (s & _ & H). apply Ok_inj in H as <-.
    by rewrite lookup_insert_ne.
Qed.

Lemma spec_header_dates_n_records (header header' : dict) :
  foldM Legacy.spec_header_date header (omap fst Iofmt.spec_header_ffmt)
    = Ok header' ->
  header' !! "n_records" = header !! "n_records".
Proof.
  change (omap fst Iofmt.spec_header_ffmt)
    with ["n_records"; "created_pc"; "modified_pc"; "created_hp1000";
          "modified_hp1000"].
  cbn [foldM]. intros H.
  apply bind_Ok in H as (h1 & E1 & H). cbn in E1. injection E1 as <-.
  apply bind_Ok in H as (h2 & E2 & H).
  apply bind_Ok in H as (h3 & E3 & H).
  apply bind_Ok in H as (h4 & E4 & H).
  apply bind_Ok in H as (h5 & E5 & H). apply Ok_inj in H as <-.
  rewrite (spec_header_date_other _ _ _ "n_records" E5) by done.
  rewrite (spec_header_date_other _ _ _ "n_records" E4) by done.
  rewrite (spec_header_date_other _ _ _ "n_records" E3) by done.
  by rewrite (spec_header_date_other _ _ _ "n_records" E2).
Qed.

(** C6 (as amended). Whenever [read_spec] returns, with [n] the record
    count declared in the header: the header block takes the first 128
    bytes of the file (84 bytes of fields and 44 pad bytes); after it
    exactly [2 * max(n, 0)] records of 128 bytes are read, which leaves
    the stream at offset [128 + 256 * max(n, 0)]; and exactly
    [max(n, 0)] decoded records are returned, the [i]-th decoded from the
    second record of the [i]-th pair (the first is dropped). *)
Theorem read_spec_pairs (filename : list byte) (header : dict)
    (records : list dict) :
  Legacy.read_spec filename = Ok (header, records) ->
  exists (n : Z) (hdr0 : dict) (raw : list dict) (fend : file),
    field Iofmt.spec_header_ffmt filename "n_records" = Some (VInt n)
    /\ header !! "n_records" = Some (VInt n)
    /\ Io.read_bin_block (open filename) Iofmt.spec_header_ffmt None "<"
       = Ok (hdr0, mk_file filename 128)
    /\ Legacy.spec_read filename = Ok (hdr0, raw, fend)
    /\ position fend = (128 + 2 * 128 * Z.to_nat n)%nat
    /\ (position fend <= length filename)%nat
    /\ length records = Z.to_nat n
    /\ forall (i : nat) (r : dict),
         records !! i = Some r ->
         exists r0,
           Io.read_bin_block (mk_file filename (128 + 2 * 128 * i + 128))
             Iofmt.spec_record_ffmt None "<"
           = Ok (r0, mk_file filename (128 + 2 * 128 * i + 2 * 128))
           /\ Legacy.spec_record r0 = Ok r.
Proof.
  unfold Legacy.read_spec. intros H.
  apply bind_Ok in H as ([[hdr0 raw] fend] & Hread & H).
  apply bind_Ok in H as (header' & Hhd & H).
  apply bind_Ok in H as (records' & Hrec & H).
  apply Ok_inj in H. injection H as <- <-.
  pose proof Hread as Hread'.
  unfold Legacy.spec_read in Hread.
  apply bind_Ok in Hread as ([h f1] & Hh & Hread).
  apply bind_Ok in Hread as (n & Hn & Hread).
  apply bind_Ok in Hn as (vn & Hvn & Hn). apply getitem_Ok in Hvn.
  destruct vn; try discriminate. injection Hn as ->.
  apply bind_Ok in Hread as ([rs f2] & Hrs & Hread).
  apply Ok_inj in Hread. injection Hread as -> -> ->.
  pose proof (read_bin_block_pos _ _ _ _ Hh) as [-> Hlen0].
  rewrite spec_header_size in *. cbn [open content position Nat.add] in *.
  apply spec_records_Ok in Hrs as (Hlen & -> & Hi).
  cbn [content position] in *.
  apply spec_post_records_Ok in Hrec as [Hlen' Hi'].
  exists n, hdr0, raw, (mk_file filename (128 + 2 * 128 * Z.to_nat n)).
  rewrite (field_of_header _ _ _ _ "n_records" Hh).
  split; [exact Hvn|].
  split; [by rewrite (spec_header_dates_n_records _ _ Hhd)|].
  split; [exact Hh|]. split; [exact Hread'|]. split; [reflexivity|].
  split.
  { cbn [position]. destruct (Z.to_nat n) as [|k] eqn:Ek.
    - rewrite length_skipn in Hlen0. lia.
    - assert (Hk : raw !! k = Some (default ∅ (raw !! k))).
      { destruct (raw !! k) eqn:E; [reflexivity|].
        apply lookup_ge_None in E. lia. }
      apply Hi in Hk. apply read_bin_block_pos in Hk as [_ Hk].
      rewrite spec_record_size in Hk. cbn [content position] in Hk.
      rewrite length_skipn in Hk. lia. }
  split; [lia|].
  intros i r Hr. apply Hi' in Hr as (r0 & Hr0 & Hr). exists r0.
  split; [by apply Hi | exact Hr].
Qed.

End SpecPairs.

Section SpecPairsExamples.

(** The catalog declaring 3 records, the first of them named 'café 01': 6
    records are consumed after the 128-byte header, 3 are returned,
    decoded from the 2nd, 4th and 6th. *)
Lemma read_spec_pairs_witness :
  length Samples.spec_cafe = (128 + 6 * 128)%nat
  /\ Samples.spec_cafe_result.1 !! "n_records" = Some (VInt 3)
  /\ length Samples.spec_cafe_result.2 = 3%nat
  /\ map (fun r => r !! "name") Samples.spec_cafe_result.2
     = [Some (VStr (string_of_list_byte (firstn 8 Samples.cafe_01)));
        Some (VStr "rec_b"); Some (VStr "rec_c")]
  /\ exists hdr0 raw fend,
       Legacy.spec_read Samples.spec_cafe = Ok (hdr0, raw, fend)
       /\ position fend = (128 + 6 * 128)%nat.
Proof.
  assert (Hr : Legacy.read_spec Samples.spec_cafe
               = Ok (Samples.spec_cafe_result.1, Samples.spec_cafe_result.2)).
  { rewrite <- surjective_pairing. apply is_Ok_get. vm_compute. reflexivity. }
  destruct (read_spec_pairs _ _ _ Hr)
    as (n & hdr0 & raw & fend & Hn & Hn' & _ & Hread & Hpos & _ & Hlen & _).
  assert (E : n = 3).
  { assert (Hf : field Iofmt.spec_header_ffmt Samples.spec_cafe "n_records"
                 = Some (VInt 3)) by (vm_compute; reflexivity).
    congruence. }
  subst n. split; [vm_compute; reflexivity|]. split; [exact Hn'|].
  split; [exact Hlen|]. split; [vm_compute; reflexivity|].
  exists hdr0, raw, fend. split; [exact Hread | exact Hpos].
Defined.

(** C6 (counterexample). A catalog laid out as the specification words it, an
    84-byte header followed by 2 records of 128 bytes, declaring 1 record:
    the header block takes 128 bytes, so the second record read runs past
    the end of the file and [read_spec] raises instead of returning one
    record. *)
Lemma read_spec_header_not_84 :
  length Samples.spec_84 = (84 + 2 * 128)%nat
  /\ field Iofmt.spec_header_ffmt Samples.spec_84 "n_records" = Some (VInt 1)
  /\ Legacy.read_spec Samples.spec_84
     = Raise (StructError "unpack requires a buffer of the format's size").
Proof. repeat split; vm_compute; reflexivity. Qed.

End SpecPairsExamples.

(** ** [read_bruker]: examples *)

Section BrukerExamples.

(** The sample named 'café 01' and dated 2000-01-02 10:30:01.2. *)
Lemma read_bruker_datetime_avg_witness :
  Samples.bruker_cafe_result !! "name"
  = Some (VStr (string_of_list_byte (firstn 8 Samples.cafe_01)))
  /\ Samples.bruker_cafe_result !! "datetime_avg"
     = Some (VDatetime (mk_datetime 2000 1 2 10 30 1 199999)).
Proof.
  assert (Hr : Legacy.read_bruker Samples.bruker_cafe
               = Ok Samples.bruker_cafe_result)
    by (apply is_Ok_get; vm_compute; reflexivity).
  split; [vm_compute; reflexivity|].
  destruct (read_bruker_datetime_avg _ _ Hr)
    as (db & tb & us & Hd & Ht & Hus & _ & Hl).
  vm_compute in Hd, Ht. injection Hd as <-. injection Ht as <-.
  vm_compute in Hus. injection Hus as <-. exact Hl.
Defined.

(** C2 (counterexample). On the blocks of 2000-01-02 10:30:01.2 the code
    builds that datetime, and no reading of the specification does: with
    the bits swapped within each byte or not, and the ranges read in
    either bit order, taking the hour from time bits [12:18) and the minute
    from [18:24) gives an error or another datetime. *)
Lemma bruker_datetime_not_as_specified :
  Legacy.bruker_datetime Samples.date_block Samples.time_block
  = Ok (mk_datetime 2000 1 2 10 30 1 199999)
  /\ bruker_datetime_as_specified true false
       Samples.date_block Samples.time_block
     <> Legacy.bruker_datetime Samples.date_block Samples.time_block
  /\ bruker_datetime_as_specified true true
       Samples.date_block Samples.time_block
     <> Legacy.bruker_datetime Samples.date_block Samples.time_block
  /\ bruker_datetime_as_specified false false
       Samples.date_block Samples.time_block
     <> Legacy.bruker_datetime Samples.date_block Samples.time_block
  /\ bruker_datetime_as_specified false true
       Samples.date_block Samples.time_block
     <> Legacy.bruker_datetime Samples.date_block Samples.time_block.
Proof. repeat split; vm_compute; congruence. Qed.

End BrukerExamples.

(** ** [read_str_block] on the Rinsland header *)

Section Rinsland.

(** C4 (counterexample). On the line of the specification's example the
    pattern does not match (its name group needs 12 characters among
    letters, digits, '_' and '.', and the line has 8 before a blank), so
    [re.match] returns None and [read_str_block] raises instead of
    yielding fields. *)
Lemma read_str_block_spec_line :
  Io.read_str_block Samples.rinsland_line Iofmt.rinsland_header_regex
    (Some Iofmt.rinsland_header_ftype)
  = Raise (AttributeError "'NoneType' object has no attribute 'groupdict'").
Proof. vm_compute. reflexivity. Qed.

(** C4 (as amended). On the same line with a name of 12 characters,
    'sample12.dat', [read_str_block] with the Rinsland pattern and field
    types succeeds and yields spec_type 'BRA', the date 2000-01-01,
    resolution 100.0 and sn_ratio 100 as an integer (and the other fields
    converted likewise). *)
Theorem read_str_block_rinsland :
  Io.read_str_block Samples.rinsland_line_12 Iofmt.rinsland_header_regex
    (Some Iofmt.rinsland_header_ftype) = Ok Samples.rinsland_fields
  /\ Samples.rinsland_fields !! "spec_type" = Some (VStr "BRA")
  /\ Samples.rinsland_fields !! "name" = Some (VStr "sample12.dat")
  /\ Samples.rinsland_fields !! "date"
     = Some (VDatetime (mk_datetime 2000 1 1 0 0 0 0))
  /\ Samples.rinsland_fields !! "resolution" = Some (VFloat 100)
  /\ Samples.rinsland_fields !! "aperture" = Some (VFloat 12)
  /\ Samples.rinsland_fields !! "zenith_angle" = Some (VFloat 30)
  /\ Samples.rinsland_fields !! "sn_ratio" = Some (VInt 100)
  /\ Samples.rinsland_fields !! "hour_avg" = Some (VFloat 10.5)
  /\ size Samples.rinsland_fields = 8%nat.
Proof.
  split; [apply is_Ok_get; vm_compute; reflexivity|].
  repeat split; vm_compute; reflexivity.
Qed.

End Rinsland.

(** ** Further properties of the helpers *)

Section Helpers.

(** X1. Reading with [swap] is reading the reversed sequence, and the [k] low
    bits of a number [n] below [2^k], least significant first, read with
    [swap], give [n] back. *)
Theorem bits_2_int_of_bits (n : Z) (k : nat) :
  (0 < k)%nat -> 0 <= n < 2 ^ Z.of_nat k ->
  (forall bits, Io.bits_2_int bits true = Io.bits_2_int (rev bits) false)
  /\ Io.bits_2_int (bits_of n k) true = Ok n
  /\ Io.bits_2_int (rev (bits_of n k)) false = Ok n.
Proof.
  intros Hk Hn.
  assert (Hswap : forall bits,
             Io.bits_2_int bits true = Io.bits_2_int (rev bits) false)
    by reflexivity.
  split; [exact Hswap|].
  assert (H : Io.bits_2_int (bits_of n k) true = Ok n).
  { rewrite bits_2_int_le.
    - rewrite le_value_bits_of. f_equal. apply Z.mod_small. exact Hn.
    - apply bits_of_is_bit.
    - destruct k; [lia|]. rewrite bits_of_S. discriminate. }
  split; [exact H|]. rewrite <- Hswap. exact H.
Qed.

(** The number 5 in 3 bits. *)
Lemma bits_2_int_of_bits_witness :
  Io.bits_2_int [1; 0; 1] true = Ok 5
  /\ Io.bits_2_int (rev [1; 0; 1]) false = Ok 5.
Proof.
  destruct (bits_2_int_of_bits 5 3) as (_ & H1 & H2); [lia | lia |].
  split; [exact H1 | exact H2].
Defined.

(** X2. A successful [read_bin_block] leaves the content alone, advances the
    position by exactly the summed width of its layout, which must have
    been available, and binds no key outside the layout. *)
Theorem read_bin_block_consumes (f f' : file) (ffmt : Io.ffmt_t) (d : dict) :
  Io.read_bin_block f ffmt None "<" = Ok (d, f') ->
  content f' = content f
  /\ position f' = (position f + Struct.items_size (layout ffmt))%nat
  /\ (Struct.items_size (layout ffmt)
      <= length (skipn (position f) (content f)))%nat
  /\ forall k, k ∉ omap fst ffmt -> d !! k = None.
Proof.
  intros H. destruct (read_bin_block_pos _ _ _ _ H) as [-> Hlen].
  cbn [content position]. repeat split; try assumption.
  intros k Hk. by eapply header_no_key.
Qed.

(** The example block: 8 bytes consumed from offset 3. *)
Lemma read_bin_block_consumes_witness :
  exists d f',
    Io.read_bin_block Samples.example_stream Samples.example_ffmt None "<"
    = Ok (d, f')
    /\ position f' = 11%nat /\ d !! "c" = None.
Proof.
  destruct (Io.read_bin_block Samples.example_stream Samples.example_ffmt
              None "<") as [[d f']|e] eqn:E; [|vm_compute in E; discriminate].
  exists d, f'. split; [reflexivity|].
  destruct (read_bin_block_consumes _ _ _ _ E) as (_ & Hp & _ & Hk).
  split; [exact Hp|]. apply Hk.
  change (omap fst Samples.example_ffmt) with ["a"; "b"]. intros Hin.
  apply elem_of_cons in Hin as [Hin|Hin]; [discriminate|].
  apply elem_of_cons in Hin as [Hin|Hin]; [discriminate|].
  by apply elem_of_nil in Hin.
Defined.

(** [intdec_2_float(10, 2**23)] is 10.5. *)
Theorem intdec_2_float_half :
  Io.intdec_2_float (VInt 10) (VInt (2 ^ 23)) = Ok (VFloat 10.5).
Proof. vm_compute. reflexivity. Qed.

End Helpers.

(** ** Bit sequences and integers *)

Section BitsValue.

Lemma be_value_range (bits : list Z) :
  Forall is_bit bits -> 0 <= be_value bits < 2 ^ Z.of_nat (length bits).
Proof.
  intros H. rewrite <- (rev_involutive bits), be_value_rev.
  rewrite length_rev. apply Forall_rev in H. revert H.
  generalize (rev bits). clear bits. intros bits H.
  unfold le_value. induction H as [|x r Hx Hr IH]; [cbn; lia|].
  cbn [fold_right length]. rewrite Nat2Z.inj_succ, Z.pow_succ_r by lia.
  destruct Hx as [-> | ->]; lia.
Qed.

Lemma le_value_range (bits : list Z) :
  Forall is_bit bits -> 0 <= le_value bits < 2 ^ Z.of_nat (length bits).
Proof.
  intros H. rewrite <- be_value_rev, <- length_rev.
  apply be_value_range, Forall_rev, H.
Qed.

(** X3. [bits_2_int] of the empty sequence raises ValueError; on a
    non-empty sequence of bits it returns the number they denote, the
    first bit most significant (the last one when [swap] is true), which
    is below 2 to the number of bits. *)
Theorem bits_2_int_value (b : Z) (bits : list Z) (swap : bool) :
  Forall is_bit (b :: bits) ->
  Io.bits_2_int [] swap
    = Raise (ValueError "invalid literal for int() with base 2")
  /\ Io.bits_2_int (b :: bits) swap
     = Ok (if swap then le_value (b :: bits) else be_value (b :: bits))
  /\ 0 <= (if swap then le_value (b :: bits) else be_value (b :: bits))
       < 2 ^ Z.of_nat (length (b :: bits)).
Proof.
  intros H. split; [by destruct swap|]. destruct swap.
  - split; [by apply bits_2_int_le | by apply le_value_range].
  - split; [by apply bits_2_int_be | by apply be_value_range].
Qed.

Lemma bits_2_int_value_witness :
  Io.bits_2_int [1; 1; 0] false = Ok 6 /\ Io.bits_2_int [1; 1; 0] true = Ok 3.
Proof.
  assert (H : Forall is_bit [1; 1; 0]).
  { repeat (apply List.Forall_cons; [first [by left | by right]|]).
    apply List.Forall_nil. }
  split.
  - apply (proj1 (proj2 (bits_2_int_value 1 [1; 0] false H))).
  - apply (proj1 (proj2 (bits_2_int_value 1 [1; 0] true H))).
Defined.

Lemma flat_map_rev {A B : Type} (f : A -> list B) (l : list A) :
  rev (flat_map f l) = flat_map (fun a => rev (f a)) (rev l).
Proof.
  induction l as [|a l IH]; [reflexivity|].
  cbn [flat_map rev]. rewrite rev_app_distr, IH, flat_map_app.
  cbn [flat_map]. by rewrite app_nil_r.
Qed.

Lemma byte_bits_rev (swap : bool) (b : byte) :
  rev (byte_bits swap b) = byte_bits (negb swap) b.
Proof. destruct swap; unfold byte_bits; cbn [negb]; by rewrite ?rev_involutive. Qed.

Lemma bytes_rev_aux (a : list byte) (swap : bool) :
  Io.bytes_2_bits a swap = flat_map (byte_bits swap) a
  /\ rev (Io.bytes_2_bits a swap) = Io.bytes_2_bits (rev a) (negb swap).
Proof.
  rewrite !bytes_2_bits_flat. split; [reflexivity|].
  rewrite flat_map_rev. apply flat_map_ext. intros x. apply byte_bits_rev.
Qed.

(** X4. [bytes_2_bits] works byte by byte: the bits of a concatenation
    are the concatenation of the bits; and reversing the whole bit
    sequence is the same as reversing the bytes and flipping [swap]. *)
Theorem bytes_2_bits_app_rev (a b : list byte) (swap : bool) :
  Io.bytes_2_bits (a ++ b) swap
  = Io.bytes_2_bits a swap ++ Io.bytes_2_bits b swap
  /\ rev (Io.bytes_2_bits a swap) = Io.bytes_2_bits (rev a) (negb swap).
Proof.
  rewrite !bytes_2_bits_flat. split; [apply flat_map_app|].
  rewrite flat_map_rev. apply flat_map_ext. intros x. apply byte_bits_rev.
Qed.

Lemma le_unsigned_bound (bs : list byte) :
  0 <= Struct.le_unsigned bs < 2 ^ Z.of_nat (8 * length bs).
Proof.
  induction bs as [|b bs IH]; [cbn; lia|].
  cbn [Struct.le_unsigned length]. pose proof (byte_val_range b).
  replace (Z.of_nat (8 * S (length bs))) with (8 + Z.of_nat (8 * length bs))
    by lia.
  rewrite Z.pow_add_r by lia. change (2 ^ 8) with 256. lia.
Qed.

Lemma bytes_2_bits_nonempty (b : byte) (bs : list byte) (swap : bool) :
  Io.bytes_2_bits (b :: bs) swap <> [].
Proof.
  intros E. apply (f_equal (@length Z)) in E.
  rewrite bytes_2_bits_length in E. cbn in E. lia.
Qed.

Lemma bytes_2_bits_is_bit (bs : list byte) (swap : bool) :
  Forall is_bit (Io.bytes_2_bits bs swap).
Proof. apply bytes_2_bits_01. Qed.

(** The unswapped bits of a byte string, read with the last bit most
    significant, are its little-endian integer. *)
Lemma bits_2_int_le_unsigned (b : byte) (bs : list byte) :
  Io.bits_2_int (Io.bytes_2_bits (b :: bs) false) true
  = Ok (Struct.le_unsigned (b :: bs)).
Proof.
  rewrite bits_2_int_le
    by (apply bytes_2_bits_is_bit || apply bytes_2_bits_nonempty).
  rewrite bytes_2_bits_bits_of, le_value_bits_of.
  f_equal. apply Z.mod_small, le_unsigned_bound.
Qed.

(** X5. The two functions composed read a non-empty byte string as an
    unsigned integer: little-endian when the bit sequence is built
    without swap and read with swap, big-endian when it is built with
    swap and read without; the result is below 256 to the number of
    bytes.  On the empty byte string both raise ValueError. *)
Theorem bits_2_int_of_bytes (b : byte) (bs : list byte) :
  Io.bits_2_int (Io.bytes_2_bits (b :: bs) false) true
    = Ok (Struct.le_unsigned (b :: bs))
  /\ Io.bits_2_int (Io.bytes_2_bits (b :: bs) true) false
     = Ok (Struct.le_unsigned (rev (b :: bs)))
  /\ 0 <= Struct.le_unsigned (b :: bs) < 256 ^ Z.of_nat (length (b :: bs))
  /\ forall s1 s2,
       Io.bits_2_int (Io.bytes_2_bits [] s1) s2
       = Raise (ValueError "invalid literal for int() with base 2").
Proof.
  split; [apply bits_2_int_le_unsigned|]. split; [|split].
  - assert (E : Io.bits_2_int (Io.bytes_2_bits (b :: bs) true) false
                = Io.bits_2_int (rev (Io.bytes_2_bits (b :: bs) true)) true).
    { unfold Io.bits_2_int. by rewrite rev_involutive. }
    rewrite E. clear E.
    assert (E := proj2 (bytes_rev_aux (b :: bs) true)).
    cbn [negb] in E. rewrite E.
    destruct (rev (b :: bs)) as [|c cs] eqn:Er.
    + apply (f_equal (@length byte)) in Er. rewrite length_rev in Er.
      discriminate.
    + apply bits_2_int_le_unsigned.
  - pose proof (le_unsigned_bound (b :: bs)) as H.
    replace (256 ^ Z.of_nat (length (b :: bs)))
      with (2 ^ Z.of_nat (8 * length (b :: bs))); [exact H|].
    rewrite Nat2Z.inj_mul, Z.pow_mul_r by lia. reflexivity.
  - by intros [] [].
Qed.

End BitsValue.

(** ** [inv_dict] *)

Section InvDict.

Lemma inv_fold_notin (l : list (Z * string)) (m : gmap string Z) (v : string) :
  v ∉ l.*2 ->
  fold_left (fun m kv => <[kv.2 := kv.1]> m) l m !! v = m !! v.
Proof.
  revert m. induction l as [|[k' v'] l IH]; intros m Hv; [reflexivity|].
  rewrite fmap_cons in Hv. apply not_elem_of_cons in Hv as [Hne Hv].
  cbn [fold_left]. rewrite IH by exact Hv. cbn. by rewrite lookup_insert_ne.
Qed.

(** The last item with a given value decides the key it is mapped to. *)
Lemma inv_dict_last (d d' : list (Z * string)) (k : Z) (v : string) :
  v ∉ d'.*2 -> Misc.inv_dict (d ++ (k, v) :: d') !! v = Some k.
Proof.
  intros Hv. unfold Misc.inv_dict. rewrite fold_left_app. cbn [fold_left].
  rewrite inv_fold_notin by exact Hv. cbn. by rewrite lookup_insert_eq.
Qed.

Lemma last_occurrence (l : list (Z * string)) (v : string) :
  v ∈ l.*2 ->
  exists k d d', l = d ++ (k, v) :: d' /\ v ∉ d'.*2.
Proof.
  induction l as [|[k' v'] l IH]; intros Hv.
  - by apply elem_of_nil in Hv.
  - destruct (decide (v ∈ l.*2)) as [Hin | Hout].
    + destruct (IH Hin) as (k & d & d' & -> & Hd').
      exists k, ((k', v') :: d), d'. split; [reflexivity | exact Hd'].
    + rewrite fmap_cons in Hv. apply elem_of_cons in Hv as [-> | Hv];
        [|contradiction].
      exists k', [], l. split; [reflexivity | exact Hout].
Qed.

(** X6. [inv_dict] maps a value to no key exactly when the value does
    not occur in the dictionary; a value that occurs several times is
    mapped to the key of its last occurrence; and when the values are
    distinct the result is the inverse relation. *)
Theorem inv_dict_lookup (d : list (Z * string)) (k : Z) (v : string) :
  (Misc.inv_dict d !! v = None <-> v ∉ d.*2)
  /\ (forall d1 d2, d = d1 ++ (k, v) :: d2 -> v ∉ d2.*2 ->
      Misc.inv_dict d !! v = Some k)
  /\ (Misc.inv_dict d !! v = Some k -> (k, v) ∈ d)
  /\ (NoDup d.*2 -> (k, v) ∈ d -> Misc.inv_dict d !! v = Some k).
Proof.
  split; [|split; [|split]].
  - split.
    + intros Hn Hin. apply last_occurrence in Hin as (k' & d1 & d2 & -> & H2).
      rewrite inv_dict_last in Hn by exact H2. discriminate.
    + intros Hv. unfold Misc.inv_dict. rewrite inv_fold_notin by exact Hv.
      apply lookup_empty.
  - intros d1 d2 -> H2. by apply inv_dict_last.
  - intros Hs. destruct (decide (v ∈ d.*2)) as [Hin | Hout].
    + apply last_occurrence in Hin as (k' & d1 & d2 & -> & H2).
      rewrite inv_dict_last in Hs by exact H2. injection Hs as ->.
      apply elem_of_app. right. apply elem_of_cons. by left.
    + unfold Misc.inv_dict in Hs. rewrite inv_fold_notin in Hs by exact Hout.
      by rewrite lookup_empty in Hs.
  - intros Hnd Hin. apply list_elem_of_split in Hin as (d1 & d2 & ->).
    apply inv_dict_last. rewrite fmap_app, fmap_cons in Hnd.
    apply NoDup_app in Hnd as (_ & _ & Hnd). apply NoDup_cons in Hnd as [H _].
    exact H.
Qed.

Lemma inv_dict_lookup_witness :
  Misc.inv_dict Iocodes.source_id !! "sun" = Some 4.
Proof.
  apply (proj2 (proj2 (proj2 (inv_dict_lookup Iocodes.source_id 4 "sun")))).
  - apply (bool_decide_unpack _). vm_compute. exact I.
  - apply elem_of_cons. right. apply elem_of_cons. by left.
Defined.

End InvDict.

(** ** [read_bin_block]: keys, sizes and composition *)

Section ReadBinBlockKeys.

Lemma unpack_items_length (o : Struct.byte_order)
    (items : list (nat * Struct.code)) (data : list byte) :
  length (Struct.unpack_items o items data) = values_count items.
Proof.
  revert data. induction items as [|[n k] items IH]; intros data;
    [reflexivity|].
  cbn [Struct.unpack_items values_count foldr]. rewrite length_app, IH.
  f_equal. unfold Struct.unpack_item, item_values. cbn [fst snd].
  destruct k; cbn [length]; rewrite ?length_map, ?chunks_length; reflexivity.
Qed.

Lemma zip_fst_take {A B : Type} (ks : list A) (vs : list B) :
  (zip ks vs).*1 = take (length vs) ks.
Proof.
  revert vs. induction ks as [|k ks IH]; intros [|v vs]; cbn;
    try reflexivity.
  by rewrite IH.
Qed.

Lemma fold_insert_is_Some (l : list (string * value)) (m : dict) (k : string) :
  is_Some (fold_left (fun d kv => <[kv.1 := kv.2]> d) l m !! k)
  <-> k ∈ l.*1 \/ is_Some (m !! k).
Proof.
  revert m. induction l as [|[k' v'] l IH]; intros m.
  - cbn. split; [auto|]. intros [H|H]; [by apply elem_of_nil in H | exact H].
  - cbn [fold_left]. rewrite IH, fmap_cons, elem_of_cons. cbn.
    destruct (decide (k = k')) as [-> | Hne].
    + rewrite lookup_insert_eq. split; [auto|]. intros _. right. by eexists.
    + rewrite lookup_insert_ne by done. tauto.
Qed.

Lemma dict_of_is_Some (l : list (string * value)) (k : string) :
  is_Some (dict_of l !! k) <-> k ∈ l.*1.
Proof.
  unfold dict_of. rewrite fold_insert_is_Some, lookup_empty.
  split; [|auto]. intros [H | [x H]]; [exact H | discriminate].
Qed.

Lemma read_bin_block_seek (f : file) (ffmt : Io.ffmt_t) (p : nat)
    (endian : string) :
  Io.read_bin_block f ffmt (Some p) endian
  = Io.read_bin_block (seek f p) ffmt None endian.
Proof. reflexivity. Qed.

(** X7. The keys of the dictionary [read_bin_block] returns are the
    first names of the layout, as many as the formats yield values: the
    names are paired with the unpacked values in order and the longer of
    the two lists is cut, so a name is bound exactly when a value falls
    to it, whatever format stands beside it. *)
Theorem read_bin_block_keys (f f' : file) (ffmt : Io.ffmt_t)
    (pos : option nat) (d : dict) (k : string) :
  Io.read_bin_block f ffmt pos "<" = Ok (d, f') ->
  is_Some (d !! k)
  <-> k ∈ take (values_count (layout ffmt)) (omap fst ffmt).
Proof.
  intros H.
  assert (exists g, Io.read_bin_block g ffmt None "<" = Ok (d, f')) as [g Hg].
  { destruct pos as [p|]; [exists (seek f p) | exists f]; exact H. }
  apply read_bin_block_Ok in Hg as (items & Hp & Hg). cbn zeta in Hg.
  destruct Hg as (_ & -> & _). unfold layout. rewrite Hp. cbn [snd].
  rewrite dict_of_is_Some, zip_fst_take, unpack_items_length. reflexivity.
Qed.

Lemma read_bin_block_keys_witness :
  is_Some (({[ "a" := VInt (-2); "b" := VFloat 10.5 ]} : dict) !! "b")
  <-> "b" ∈ take (values_count (layout Samples.example_ffmt))
               (omap fst Samples.example_ffmt).
Proof.
  apply (read_bin_block_keys Samples.example_stream
           (mk_file (content Samples.example_stream) 11)
           Samples.example_ffmt None).
  vm_compute. reflexivity.
Defined.

(** X8. Given a layout whose formats parse, [read_bin_block] succeeds
    exactly when the bytes left from the start position (the [pos]
    given, else the current position) cover the size of the layout; it
    then leaves the stream right after the block.  With fewer bytes left
    it raises [struct.error]. *)
Theorem read_bin_block_size (f : file) (ffmt : Io.ffmt_t) (pos : option nat)
    (items : list (nat * Struct.code)) :
  Struct.parse ("<" ++ String.concat "" (map snd ffmt))
    = Ok (Struct.LittleEndian, items) ->
  let start := default (position f) pos in
  let n := Struct.items_size items in
  if (n <=? length (content f) - start)%nat
  then exists d,
         Io.read_bin_block f ffmt pos "<"
         = Ok (d, mk_file (content f) (start + n))
  else Io.read_bin_block f ffmt pos "<"
       = Raise (StructError "unpack requires a buffer of the format's size").
Proof.
  intros Hp start n.
  set (g := match pos with Some p => seek f p | None => f end).
  assert (Hg : Io.read_bin_block f ffmt pos "<"
               = Io.read_bin_block g ffmt None "<") by (by destruct pos).
  assert (Hpos : position g = start) by (by destruct pos).
  assert (Hcont : content g = content f) by (by destruct pos).
  rewrite Hg. destruct (Nat.leb_spec n (length (content f) - start)) as [Hle | Hlt].
  - eexists. rewrite <- Hpos, <- Hcont.
    apply (read_bin_block_enough g ffmt items Hp).
    rewrite length_skipn, Hpos, Hcont. exact Hle.
  - apply (read_bin_block_short g ffmt items Hp).
    rewrite length_skipn, Hpos, Hcont. exact Hlt.
Qed.

Lemma read_bin_block_size_witness :
  (exists d,
     Io.read_bin_block Samples.example_stream Samples.example_ffmt None "<"
     = Ok (d, mk_file (content Samples.example_stream) 11))
  /\ Io.read_bin_block Samples.example_stream Samples.example_ffmt
       (Some 4%nat) "<"
     = Raise (StructError "unpack requires a buffer of the format's size").
Proof.
  split.
  - apply (read_bin_block_size Samples.example_stream Samples.example_ffmt
             None (layout Samples.example_ffmt)).
    vm_compute. reflexivity.
  - apply (read_bin_block_size Samples.example_stream Samples.example_ffmt
             (Some 4%nat) (layout Samples.example_ffmt)).
    vm_compute. reflexivity.
Defined.

End ReadBinBlockKeys.

Section ReadBinBlockApp.

Lemma append_empty_r (s : string) : (s ++ "")%string = s.
Proof.
  induction s as [|c s IH]; [reflexivity|].
  change (String c (s ++ "") = String c s). by rewrite IH.
Qed.

Lemma append_assoc (a b c : string) :
  ((a ++ b) ++ c)%string = (a ++ (b ++ c))%string.
Proof.
  induction a as [|x a IH]; [reflexivity|].
  change (String x ((a ++ b) ++ c) = String x (a ++ (b ++ c)))%string.
  by rewrite IH.
Qed.

Lemma concat_empty_cons (x : string) (l : list string) :
  String.concat "" (x :: l) = (x ++ String.concat "" l)%string.
Proof.
  destruct l as [|y l]; [|reflexivity].
  cbn [String.concat]. by rewrite append_empty_r.
Qed.

Lemma concat_empty_app (l1 l2 : list string) :
  String.concat "" (l1 ++ l2)
  = (String.concat "" l1 ++ String.concat "" l2)%string.
Proof.
  induction l1 as [|x l1 IH]; [reflexivity|].
  rewrite <- app_comm_cons, !concat_empty_cons, IH. by rewrite append_assoc.
Qed.

(** Two format strings that parse on their own parse to the items of
    both when put one after the other. *)
Lemma parse_items_app (s1 s2 : string) (count : option nat)
    (i1 i2 : list (nat * Struct.code)) :
  Struct.parse_items s1 count = Ok i1 ->
  Struct.parse_items s2 None = Ok i2 ->
  Struct.parse_items (s1 ++ s2) count = Ok (i1 ++ i2).
Proof.
  intros H1 H2. revert count i1 H1.
  induction s1 as [|c s1 IH]; intros count i1 H1.
  - destruct count; [discriminate|]. injection H1 as <-. exact H2.
  - change (String c s1 ++ s2)%string with (String c (s1 ++ s2)).
    cbn [Struct.parse_items] in *.
    destruct (Struct.digit_of_char c); [by apply IH|].
    destruct (Struct.code_of_char c); [|discriminate].
    apply bind_Ok in H1 as (l & Hl & [= <-]).
    rewrite (IH _ _ Hl). reflexivity.
Qed.

Lemma parse_app (ffmt1 ffmt2 : Io.ffmt_t) (i1 i2 : list (nat * Struct.code)) :
  Struct.parse ("<" ++ String.concat "" (map snd ffmt1))
    = Ok (Struct.LittleEndian, i1) ->
  Struct.parse ("<" ++ String.concat "" (map snd ffmt2))
    = Ok (Struct.LittleEndian, i2) ->
  Struct.parse ("<" ++ String.concat "" (map snd (ffmt1 ++ ffmt2)))
    = Ok (Struct.LittleEndian, i1 ++ i2).
Proof.
  change ("<" ++ ?s)%string with (String "<" s).
  cbn [Struct.parse]. intros H1 H2.
  apply bind_Ok in H1 as (l1 & H1 & [= <-]).
  apply bind_Ok in H2 as (l2 & H2 & [= <-]).
  rewrite map_app, concat_empty_app, (parse_items_app _ _ _ _ _ H1 H2).
  reflexivity.
Qed.

Lemma items_size_app (i1 i2 : list (nat * Struct.code)) :
  Struct.items_size (i1 ++ i2)
  = (Struct.items_size i1 + Struct.items_size i2)%nat.
Proof.
  unfold Struct.items_size. induction i1 as [|x i1 IH]; [reflexivity|].
  cbn [app foldr]. rewrite IH. lia.
Qed.

Lemma unpack_items_app (o : Struct.byte_order)
    (i1 i2 : list (nat * Struct.code)) (data : list byte) :
  Struct.unpack_items o (i1 ++ i2) data
  = Struct.unpack_items o i1 data
    ++ Struct.unpack_items o i2 (skipn (Struct.items_size i1) data).
Proof.
  revert data. induction i1 as [|x i1 IH]; intros data; [reflexivity|].
  cbn [app Struct.unpack_items].
  rewrite IH, <- app_assoc, skipn_skipn.
  replace (Struct.items_size i1 + Struct.item_size x)%nat
    with (Struct.items_size (x :: i1)); [reflexivity|].
  change (Struct.items_size (x :: i1))
    with (Struct.item_size x + Struct.items_size i1)%nat. lia.
Qed.

(** Unpacking looks at no byte beyond the size of the items. *)
Lemma unpack_items_firstn (o : Struct.byte_order)
    (items : list (nat * Struct.code)) (n : nat) (data : list byte) :
  (Struct.items_size items <= n)%nat ->
  Struct.unpack_items o items (firstn n data)
  = Struct.unpack_items o items data.
Proof.
  revert n data. induction items as [|x items IH]; intros n data Hn;
    [reflexivity|].
  change (Struct.items_size (x :: items))
    with (Struct.item_size x + Struct.items_size items)%nat in Hn.
  cbn [Struct.unpack_items].
  rewrite firstn_firstn, Nat.min_l by lia.
  rewrite skipn_firstn_comm, IH by lia. reflexivity.
Qed.

Lemma fold_insert_union (l : list (string * value)) (m : dict) :
  fold_left (fun d kv => <[kv.1 := kv.2]> d) l m = dict_of l ∪ m.
Proof.
  unfold dict_of. revert m. induction l as [|[k v] l IH]; intros m.
  - cbn. by rewrite (left_id_L ∅ (∪)).
  - cbn [fold_left fst snd]. rewrite IH, (IH (<[k:=v]> ∅)).
    rewrite <- (assoc_L (∪)). f_equal.
    by rewrite <- insert_union_l, (left_id_L ∅ (∪)).
Qed.

Lemma dict_of_app (l1 l2 : list (string * value)) :
  dict_of (l1 ++ l2) = dict_of l2 ∪ dict_of l1.
Proof.
  unfold dict_of at 1. rewrite fold_left_app. apply fold_insert_union.
Qed.

(** X9. Reading a layout made of two parts is reading the first part
    and then, from where that read stopped, the second: the resulting
    dictionary is the first one updated with the second, and both ways
    raise [struct.error] on the same streams.  It holds when each part
    parses on its own and the first part yields one value per name. *)
Theorem read_bin_block_app (f : file) (ffmt1 ffmt2 : Io.ffmt_t)
    (i1 i2 : list (nat * Struct.code)) :
  Struct.parse ("<" ++ String.concat "" (map snd ffmt1))
    = Ok (Struct.LittleEndian, i1) ->
  Struct.parse ("<" ++ String.concat "" (map snd ffmt2))
    = Ok (Struct.LittleEndian, i2) ->
  length (omap fst ffmt1) = values_count i1 ->
  Io.read_bin_block f (ffmt1 ++ ffmt2) None "<"
  = (let* (d1, f1) := Io.read_bin_block f ffmt1 None "<" in
     let* (d2, f2) := Io.read_bin_block f1 ffmt2 None "<" in
     Ok (update d1 d2, f2)).
Proof.
  intros H1 H2 Hk. pose proof (parse_app _ _ _ _ H1 H2) as H12.
  set (rest := skipn (position f) (content f)).
  set (n1 := Struct.items_size i1). set (n2 := Struct.items_size i2).
  destruct (le_lt_dec n1 (length rest)) as [L1 | L1].
  - rewrite (read_bin_block_enough f ffmt1 i1 H1 L1). cbn [bind].
    fold n1 rest.
    set (f1 := mk_file (content f) (position f + n1)).
    assert (Hrest1 : skipn (position f1) (content f1) = skipn n1 rest).
    { unfold f1, rest. cbn [position content]. rewrite skipn_skipn.
      f_equal. lia. }
    destruct (le_lt_dec n2 (length (skipn n1 rest))) as [L2 | L2].
    + rewrite (read_bin_block_enough f1 ffmt2 i2 H2)
        by (rewrite Hrest1; exact L2).
      cbn [bind]. rewrite Hrest1. fold n2.
      rewrite (read_bin_block_enough f _ _ H12)
        by (rewrite items_size_app; fold n1 n2 rest;
            rewrite length_skipn in L2; lia).
      rewrite items_size_app. fold n1 n2 rest. f_equal. f_equal.
      * rewrite omap_app, unpack_items_app. fold n1.
        rewrite zip_with_app
          by (rewrite unpack_items_length; exact Hk).
        rewrite dict_of_app. unfold update. f_equal.
        -- f_equal. rewrite skipn_firstn_comm.
           replace (n1 + n2 - n1)%nat with n2 by lia. reflexivity.
        -- f_equal.
           rewrite <- (unpack_items_firstn _ i1 n1 (firstn (n1 + n2) rest))
             by (unfold n1; lia).
           rewrite firstn_firstn, Nat.min_l by lia. reflexivity.
      * unfold f1. cbn [content position]. f_equal. lia.
    + rewrite (read_bin_block_short f1 ffmt2 i2 H2)
        by (rewrite Hrest1; exact L2).
      cbn [bind].
      apply (read_bin_block_short f _ _ H12).
      rewrite items_size_app. fold n1 n2 rest.
      rewrite length_skipn in L2. lia.
  - rewrite (read_bin_block_short f ffmt1 i1 H1 L1). cbn [bind].
    apply (read_bin_block_short f _ _ H12).
    rewrite items_size_app. fold n1 n2 rest. lia.
Qed.

Lemma read_bin_block_app_witness :
  Io.read_bin_block Samples.example_stream
    ([(Some "a", "h")] ++ [(None, "2x"); (Some "b", "f")]) None "<"
  = (let* (d1, f1) :=
       Io.read_bin_block Samples.example_stream [(Some "a", "h")] None "<" in
     let* (d2, f2) :=
       Io.read_bin_block f1 [(None, "2x"); (Some "b", "f")] None "<" in
     Ok (update d1 d2, f2)).
Proof.
  apply (read_bin_block_app Samples.example_stream
           [(Some "a", "h")] [(None, "2x"); (Some "b", "f")]
           (layout [(Some "a", "h")])
           (layout [(None, "2x"); (Some "b", "f")]));
    vm_compute; reflexivity.
Defined.

End ReadBinBlockApp.

(** ** [read_fts1]: the derived fields *)

(** The [i]-th value of a header, computed from the layout. *)
Ltac header_value :=
  cbn [Struct.unpack_items Struct.unpack_item Struct.item_size fst snd
       Struct.width Nat.mul Nat.add Struct.chunks map app
       Struct.decode1 lookup list_lookup Struct.items_size foldr];
  reflexivity.

Section Fts1Fields.

(** The dictionary the header phase of [read_fts1] returns, written out
    from the raw header [hdr]. *)
Lemma fts1_header_shape (filename : list byte) (spec : dict) :
  Legacy.fts1_header filename = Ok spec ->
  exists (hdr : dict) (f' : file) (b_name b_src b_ftype : list byte)
         (s_name s_src s_ftype : string) (t_begin t_end t_avg : datetime)
         (opd res wn_end wn_begin wn_range n_points wn_step : value),
    Io.read_bin_block (open filename) Iofmt.fts1_header_ffmt None "<"
      = Ok (hdr, f')
    /\ hdr !! "name" = Some (VBytes b_name) /\ decode b_name = Ok s_name
    /\ hdr !! "source" = Some (VBytes b_src) /\ decode b_src = Ok s_src
    /\ hdr !! "ftype" = Some (VBytes b_ftype) /\ decode b_ftype = Ok s_ftype
    /\ hdr !! "opd" = Some opd /\ truediv (VFloat 500) opd = Ok res
    /\ hdr !! "wavenumber_end" = Some wn_end
    /\ hdr !! "wavenumber_begin" = Some wn_begin
    /\ sub wn_end wn_begin = Ok wn_range
    /\ hdr !! "n_points" = Some n_points
    /\ truediv wn_range n_points = Ok wn_step
    /\ spec
       = <["wavenumber_step" := wn_step]>
         (<["resolution" := res]>
         (delete "opd"
         (<["source_id" :=
              VInt (default 0 (Misc.inv_dict Iocodes.source_id
                                 !! lower (strip s_src)))]>
         (delete "source"
         (<["datetime_avg" := VDatetime t_avg]>
         (delete "hour_avg"
         (<["datetime_end" := VDatetime t_end]>
         (delete "dayofyear_end" (delete "year_end"
         (<["datetime_begin" := VDatetime t_begin]>
         (delete "dayofyear_begin" (delete "year_begin"
         (<["ftype" := VStr (strip s_ftype)]>
         (<["source" := VStr (strip s_src)]>
         (<["name" := VStr (strip s_name)]> hdr))))))))))))))).
Proof.
  unfold Legacy.fts1_header. intros H.
  apply bind_Ok in H as ([hdr f'] & Hread & H).
  apply bind_Ok in H as (s1 & H1 & H). cbn [foldM] in H1.
  apply bind_Ok in H1 as (a1 & E1 & H1).
  apply decode_strip_Ok in E1 as (b_name & s_name & Hbn & Hsn & ->).
  apply bind_Ok in H1 as (a2 & E2 & H1).
  apply decode_strip_Ok in E2 as (b_src & s_src & Hbs & Hss & ->).
  apply bind_Ok in H1 as (a3 & E3 & H1).
  apply decode_strip_Ok in E3 as (b_ftype & s_ftype & Hbf & Hsf & ->).
  apply Ok_inj in H1 as <-.
  apply bind_Ok in H as (s2 & H2 & H). cbn [foldM] in H2.
  apply bind_Ok in H2 as (b1 & E1 & H2).
  apply fts1_datetime_Ok in E1 as (yb & nb & t_begin & _ & _ & _ & ->).
  apply bind_Ok in H2 as (b2 & E2 & H2).
  apply fts1_datetime_Ok in E2 as (ye & ne & t_end & _ & _ & _ & ->).
  apply Ok_inj in H2 as <-.
  cbn [String.concat append] in *.
  apply bind_Ok in H as (t_end' & _ & H).
  apply bind_Ok in H as (t_begin' & _ & H).
  apply bind_Ok in H as ([hour s3] & Hp & H). apply pop_Ok in Hp as [_ ->].
  apply bind_Ok in H as (t_begin'' & _ & H).
  apply bind_Ok in H as (half & _ & H).
  apply bind_Ok in H as (t_mid & _ & H).
  apply bind_Ok in H as (t_avg & _ & H).
  apply bind_Ok in H as ([source s4] & Hp & H). apply pop_Ok in Hp as [Hsrc ->].
  revert Hsrc. lookup_through. intros [= <-].
  apply bind_Ok in H as (src & Hsrc & H). apply Ok_inj in Hsrc as <-.
  apply bind_Ok in H as ([opd s5] & Hp & H). apply pop_Ok in Hp as [Hopd ->].
  apply bind_Ok in H as (res & Hres & H).
  apply bind_Ok in H as (wn_end & Hwe & H). apply getitem_Ok in Hwe.
  apply bind_Ok in H as (wn_begin & Hwb & H). apply getitem_Ok in Hwb.
  apply bind_Ok in H as (wn_range & Hrange & H).
  apply bind_Ok in H as (n_points & Hn & H). apply getitem_Ok in Hn.
  apply bind_Ok in H as (wn_step & Hstep & H).
  apply Ok_inj in H as <-.
  revert Hbs Hbf Hopd Hwe Hwb Hn. lookup_through.
  intros Hbs Hbf Hopd Hwe Hwb Hn.
  exists hdr, f', b_name, b_src, b_ftype, s_name, s_src, s_ftype,
    t_begin, t_end, t_avg, opd, res, wn_end, wn_begin, wn_range, n_points,
    wn_step.
  repeat split; assumption || reflexivity.
Qed.

(** The types of the fields of an FTS1 header that the derived fields
    are computed from. *)
Lemma fts1_header_numbers (f f' : file) (hdr : dict) :
  Io.read_bin_block f Iofmt.fts1_header_ffmt None "<" = Ok (hdr, f') ->
  (exists n, hdr !! "n_points" = Some (VInt n))
  /\ (exists x, hdr !! "wavenumber_begin" = Some (VFloat x))
  /\ (exists x, hdr !! "wavenumber_end" = Some (VFloat x))
  /\ (exists x, hdr !! "opd" = Some (VFloat x)).
Proof.
  intros H. repeat split; eexists.
  - refine (proj2 (header_lookup _ _ _ _ 9 "n_points" _ H fts1_keys_NoDup eq_refl) _).
    rewrite fts1_layout. header_value.
  - refine (proj2 (header_lookup _ _ _ _ 10 "wavenumber_begin" _ H fts1_keys_NoDup eq_refl) _).
    rewrite fts1_layout. header_value.
  - refine (proj2 (header_lookup _ _ _ _ 11 "wavenumber_end" _ H fts1_keys_NoDup eq_refl) _).
    rewrite fts1_layout. header_value.
  - refine (proj2 (header_lookup _ _ _ _ 12 "opd" _ H fts1_keys_NoDup eq_refl) _).
    rewrite fts1_layout. header_value.
Qed.

Lemma source_id_of (s : string) :
  default 0 (Misc.inv_dict Iocodes.source_id !! s)
  = if String.eqb s "sun" then 4
    else if String.eqb s "moon" then 5 else 0.
Proof.
  change (Misc.inv_dict Iocodes.source_id)
    with (<["moon" := 5]> (<["sun" := 4]> (<["unknown" := 0]> (∅ : gmap string Z)))).
  destruct (String.eqb_spec s "sun") as [-> | Hsun]; [reflexivity|].
  destruct (String.eqb_spec s "moon") as [-> | Hmoon]; [reflexivity|].
  rewrite !lookup_insert_ne by done.
  destruct (decide (s = "unknown")) as [-> | Hu]; [reflexivity|].
  rewrite lookup_insert_ne by done. reflexivity.
Qed.

(** X10. Whenever [read_fts1] returns, the text of the header field
    [source] (decoded, stripped, lower-cased) decides [source_id]: 4 for
    'sun', 5 for 'moon' and 0 for anything else, 'unknown' included; the
    key [source] itself is gone from the result. *)
Theorem read_fts1_source_id (filename : list byte) (spec : dict) :
  Legacy.read_fts1 filename = Ok spec ->
  exists (bs : list byte) (s : string),
    field Iofmt.fts1_header_ffmt filename "source" = Some (VBytes bs)
    /\ decode bs = Ok s
    /\ spec !! "source" = None
    /\ spec !! "source_id"
       = Some (VInt (if String.eqb (lower (strip s)) "sun" then 4
                     else if String.eqb (lower (strip s)) "moon" then 5
                     else 0)).
Proof.
  intros H. apply read_fts1_Ok in H as (spec_h & data & Hh & ->).
  apply fts1_header_shape in Hh
    as (hdr & f' & b_name & b_src & b_ftype & s_name & s_src & s_ftype
        & t_begin & t_end & t_avg & opd & res & wn_end & wn_begin & wn_range
        & n_points & wn_step & Hread & _ & _ & Hbs & Hss & _ & _ & _ & _ & _
        & _ & _ & _ & _ & ->).
  exists b_src, s_src.
  rewrite (field_of_header _ _ _ _ "source" Hread).
  split; [exact Hbs|]. split; [exact Hss|]. split.
  - lookup_through. apply lookup_delete_eq.
  - lookup_through. by rewrite source_id_of.
Qed.

Lemma read_fts1_source_id_witness :
  Samples.fts1_short_result !! "source_id" = Some (VInt 4).
Proof.
  destruct (read_fts1_source_id Samples.fts1_short Samples.fts1_short_result)
    as (bs & s & Hf & Hs & _ & Hid).
  - apply is_Ok_get. vm_compute. reflexivity.
  - rewrite Hid. clear Hid.
    assert (E : bs = Samples.ascii_bytes "SUN       ").
    { assert (E : field Iofmt.fts1_header_ffmt Samples.fts1_short "source"
                  = Some (VBytes (Samples.ascii_bytes "SUN       ")))
        by (vm_compute; reflexivity).
      rewrite E in Hf. by injection Hf. }
    subst bs. vm_compute in Hs. injection Hs as <-. reflexivity.
Defined.

(** X11. Whenever [read_fts1] returns, the header's [opd] is not zero
    and its [n_points] is not 0 (either would raise ZeroDivisionError),
    [resolution] is 500 / [opd], [wavenumber_step] is
    ([wavenumber_end] - [wavenumber_begin]) / [n_points], all in
    binary64, and the key [opd] is gone from the result. *)
Theorem read_fts1_resolution (filename : list byte) (spec : dict) :
  Legacy.read_fts1 filename = Ok spec ->
  exists (opd wb we : float) (n : Z),
    field Iofmt.fts1_header_ffmt filename "opd" = Some (VFloat opd)
    /\ field Iofmt.fts1_header_ffmt filename "wavenumber_begin"
       = Some (VFloat wb)
    /\ field Iofmt.fts1_header_ffmt filename "wavenumber_end"
       = Some (VFloat we)
    /\ field Iofmt.fts1_header_ffmt filename "n_points" = Some (VInt n)
    /\ PrimFloat.is_zero opd = false
    /\ n <> 0
    /\ spec !! "opd" = None
    /\ spec !! "resolution" = Some (VFloat (500 / opd))
    /\ spec !! "wavenumber_step"
       = Some (VFloat ((we - wb) / float_of_Z n))
    /\ spec !! "wavenumber_begin" = Some (VFloat wb)
    /\ spec !! "wavenumber_end" = Some (VFloat we)
    /\ spec !! "n_points" = Some (VInt n).
Proof.
  intros H. apply read_fts1_Ok in H as (spec_h & data & Hh & ->).
  apply fts1_header_shape in Hh
    as (hdr & f' & b_name & b_src & b_ftype & s_name & s_src & s_ftype
        & t_begin & t_end & t_avg & opd & res & wn_end & wn_begin & wn_range
        & n_points & wn_step & Hread & _ & _ & _ & _ & _ & _ & Hopd & Hres
        & Hwe & Hwb & Hrange & Hn & Hstep & ->).
  destruct (fts1_header_numbers _ _ _ Hread)
    as ((n & Hn') & (wb & Hwb') & (we & Hwe') & (x & Hopd')).
  rewrite Hn' in Hn. injection Hn as <-.
  rewrite Hwb' in Hwb. injection Hwb as <-.
  rewrite Hwe' in Hwe. injection Hwe as <-.
  rewrite Hopd' in Hopd. injection Hopd as <-.
  cbn [truediv as_float bind] in Hres.
  destruct (PrimFloat.is_zero x) eqn:Hz; [discriminate|].
  apply Ok_inj in Hres as <-.
  cbn [sub as_float bind] in Hrange. apply Ok_inj in Hrange as <-.
  cbn [truediv as_float bind] in Hstep. unfold float_of_int in Hstep.
  destruct (PrimFloat.is_infinity (float_of_Z n)); [discriminate|].
  cbn [bind] in Hstep.
  destruct (PrimFloat.is_zero (float_of_Z n)) eqn:Hzn; [discriminate|].
  apply Ok_inj in Hstep as <-.
  exists x, wb, we, n.
  rewrite (field_of_header _ _ _ _ "opd" Hread).
  rewrite (field_of_header _ _ _ _ "wavenumber_begin" Hread).
  rewrite (field_of_header _ _ _ _ "wavenumber_end" Hread).
  rewrite (field_of_header _ _ _ _ "n_points" Hread).
  repeat split; try assumption; lookup_through; try reflexivity;
    try assumption.
  - intros ->. vm_compute in Hzn. discriminate.
  - apply lookup_delete_eq.
Qed.

Lemma read_fts1_resolution_witness :
  Samples.fts1_short_result !! "resolution" = Some (VFloat 500)
  /\ Samples.fts1_short_result !! "wavenumber_step" = Some (VFloat 0.2).
Proof.
  destruct (read_fts1_resolution Samples.fts1_short Samples.fts1_short_result)
    as (opd & wb & we & n & Hopd & Hwb & Hwe & Hn & _ & _ & _ & Hres & Hstep & _).
  - apply is_Ok_get. vm_compute. reflexivity.
  - rewrite Hres, Hstep. clear Hres Hstep.
    vm_compute in Hopd, Hwb, Hwe, Hn.
    injection Hopd as <-. injection Hwb as <-. injection Hwe as <-.
    injection Hn as <-. split; vm_compute; reflexivity.
Defined.

End Fts1Fields.

(** ** The keys of the results *)

Section ResultKeys.

(** When the formats of a layout yield one value per name, the keys of a
    header are exactly the names. *)
Lemma header_dom (f f' : file) (ffmt : Io.ffmt_t) (d : dict) :
  Io.read_bin_block f ffmt None "<" = Ok (d, f') ->
  length (omap fst ffmt) = values_count (layout ffmt) ->
  dom d = list_to_set (omap fst ffmt).
Proof.
  intros H Hlen. apply read_bin_block_Ok in H as (items & Hp & H).
  cbn zeta in H. destruct H as (_ & -> & _).
  unfold layout in Hlen. rewrite Hp in Hlen. cbn [snd] in Hlen.
  apply set_eq. intros k.
  rewrite elem_of_dom, dict_of_is_Some, zip_fst_take, unpack_items_length.
  rewrite <- Hlen, firstn_all. by rewrite elem_of_list_to_set.
Qed.

(** X12. Whenever [read_fts1] returns, the result has exactly the keys
    listed: the header fields kept as they are, the derived ones
    ([datetime_begin], [datetime_end], [datetime_avg], [source_id],
    [resolution], [wavenumber_step], [data]), and none of the fields
    consumed on the way ([year_begin], [dayofyear_begin], [year_end],
    [dayofyear_end], [hour_avg], [source], [opd]). *)
Theorem read_fts1_keys (filename : list byte) (spec : dict) (k : string) :
  Legacy.read_fts1 filename = Ok spec ->
  is_Some (spec !! k)
  <-> k ∈ ["name"; "ftype"; "correction_factor"; "aperture";
           "nb_scan_backward"; "nb_scan_forward"; "n_points";
           "wavenumber_begin"; "wavenumber_end"; "sun_elevation";
           "sn_ratio"; "secz"; "datetime_begin"; "datetime_end";
           "datetime_avg"; "source_id"; "resolution"; "wavenumber_step";
           "data"].
Proof.
  intros H. apply read_fts1_Ok in H as (spec_h & data & Hh & ->).
  apply fts1_header_shape in Hh
    as (hdr & f' & b_name & b_src & b_ftype & s_name & s_src & s_ftype
        & t_begin & t_end & t_avg & opd & res & wn_end & wn_begin & wn_range
        & n_points & wn_step & Hread & _ & _ & _ & _ & _ & _ & _ & _ & _
        & _ & _ & _ & _ & ->).
  rewrite <- elem_of_dom, <- (elem_of_list_to_set (C := gset string)).
  repeat (rewrite dom_insert_L || rewrite dom_delete_L).
  assert (Hlen : length (omap fst Iofmt.fts1_header_ffmt)
                 = values_count (layout Iofmt.fts1_header_ffmt))
    by (vm_compute; reflexivity).
  rewrite (header_dom _ _ _ _ Hread Hlen).
  match goal with
  | |- _ ∈ ?a <-> _ ∈ ?b => replace a with b; [reflexivity|]
  end.
  apply (bool_decide_unpack _). vm_compute. exact I.
Qed.

Lemma read_fts1_keys_witness :
  is_Some (Samples.fts1_short_result !! "data")
  /\ Samples.fts1_short_result !! "opd" = None.
Proof.
  assert (Hr : Legacy.read_fts1 Samples.fts1_short
               = Ok Samples.fts1_short_result)
    by (apply is_Ok_get; vm_compute; reflexivity).
  split.
  - apply (read_fts1_keys _ _ "data" Hr).
    apply (bool_decide_unpack _). vm_compute. exact I.
  - apply eq_None_not_Some. intros Hs.
    apply (read_fts1_keys _ _ "opd" Hr) in Hs.
    revert Hs. apply (bool_decide_unpack (_ ∉ _)). vm_compute. exact I.
Defined.

End ResultKeys.

(** ** Files shorter than their header *)

Section ShortFiles.

Lemma fts1_parse :
  Struct.parse ("<" ++ String.concat "" (map snd Iofmt.fts1_header_ffmt))
  = Ok (Struct.LittleEndian, layout Iofmt.fts1_header_ffmt).
Proof. vm_compute. reflexivity. Qed.

Lemma bruker_parse :
  Struct.parse ("<" ++ String.concat "" (map snd Iofmt.bruker_header_ffmt))
  = Ok (Struct.LittleEndian, layout Iofmt.bruker_header_ffmt).
Proof. vm_compute. reflexivity. Qed.

Lemma spec_header_parse :
  Struct.parse ("<" ++ String.concat "" (map snd Iofmt.spec_header_ffmt))
  = Ok (Struct.LittleEndian, layout Iofmt.spec_header_ffmt).
Proof. vm_compute. reflexivity. Qed.

Lemma spec_record_parse :
  Struct.parse ("<" ++ String.concat "" (map snd Iofmt.spec_record_ffmt))
  = Ok (Struct.LittleEndian, layout Iofmt.spec_record_ffmt).
Proof. vm_compute. reflexivity. Qed.

Lemma fts1_header_size :
  Struct.items_size (layout Iofmt.fts1_header_ffmt) = 870%nat.
Proof. vm_compute. reflexivity. Qed.

Lemma bruker_header_size :
  Struct.items_size (layout Iofmt.bruker_header_ffmt) = 1280%nat.
Proof. vm_compute. reflexivity. Qed.

(** X13. A file shorter than the header block of its format makes the
    reader raise [struct.error]: below 870 bytes for [read_fts1] (the
    fields of the FTS1 layout end there, although the samples are read
    from offset 2048), 1280 for [read_bruker], 128 for [read_spec] and 80
    for [read_rinsland]. *)
Theorem readers_short_file (filename : list byte) :
  let short := StructError "unpack requires a buffer of the format's size" in
  ((length filename < 870)%nat -> Legacy.read_fts1 filename = Raise short)
  /\ ((length filename < 1280)%nat ->
      Legacy.read_bruker filename = Raise short)
  /\ ((length filename < 128)%nat -> Legacy.read_spec filename = Raise short)
  /\ ((length filename < 80)%nat ->
      Legacy.read_rinsland filename = Raise short).
Proof.
  cbn zeta. repeat split; intros Hlen.
  - unfold Legacy.read_fts1, Legacy.fts1_header.
    rewrite (read_bin_block_short _ _ _ fts1_parse); [reflexivity|].
    rewrite fts1_header_size. cbn [open position content skipn]. exact Hlen.
  - unfold Legacy.read_bruker.
    rewrite (read_bin_block_short _ _ _ bruker_parse); [reflexivity|].
    rewrite bruker_header_size. cbn [open position content skipn]. exact Hlen.
  - unfold Legacy.read_spec, Legacy.spec_read.
    rewrite (read_bin_block_short _ _ _ spec_header_parse); [reflexivity|].
    rewrite spec_header_size. cbn [open position content skipn]. exact Hlen.
  - unfold Legacy.read_rinsland, read, Struct.unpack.
    cbn [open position content skipn].
    change (Struct.parse "<80s")
      with (Ok (Struct.LittleEndian, [(80%nat, Struct.Bytes)])).
    cbn [bind snd fst].
    change (Struct.items_size [(80%nat, Struct.Bytes)]) with 80%nat.
    change (skipn 0 filename) with filename.
    rewrite firstn_all2 by lia.
    destruct (Nat.eqb_spec (length filename) 80); [lia | reflexivity].
Qed.

Lemma readers_short_file_witness :
  Legacy.read_fts1 (Samples.zeros 869)
    = Raise (StructError "unpack requires a buffer of the format's size")
  /\ Legacy.read_rinsland (Samples.zeros 79)
     = Raise (StructError "unpack requires a buffer of the format's size").
Proof.
  split.
  - apply (proj1 (readers_short_file (Samples.zeros 869))).
    unfold Samples.zeros. rewrite repeat_length. lia.
  - apply (proj2 (proj2 (proj2 (readers_short_file (Samples.zeros 79))))).
    unfold Samples.zeros. rewrite repeat_length. lia.
Defined.

End ShortFiles.

(** ** [read_bruker]: the derived fields *)

Section BrukerFields.

Lemma bruker_n_points_inv (spec spec' : dict) :
  Legacy.bruker_n_points spec = Ok spec' ->
  exists n,
    spec !! "n_points" = Some (VInt n)
    /\ spec !! "n_points2" = Some (VInt n)
    /\ spec' = <["n_points" := VInt n]> (delete "n_points2" spec).
Proof.
  unfold Legacy.bruker_n_points. intros H.
  apply bind_Ok in H as (v1 & H1 & H). apply getitem_Ok in H1.
  apply bind_Ok in H as (v2 & H2 & H). apply getitem_Ok in H2.
  apply bind_Ok in H as (b & Hb & H).
  destruct v1 as [m| | | | | |]; try discriminate.
  destruct v2 as [n| | | | | |]; try discriminate.
  cbn [Legacy.ne] in Hb. apply Ok_inj in Hb as <-.
  destruct (Z.eqb_spec m n) as [-> | Hne]; cbn [negb] in H.
  - apply bind_Ok in H as ([v d] & Hp & H). apply pop_Ok in Hp as [Hv ->].
    rewrite H2 in Hv. injection Hv as <-. apply Ok_inj in H as <-. eauto.
  - apply bind_Ok in H as (a0 & _ & H).
    apply bind_Ok in H as (a1 & _ & H).
    apply bind_Ok in H as (a2 & _ & H). discriminate.
Qed.

Lemma bruker_intdec_inv (spec spec' : dict) (key ki kd : string) :
  Legacy.bruker_intdec spec key ki kd = Ok spec' ->
  exists vi vd x,
    spec !! ki = Some vi /\ delete ki spec !! kd = Some vd
    /\ Io.intdec_2_float vi vd = Ok x
    /\ spec' = <[key := x]> (delete kd (delete ki spec)).
Proof.
  unfold Legacy.bruker_intdec. intros H.
  apply bind_Ok in H as ([vi d1] & Hp1 & H). apply pop_Ok in Hp1 as [H1 ->].
  apply bind_Ok in H as ([vd d2] & Hp2 & H). apply pop_Ok in Hp2 as [H2 ->].
  apply bind_Ok in H as (x & Hx & H). apply Ok_inj in H as <-.
  eauto 10.
Qed.

(** On two integers [intdec_2_float] is the binary64 sum of the first and
    of the second divided by 2^24. *)
Lemma intdec_2_float_ints (vi vd : Z) (x : value) :
  Io.intdec_2_float (VInt vi) (VInt vd) = Ok x ->
  x = VFloat (float_of_Z vi + float_of_Z vd / 16777216)%float.
Proof.
  unfold Io.intdec_2_float. intros H.
  apply bind_Ok in H as (q & Hq & H).
  cbn [truediv as_float] in Hq. unfold float_of_int in Hq.
  destruct (PrimFloat.is_infinity (float_of_Z vd)); [discriminate|].
  cbn [bind] in Hq.
  change (PrimFloat.is_zero 16777216) with false in Hq.
  apply Ok_inj in Hq as <-.
  cbn [add as_float] in H. unfold float_of_int in H.
  destruct (PrimFloat.is_infinity (float_of_Z vi)); [discriminate|].
  cbn [bind] in H. by apply Ok_inj in H as <-.
Qed.

(** The dictionary [read_bruker] returns, written out from the raw
    header [hdr]. *)
Lemma read_bruker_shape (filename : list byte) (spec : dict) :
  Legacy.read_bruker filename = Ok spec ->
  exists (hdr : dict) (f' : file) (b_name : list byte) (s_name : string)
         (n : Z) (t : datetime)
         (bi bd ei ed li ld ri rd : value)
         (x_wb x_we x_lf x_res wn_range wn_step wn_end' res' : value)
         (samples : list float) (fend : file),
    Io.read_bin_block (open filename) Iofmt.bruker_header_ffmt None "<"
      = Ok (hdr, f')
    /\ hdr !! "name" = Some (VBytes b_name) /\ decode b_name = Ok s_name
    /\ hdr !! "n_points" = Some (VInt n)
    /\ hdr !! "n_points2" = Some (VInt n)
    /\ hdr !! "waven_begin_i" = Some bi /\ hdr !! "waven_begin_d" = Some bd
    /\ Io.intdec_2_float bi bd = Ok x_wb
    /\ hdr !! "waven_end_i" = Some ei /\ hdr !! "waven_end_d" = Some ed
    /\ Io.intdec_2_float ei ed = Ok x_we
    /\ hdr !! "laserf_i" = Some li /\ hdr !! "laserf_d" = Some ld
    /\ Io.intdec_2_float li ld = Ok x_lf
    /\ hdr !! "resolution_i" = Some ri /\ hdr !! "resolution_d" = Some rd
    /\ Io.intdec_2_float ri rd = Ok x_res
    /\ sub x_we x_wb = Ok wn_range
    /\ truediv wn_range (VInt n) = Ok wn_step
    /\ sub x_we wn_step = Ok wn_end'
    /\ mul x_res (VFloat 1e3) = Ok res'
    /\ Np.fromfile_f32 (seek (open filename) 1280) = Ok (samples, fend)
    /\ spec
       = <["data" := VArray samples]>
         (<["resolution" := res']>
         (<["wavenumber_end" := wn_end']>
         (<["wavenumber_step" := wn_step]>
         (<["resolution" := x_res]>
         (delete "resolution_d" (delete "resolution_i"
         (<["laser_frequency" := x_lf]>
         (delete "laserf_d" (delete "laserf_i"
         (<["wavenumber_end" := x_we]>
         (delete "waven_end_d" (delete "waven_end_i"
         (<["wavenumber_begin" := x_wb]>
         (delete "waven_begin_d" (delete "waven_begin_i"
         (<["datetime_avg" := VDatetime t]>
         (delete "time_block" (delete "date_block"
         (<["n_points" := VInt n]>
         (delete "n_points2"
         (<["name" := VStr (strip s_name)]> hdr))))))))))))))))))))).
Proof.
  unfold Legacy.read_bruker. intros H.
  apply bind_Ok in H as ([hdr f'] & Hread & H).
  apply bind_Ok in H as (s1 & E & H).
  apply decode_strip_Ok in E as (b_name & s_name & Hbn & Hsn & ->).
  apply bind_Ok in H as (s2 & E & H).
  apply bruker_n_points_inv in E as (n & Hn1 & Hn2 & ->).
  apply bind_Ok in H as ([db s3] & Hp & H). apply pop_Ok in Hp as [_ ->].
  apply bind_Ok in H as (date_block & _ & H).
  apply bind_Ok in H as ([tb s4] & Hp & H). apply pop_Ok in Hp as [_ ->].
  apply bind_Ok in H as (time_block & _ & H).
  apply bind_Ok in H as (t & _ & H).
  apply bind_Ok in H as (s5 & E & H).
  apply bruker_intdec_inv in E as (bi & bd & x_wb & Hbi & Hbd & Hwb & ->).
  apply bind_Ok in H as (s6 & E & H).
  apply bruker_intdec_inv in E as (ei & ed & x_we & Hei & Hed & Hwe & ->).
  apply bind_Ok in H as (s7 & E & H).
  apply bruker_intdec_inv in E as (li & ld & x_lf & Hli & Hld & Hlf & ->).
  apply bind_Ok in H as (s8 & E & H).
  apply bruker_intdec_inv in E as (ri & rd & x_res & Hri & Hrd & Hres & ->).
  apply bind_Ok in H as (wn_end & Ge & H). apply getitem_Ok in Ge.
  apply bind_Ok in H as (wn_begin & Gb & H). apply getitem_Ok in Gb.
  apply bind_Ok in H as (wn_range & Hrange & H).
  apply bind_Ok in H as (n_points & Gn & H). apply getitem_Ok in Gn.
  apply bind_Ok in H as (wn_step & Hstep & H).
  apply bind_Ok in H as (wn_end2 & Ge2 & H). apply getitem_Ok in Ge2.
  apply bind_Ok in H as (wn_end' & Hend & H).
  apply bind_Ok in H as (res0 & Gr & H). apply getitem_Ok in Gr.
  apply bind_Ok in H as (res' & Hmul & H).
  apply bind_Ok in H as ([samples fend] & Hdata & H).
  apply Ok_inj in H as <-.
  revert Hn1 Hn2 Hbi Hbd Hei Hed Hli Hld Hri Hrd Ge Gb Gn Ge2 Gr.
  lookup_through.
  intros Hn1 Hn2 Hbi Hbd Hei Hed Hli Hld Hri Hrd [= <-] [= <-] [= <-]
    [= <-] [= <-].
  exists hdr, f', b_name, s_name, n, t, bi, bd, ei, ed, li, ld, ri, rd,
    x_wb, x_we, x_lf, x_res, wn_range, wn_step, wn_end', res', samples, fend.
  repeat split; assumption || reflexivity.
Qed.

Lemma bruker_header_numbers (f f' : file) (hdr : dict) :
  Io.read_bin_block f Iofmt.bruker_header_ffmt None "<" = Ok (hdr, f') ->
  Forall (fun k => exists n, hdr !! k = Some (VInt n))
    ["waven_begin_i"; "waven_begin_d"; "waven_end_i"; "waven_end_d";
     "laserf_i"; "laserf_d"; "resolution_i"; "resolution_d"].
Proof.
  intros H.
  repeat (apply List.Forall_cons; [eexists|]); [..|apply List.Forall_nil].
  - refine (proj2 (header_lookup _ _ _ _ 5 "waven_begin_i" _ H bruker_keys_NoDup eq_refl) _).
    rewrite bruker_layout. header_value.
  - refine (proj2 (header_lookup _ _ _ _ 6 "waven_begin_d" _ H bruker_keys_NoDup eq_refl) _).
    rewrite bruker_layout. header_value.
  - refine (proj2 (header_lookup _ _ _ _ 7 "waven_end_i" _ H bruker_keys_NoDup eq_refl) _).
    rewrite bruker_layout. header_value.
  - refine (proj2 (header_lookup _ _ _ _ 8 "waven_end_d" _ H bruker_keys_NoDup eq_refl) _).
    rewrite bruker_layout. header_value.
  - refine (proj2 (header_lookup _ _ _ _ 14 "laserf_i" _ H bruker_keys_NoDup eq_refl) _).
    rewrite bruker_layout. header_value.
  - refine (proj2 (header_lookup _ _ _ _ 15 "laserf_d" _ H bruker_keys_NoDup eq_refl) _).
    rewrite bruker_layout. header_value.
  - refine (proj2 (header_lookup _ _ _ _ 18 "resolution_i" _ H bruker_keys_NoDup eq_refl) _).
    rewrite bruker_layout. header_value.
  - refine (proj2 (header_lookup _ _ _ _ 19 "resolution_d" _ H bruker_keys_NoDup eq_refl) _).
    rewrite bruker_layout. header_value.
Qed.

(** X14. Whenever [read_bruker] returns: the two point counts of the
    header are equal and not 0, [n_points2] is gone; each of
    [wavenumber_begin], the raw end, [laser_frequency] and the raw
    resolution is the binary64 value integer part + decimal part / 2^24
    of its two header integers; [wavenumber_step] is (raw end - begin) /
    [n_points], the returned [wavenumber_end] is the raw end minus one
    step, and the returned [resolution] is the raw one times 1000. *)
Theorem read_bruker_wavenumbers (filename : list byte) (spec : dict) :
  Legacy.read_bruker filename = Ok spec ->
  exists (n bi bd ei ed li ld ri rd : Z),
    let fld := field Iofmt.bruker_header_ffmt filename in
    let intdec (vi vd : Z) :=
      (float_of_Z vi + float_of_Z vd / 16777216)%float in
    let step := ((intdec ei ed - intdec bi bd) / float_of_Z n)%float in
    fld "n_points" = Some (VInt n) /\ fld "n_points2" = Some (VInt n)
    /\ fld "waven_begin_i" = Some (VInt bi)
    /\ fld "waven_begin_d" = Some (VInt bd)
    /\ fld "waven_end_i" = Some (VInt ei)
    /\ fld "waven_end_d" = Some (VInt ed)
    /\ fld "laserf_i" = Some (VInt li) /\ fld "laserf_d" = Some (VInt ld)
    /\ fld "resolution_i" = Some (VInt ri)
    /\ fld "resolution_d" = Some (VInt rd)
    /\ n <> 0
    /\ spec !! "n_points" = Some (VInt n)
    /\ spec !! "n_points2" = None
    /\ spec !! "wavenumber_begin" = Some (VFloat (intdec bi bd))
    /\ spec !! "wavenumber_step" = Some (VFloat step)
    /\ spec !! "wavenumber_end" = Some (VFloat (intdec ei ed - step))
    /\ spec !! "laser_frequency" = Some (VFloat (intdec li ld))
    /\ spec !! "resolution" = Some (VFloat (intdec ri rd * 1e3)).
Proof.
  intros H. apply read_bruker_shape in H
    as (hdr & f' & b_name & s_name & n & t & bi & bd & ei & ed & li & ld
        & ri & rd & x_wb & x_we & x_lf & x_res & wn_range & wn_step
        & wn_end' & res' & samples & fend & Hread & _ & _ & Hn1 & Hn2 & Hbi
        & Hbd & Hwb & Hei & Hed & Hwe & Hli & Hld & Hlf & Hri & Hrd & Hres
        & Hrange & Hstep & Hend & Hmul & _ & ->).
  pose proof (bruker_header_numbers _ _ _ Hread) as Hnum.
  repeat match goal with
         | Hn : Forall _ (_ :: _) |- _ =>
             apply Forall_cons in Hn as [[? ?] Hn]
         end.
  repeat match goal with
         | A : ?d !! ?k = Some ?v, B : ?d !! ?k = Some (VInt ?z) |- _ =>
             rewrite A in B; injection B as ->
         end.
  apply intdec_2_float_ints in Hwb as ->.
  apply intdec_2_float_ints in Hwe as ->.
  apply intdec_2_float_ints in Hlf as ->.
  apply intdec_2_float_ints in Hres as ->.
  cbn [sub as_float bind] in Hrange. apply Ok_inj in Hrange as <-.
  cbn [truediv as_float bind] in Hstep. unfold float_of_int in Hstep.
  destruct (PrimFloat.is_infinity (float_of_Z n)); [discriminate|].
  cbn [bind] in Hstep.
  destruct (PrimFloat.is_zero (float_of_Z n)) eqn:Hzn; [discriminate|].
  apply Ok_inj in Hstep as <-.
  cbn [sub as_float bind] in Hend. apply Ok_inj in Hend as <-.
  cbn [mul as_float bind] in Hmul. apply Ok_inj in Hmul as <-.
  eexists n, _, _, _, _, _, _, _, _. cbn zeta.
  rewrite (field_of_header _ _ _ _ "n_points" Hread).
  rewrite (field_of_header _ _ _ _ "n_points2" Hread).
  rewrite (field_of_header _ _ _ _ "waven_begin_i" Hread).
  rewrite (field_of_header _ _ _ _ "waven_begin_d" Hread).
  rewrite (field_of_header _ _ _ _ "waven_end_i" Hread).
  rewrite (field_of_header _ _ _ _ "waven_end_d" Hread).
  rewrite (field_of_header _ _ _ _ "laserf_i" Hread).
  rewrite (field_of_header _ _ _ _ "laserf_d" Hread).
  rewrite (field_of_header _ _ _ _ "resolution_i" Hread).
  rewrite (field_of_header _ _ _ _ "resolution_d" Hread).
  repeat split; try eassumption; lookup_through; try reflexivity.
  - intros ->. vm_compute in Hzn. discriminate.
  - apply lookup_delete_eq.
Qed.

Lemma read_bruker_wavenumbers_witness :
  Samples.bruker_ok_result !! "wavenumber_begin" = Some (VFloat 700)
  /\ Samples.bruker_ok_result !! "wavenumber_step" = Some (VFloat 1)
  /\ Samples.bruker_ok_result !! "wavenumber_end" = Some (VFloat 799).
Proof.
  destruct (read_bruker_wavenumbers Samples.bruker_ok Samples.bruker_ok_result)
    as (n & bi & bd & ei & ed & li & ld & ri & rd & Hn & _ & Hbi & Hbd & Hei
        & Hed & _ & _ & _ & _ & _ & _ & _ & Hwb & Hstep & Hend & _).
  - apply is_Ok_get. vm_compute. reflexivity.
  - rewrite Hwb, Hstep, Hend. clear Hwb Hstep Hend.
    vm_compute in Hn, Hbi, Hbd, Hei, Hed.
    injection Hn as <-. injection Hbi as <-. injection Hbd as <-.
    injection Hei as <-. injection Hed as <-.
    repeat split; vm_compute; reflexivity.
Defined.

End BrukerFields.

(** ** [read_bruker]: the samples and the keys *)

Section BrukerData.

(** X15. Whenever [read_bruker] returns, [data] holds every complete
    4-byte group of the file after offset 1280 as a float32 sample, the
    [i]-th from bytes 1280 + 4i to 1280 + 4i + 3: the samples are not cut
    to the declared [n_points], and bytes left over at the end are
    ignored. *)
Theorem read_bruker_data (filename : list byte) (spec : dict) :
  Legacy.read_bruker filename = Ok spec ->
  exists samples,
    spec !! "data" = Some (VArray samples)
    /\ (1280 <= length filename)%nat
    /\ length samples = ((length filename - 1280) / 4)%nat
    /\ forall i, (i < length samples)%nat ->
         samples !! i
         = Some (float_of_ieee 8 23
                   (Struct.le_unsigned
                      (firstn 4 (skipn (1280 + 4 * i) filename)))).
Proof.
  intros H. apply read_bruker_shape in H
    as (hdr & f' & b_name & s_name & n & t & bi & bd & ei & ed & li & ld
        & ri & rd & x_wb & x_we & x_lf & x_res & wn_range & wn_step
        & wn_end' & res' & samples & fend & Hread & H).
  do 20 destruct H as [_ H]. destruct H as [Hdata ->].
  destruct (fromfile_f32_samples _ _ _ _ Hdata) as (_ & Hlen & Hi).
  exists samples. split; [apply lookup_insert_eq|].
  apply read_bin_block_pos in Hread as [_ Hsize].
  rewrite bruker_header_size in Hsize.
  cbn [open position content] in Hsize.
  change (skipn 0 filename) with filename in Hsize.
  split; [exact Hsize|]. split; [exact Hlen|].
  intros i Hlt. apply Hi. by rewrite <- Hlen.
Qed.

Lemma read_bruker_data_witness :
  exists samples,
    Samples.bruker_ok_result !! "data" = Some (VArray samples)
    /\ length samples = 3%nat.
Proof.
  destruct (read_bruker_data Samples.bruker_ok Samples.bruker_ok_result)
    as (samples & Hd & _ & Hlen & _).
  - apply is_Ok_get. vm_compute. reflexivity.
  - exists samples. split; [exact Hd|]. rewrite Hlen. reflexivity.
Defined.

(** X16. Whenever [read_bruker] returns, the result has exactly the keys
    listed: the header fields kept, the derived ones ([datetime_avg],
    [wavenumber_begin], [wavenumber_end], [laser_frequency],
    [resolution], [wavenumber_step], [data]), and none of the raw fields
    they are computed from ([n_points2], [date_block], [time_block] and
    the integer and decimal parts). *)
Theorem read_bruker_keys (filename : list byte) (spec : dict) (k : string) :
  Legacy.read_bruker filename = Ok spec ->
  is_Some (spec !! k)
  <-> k ∈ ["name"; "n_points"; "n_scan_forward"; "scale_factor"; "sn_ratio";
           "aperture_id"; "beamsplitter_id"; "filter_id"; "source_id";
           "correction_factor"; "sun_elevation"; "datetime_avg";
           "wavenumber_begin"; "wavenumber_end"; "laser_frequency";
           "resolution"; "wavenumber_step"; "data"].
Proof.
  intros H. apply read_bruker_shape in H
    as (hdr & f' & b_name & s_name & n & t & bi & bd & ei & ed & li & ld
        & ri & rd & x_wb & x_we & x_lf & x_res & wn_range & wn_step
        & wn_end' & res' & samples & fend & Hread & H).
  repeat match type of H with _ /\ _ => destruct H as [_ H] end. subst spec.
  rewrite <- elem_of_dom, <- (elem_of_list_to_set (C := gset string)).
  repeat (rewrite dom_insert_L || rewrite dom_delete_L).
  assert (Hlen : length (omap fst Iofmt.bruker_header_ffmt)
                 = values_count (layout Iofmt.bruker_header_ffmt))
    by (vm_compute; reflexivity).
  rewrite (header_dom _ _ _ _ Hread Hlen).
  match goal with
  | |- _ ∈ ?a <-> _ ∈ ?b => replace a with b; [reflexivity|]
  end.
  apply (bool_decide_unpack _). vm_compute. exact I.
Qed.

Lemma read_bruker_keys_witness :
  is_Some (Samples.bruker_ok_result !! "laser_frequency")
  /\ Samples.bruker_ok_result !! "date_block" = None.
Proof.
  assert (Hr : Legacy.read_bruker Samples.bruker_ok
               = Ok Samples.bruker_ok_result)
    by (apply is_Ok_get; vm_compute; reflexivity).
  split.
  - apply (read_bruker_keys _ _ "laser_frequency" Hr).
    apply (bool_decide_unpack _). vm_compute. exact I.
  - apply eq_None_not_Some. intros Hs.
    apply (read_bruker_keys _ _ "date_block" Hr) in Hs.
    revert Hs. apply (bool_decide_unpack (_ ∉ _)). vm_compute. exact I.
Defined.

End BrukerData.

(** ** [read_spec]: the header dates and truncated catalogs *)

Section SpecHeader.

(** One turn of the loop over the header keys, on a date key: the text
    parsed as a date when it has the format, else stripped. *)
Lemma spec_header_date_inv (header header' : dict) (k : string) :
  contains "created" k || contains "modified" k = true ->
  Legacy.spec_header_date header k = Ok header' ->
  exists bs s,
    header !! k = Some (VBytes bs) /\ decode bs = Ok s
    /\ header'
       = <[k := match Conv.strptime s "%d %b %Y %H:%M:%S" with
                | Ok t => VDatetime t
                | Raise _ => VStr (strip s)
                end]> header.
Proof.
  unfold Legacy.spec_header_date. intros -> H.
  apply bind_Ok in H as (v & Hv & H). apply getitem_Ok in Hv.
  destruct v as [| | |bs| | |];
    try (cbn [decode_value as_bytes bind is_ValueError] in H; discriminate).
  cbn [decode_value as_bytes bind] in H.
  destruct (decode bs) as [s|e] eqn:Hs.
  - cbn [bind] in H. exists bs, s. split; [exact Hv|]. split; [exact Hs|].
    destruct (Conv.strptime s _) as [t|e].
    + by apply Ok_inj in H as <-.
    + destruct (is_ValueError e); [|discriminate]. by apply Ok_inj in H as <-.
  - cbn [bind] in H. destruct (is_ValueError e); discriminate.
Qed.

(** X17. Whenever [read_spec] returns, each of the four date fields of
    the header ([created_pc], [modified_pc], [created_hp1000],
    [modified_hp1000]) is the datetime its text denotes in the format
    '%d %b %Y %H:%M:%S' when the text has that format, and the stripped
    text itself otherwise: a text that is no date is kept, not
    rejected. *)
Theorem read_spec_header_dates (filename : list byte) (header : dict)
    (records : list dict) (k : string) :
  Legacy.read_spec filename = Ok (header, records) ->
  k ∈ ["created_pc"; "modified_pc"; "created_hp1000"; "modified_hp1000"] ->
  exists bs s,
    field Iofmt.spec_header_ffmt filename k = Some (VBytes bs)
    /\ decode bs = Ok s
    /\ header !! k
       = Some (match Conv.strptime s "%d %b %Y %H:%M:%S" with
               | Ok t => VDatetime t
               | Raise _ => VStr (strip s)
               end).
Proof.
  unfold Legacy.read_spec. intros H Hk.
  apply bind_Ok in H as ([[hdr0 raw] fend] & Hread & H).
  apply bind_Ok in H as (header' & Hhd & H).
  apply bind_Ok in H as (records' & _ & H).
  apply Ok_inj in H. injection H as <- <-.
  unfold Legacy.spec_read in Hread.
  apply bind_Ok in Hread as ([h f1] & Hh & Hread).
  apply bind_Ok in Hread as (n & _ & Hread).
  apply bind_Ok in Hread as ([rs f2] & _ & Hread).
  apply Ok_inj in Hread. injection Hread as -> _ _.
  change (omap fst Iofmt.spec_header_ffmt)
    with ["n_records"; "created_pc"; "modified_pc"; "created_hp1000";
          "modified_hp1000"] in Hhd.
  cbn [foldM] in Hhd.
  apply bind_Ok in Hhd as (h1 & E1 & Hhd). cbn in E1. injection E1 as <-.
  apply bind_Ok in Hhd as (h2 & E2 & Hhd).
  apply bind_Ok in Hhd as (h3 & E3 & Hhd).
  apply bind_Ok in Hhd as (h4 & E4 & Hhd).
  apply bind_Ok in Hhd as (h5 & E5 & Hhd). apply Ok_inj in Hhd as <-.
  apply spec_header_date_inv in E2 as (b2 & s2 & L2 & D2 & ->); [|reflexivity].
  apply spec_header_date_inv in E3 as (b3 & s3 & L3 & D3 & ->); [|reflexivity].
  apply spec_header_date_inv in E4 as (b4 & s4 & L4 & D4 & ->); [|reflexivity].
  apply spec_header_date_inv in E5 as (b5 & s5 & L5 & D5 & ->); [|reflexivity].
  revert L3 L4 L5. lookup_through. intros L3 L4 L5.
  rewrite (field_of_header _ _ _ _ k Hh).
  repeat (apply elem_of_cons in Hk as [-> | Hk]);
    [..|by apply elem_of_nil in Hk].
  - exists b2, s2. lookup_through. auto.
  - exists b3, s3. lookup_through. auto.
  - exists b4, s4. lookup_through. auto.
  - exists b5, s5. lookup_through. auto.
Qed.

Lemma read_spec_header_dates_witness :
  Samples.spec_cafe_result.1 !! "created_pc"
    = Some (VDatetime (mk_datetime 2000 1 1 12 0 0 0))
  /\ Samples.spec_cafe_result.1 !! "modified_pc" = Some (VStr "not a date")
  /\ Samples.spec_cafe_result.1 !! "created_hp1000"
     = Some (VDatetime (mk_datetime 2000 1 12 1 0 0 0)).
Proof.
  assert (Hr : Legacy.read_spec Samples.spec_cafe
               = Ok (Samples.spec_cafe_result.1, Samples.spec_cafe_result.2)).
  { rewrite <- surjective_pairing. apply is_Ok_get. vm_compute. reflexivity. }
  split; [|split].
  - destruct (read_spec_header_dates _ _ _ "created_pc" Hr)
      as (bs & s & Hf & Hs & ->).
    + apply elem_of_cons. by left.
    + vm_compute in Hf. injection Hf as <-.
      vm_compute in Hs. injection Hs as <-. vm_compute. reflexivity.
  - destruct (read_spec_header_dates _ _ _ "modified_pc" Hr)
      as (bs & s & Hf & Hs & ->).
    + apply elem_of_cons. right. apply elem_of_cons. by left.
    + vm_compute in Hf. injection Hf as <-.
      vm_compute in Hs. injection Hs as <-. vm_compute. reflexivity.
  - destruct (read_spec_header_dates _ _ _ "created_hp1000" Hr)
      as (bs & s & Hf & Hs & ->).
    + do 2 (apply elem_of_cons; right). apply elem_of_cons. by left.
    + vm_compute in Hf. injection Hf as <-.
      vm_compute in Hs. injection Hs as <-. vm_compute. reflexivity.
Defined.

(** A run of record pairs needs 256 bytes per pair. *)
Lemma spec_records_short (n : nat) (f : file) :
  (length (skipn (position f) (content f)) < 2 * 128 * n)%nat ->
  Legacy.spec_records n f
  = Raise (StructError "unpack requires a buffer of the format's size").
Proof.
  revert f. induction n as [|n IH]; intros f Hlen; [lia|].
  cbn [Legacy.spec_records].
  set (rest := length (skipn (position f) (content f))) in *.
  destruct (le_lt_dec 128 rest) as [L1 | L1].
  - rewrite (read_bin_block_enough f _ _ spec_record_parse)
      by (rewrite spec_record_size; exact L1).
    cbn [bind]. rewrite spec_record_size.
    set (f1 := mk_file (content f) (position f + 128)).
    assert (R1 : length (skipn (position f1) (content f1)) = (rest - 128)%nat).
    { unfold f1, rest. cbn [position content]. rewrite !length_skipn. lia. }
    destruct (le_lt_dec 128 (rest - 128)) as [L2 | L2].
    + rewrite (read_bin_block_enough f1 _ _ spec_record_parse)
        by (rewrite spec_record_size, R1; exact L2).
      cbn [bind]. rewrite spec_record_size.
      rewrite IH; [reflexivity|].
      clear R1. subst f1 rest. cbn [position content].
      rewrite length_skipn in *. lia.
    + rewrite (read_bin_block_short f1 _ _ spec_record_parse)
        by (rewrite spec_record_size, R1; exact L2).
      reflexivity.
  - rewrite (read_bin_block_short f _ _ spec_record_parse)
      by (rewrite spec_record_size; exact L1).
    reflexivity.
Qed.

(** X18. A catalog whose header declares [n] records and that holds
    fewer than 128 + 256 * [n] bytes makes [read_spec] raise
    [struct.error]: a truncated catalog gives no partial result. *)
Theorem read_spec_truncated (filename : list byte) (n : Z) :
  field Iofmt.spec_header_ffmt filename "n_records" = Some (VInt n) ->
  (length filename < 128 + 2 * 128 * Z.to_nat n)%nat ->
  Legacy.read_spec filename
  = Raise (StructError "unpack requires a buffer of the format's size").
Proof.
  intros Hn Hlen. apply field_Some in Hn as (hdr & f' & Hread & Hn).
  unfold Legacy.read_spec, Legacy.spec_read. rewrite Hread. cbn [bind].
  unfold getitem. rewrite Hn. cbn [bind as_int].
  apply read_bin_block_pos in Hread as [-> Hsize].
  rewrite spec_header_size in *. cbn [open content position Nat.add] in *.
  change (skipn 0 filename) with filename in Hsize.
  rewrite spec_records_short; [reflexivity|].
  cbn [position content]. rewrite length_skipn. lia.
Qed.

Lemma read_spec_truncated_witness :
  Legacy.read_spec (firstn 800 Samples.spec_three)
  = Raise (StructError "unpack requires a buffer of the format's size").
Proof.
  apply (read_spec_truncated (firstn 800 Samples.spec_three) 3).
  - vm_compute. reflexivity.
  - rewrite length_firstn.
    assert (E : length Samples.spec_three = 896%nat) by (vm_compute; reflexivity).
    rewrite E. cbn. lia.
Defined.

End SpecHeader.

(** ** [read_spec]: the post-processing of a record, stage by stage *)

Section SpecRecordStages.

Lemma spec_parse_byte_inv (r r' : dict) (k : string) :
  Legacy.spec_parse_byte r k = Ok r' ->
  exists bs n,
    r !! k = Some (VBytes bs)
    /\ Io.bits_2_int (Io.bytes_2_bits bs false) false = Ok n
    /\ r' = <[k := VInt n]> (delete k r).
Proof.
  unfold Legacy.spec_parse_byte. intros H.
  apply bind_Ok in H as ([v d] & Hp & H). apply pop_Ok in Hp as [Hv ->].
  apply bind_Ok in H as (bs & Hb & H). destruct v; try discriminate.
  injection Hb as ->.
  apply bind_Ok in H as (n & Hn & H). apply Ok_inj in H as <-. eauto.
Qed.

Lemma spec_undefined_inv (r r' : dict) (k : string) (s : Z) :
  Legacy.spec_undefined r k s = Ok r' ->
  exists v,
    r !! k = Some v
    /\ r' = <[k := if eq_int v s then VFloat nan else v]> r.
Proof.
  unfold Legacy.spec_undefined. intros H.
  apply bind_Ok in H as (v & Hv & H). apply getitem_Ok in Hv.
  exists v. split; [exact Hv|].
  destruct (eq_int v s); apply Ok_inj in H as <-; [reflexivity|].
  symmetry. by apply insert_id.
Qed.

Lemma spec_scale_inv (r r' : dict) (k : string) (factor : value) :
  Legacy.spec_scale r k factor = Ok r' ->
  exists v v',
    r !! k = Some v /\ mul v factor = Ok v' /\ r' = <[k := v']> r.
Proof.
  unfold Legacy.spec_scale. intros H.
  apply bind_Ok in H as (v & Hv & H). apply getitem_Ok in Hv.
  apply bind_Ok in H as (v' & Hm & H). apply Ok_inj in H as <-. eauto.
Qed.

Lemma pop_list_3 (d d' : dict) (k1 k2 k3 : string) (vals : list value) :
  Legacy.pop_list d [k1; k2; k3] = Ok (vals, d') ->
  exists v1 v2 v3,
    vals = [v1; v2; v3] /\ d !! k1 = Some v1
    /\ delete k1 d !! k2 = Some v2
    /\ delete k2 (delete k1 d) !! k3 = Some v3
    /\ d' = delete k3 (delete k2 (delete k1 d)).
Proof.
  cbn [Legacy.pop_list]. intros H.
  apply bind_Ok in H as ([v1 d1] & H1 & H). apply pop_Ok in H1 as [H1 ->].
  apply bind_Ok in H as ([vs d2] & H2 & H).
  apply bind_Ok in H2 as ([v2 d3] & H2 & H3). apply pop_Ok in H2 as [H2 ->].
  apply bind_Ok in H3 as ([vs' d4] & H3 & H4).
  apply bind_Ok in H3 as ([v3 d5] & H3 & H5). apply pop_Ok in H3 as [H3 ->].
  cbn [bind] in H5. apply Ok_inj in H5. injection H5 as <- <-.
  apply Ok_inj in H4. injection H4 as <- <-.
  apply Ok_inj in H. injection H as <- <-.
  eauto 10.
Qed.

Lemma spec_datetime_inv (r r' : dict) (suffix : string) :
  Legacy.spec_datetime r suffix = Ok r' ->
  let ky := String.concat "_" ["year"; suffix] in
  let kd := String.concat "_" ["dayofyear"; suffix] in
  let kh := String.concat "_" ["hour"; suffix] in
  let kt := String.concat "_" ["datetime"; suffix] in
  exists y n hour t0 t,
    r !! ky = Some (VInt y) /\ delete ky r !! kd = Some (VInt n)
    /\ delete kd (delete ky r) !! kh = Some hour
    /\ Legacy.year_day (VInt y) (VInt n) = Ok t0
    /\ Legacy.plus_hours t0 hour = Ok t
    /\ r' = <[kt := VDatetime t]> (delete kh (delete kd (delete ky r))).
Proof.
  intros H ky kd kh kt. unfold Legacy.spec_datetime in H.
  apply bind_Ok in H as ([vals d] & Hp & H).
  cbn [map] in Hp. fold ky kd kh in Hp.
  apply pop_list_3 in Hp as (v1 & v2 & v3 & -> & H1 & H2 & H3 & ->).
  apply bind_Ok in H as (t0 & Ht0 & H).
  apply bind_Ok in H as (t & Ht & H). apply Ok_inj in H as <-.
  destruct (year_day_Ok _ _ _ Ht0) as (y & n & -> & -> & _).
  exists y, n, v3, t0, t. auto 10.
Qed.

Lemma spec_quality_inv (r r' : dict) :
  Legacy.spec_quality r = Ok r' ->
  exists (b0 b1 b2 b5 b6 b7 b8 b9 b10 b11 : bool) (n34 w : Z),
    is_Some (r !! "quality")
    /\ r'
       = <["weather_id" := VInt w]>
         (<["has_technical_problem" := VBool b11]>
         (<["has_fast_signal_variation" := VBool b10]>
         (<["has_slow_signal_variation" := VBool b9]>
         (<["has_pollution" := VBool b8]>
         (<["is_sun_centered" := VBool b7]>
         (<["has_bad_ils" := VBool b6]>
         (<["has_bad_sn_ratio" := VBool b5]>
         (<["fringing_level" := VInt n34]>
         (<["is_bad_zero" := VBool b2]>
         (<["is_mean_spectrum" := VBool b1]>
         (<["is_bad_spectrum" := VBool b0]>
         (delete "quality" r)))))))))))).
Proof.
  unfold Legacy.spec_quality. intros H.
  apply bind_Ok in H as ([q d] & Hp & H). apply pop_Ok in Hp as [Hq ->].
  apply bind_Ok in H as (bs & _ & H).
  apply bind_Ok in H as (b0 & _ & H).
  apply bind_Ok in H as (b1 & _ & H).
  apply bind_Ok in H as (b2 & _ & H).
  apply bind_Ok in H as (n34 & _ & H).
  apply bind_Ok in H as (b5 & _ & H).
  apply bind_Ok in H as (b6 & _ & H).
  apply bind_Ok in H as (b7 & _ & H).
  apply bind_Ok in H as (b8 & _ & H).
  apply bind_Ok in H as (b9 & _ & H).
  apply bind_Ok in H as (b10 & _ & H).
  apply bind_Ok in H as (b11 & _ & H).
  apply bind_Ok in H as (w & _ & H). apply Ok_inj in H as <-.
  exists b0, b1, b2, b5, b6, (negb b7), b8, b9, b10, b11, n34, w.
  split; [by eexists | reflexivity].
Qed.

(** The five stages of [spec_record] and the dictionary after each. *)
Lemma spec_record_stages (r0 r : dict) :
  Legacy.spec_record r0 = Ok r ->
  exists r1 r2 r3 r4,
    Legacy.spec_undefined_values r0 = Ok r1
    /\ (exists v1 v1' v2 v2' v3 v3' v4 v4' v5 v5' v6 v6' v7 v7' v8 v8',
          r1 !! "n_points_itf" = Some v1 /\ mul v1 (VInt 1000) = Ok v1'
          /\ r1 !! "n_points_fft" = Some v2 /\ mul v2 (VInt 1000) = Ok v2'
          /\ r1 !! "resistance" = Some v3 /\ mul v3 (VFloat 1e3) = Ok v3'
          /\ r1 !! "temperature" = Some v4 /\ mul v4 (VFloat 0.1) = Ok v4'
          /\ r1 !! "pressure" = Some v5 /\ mul v5 (VFloat 0.1) = Ok v5'
          /\ r1 !! "tropopause_height" = Some v6
          /\ mul v6 (VFloat 0.1) = Ok v6'
          /\ r1 !! "relative_humidity" = Some v7
          /\ mul v7 (VFloat 1) = Ok v7'
          /\ r1 !! "wavenumber_step" = Some v8
          /\ mul v8 (VFloat 1e-3) = Ok v8'
          /\ r2 = <["wavenumber_step" := v8']>
                  (<["relative_humidity" := v7']>
                  (<["tropopause_height" := v6']>
                  (<["pressure" := v5']>
                  (<["temperature" := v4']>
                  (<["resistance" := v3']>
                  (<["n_points_fft" := v2']>
                  (<["n_points_itf" := v1']> r1))))))))
    /\ foldM Legacy.spec_datetime r2 ["avg"; "begin"; "end"] = Ok r3
    /\ Legacy.decode_strip r3 "name" = Ok r4
    /\ Legacy.spec_quality r4 = Ok r.
Proof.
  unfold Legacy.spec_record. intros H.
  apply bind_Ok in H as (r1 & H1 & H).
  apply bind_Ok in H as (a1 & E1 & H).
  apply spec_scale_inv in E1 as (v1 & v1' & L1 & M1 & ->).
  apply bind_Ok in H as (a2 & E2 & H).
  apply spec_scale_inv in E2 as (v2 & v2' & L2 & M2 & ->).
  apply bind_Ok in H as (a3 & E3 & H).
  apply spec_scale_inv in E3 as (v3 & v3' & L3 & M3 & ->).
  apply bind_Ok in H as (a4 & E4 & H).
  apply spec_scale_inv in E4 as (v4 & v4' & L4 & M4 & ->).
  apply bind_Ok in H as (a5 & E5 & H).
  apply spec_scale_inv in E5 as (v5 & v5' & L5 & M5 & ->).
  apply bind_Ok in H as (a6 & E6 & H).
  apply spec_scale_inv in E6 as (v6 & v6' & L6 & M6 & ->).
  apply bind_Ok in H as (a7 & E7 & H).
  apply spec_scale_inv in E7 as (v7 & v7' & L7 & M7 & ->).
  apply bind_Ok in H as (a8 & E8 & H).
  apply spec_scale_inv in E8 as (v8 & v8' & L8 & M8 & ->).
  apply bind_Ok in H as (r3 & H3 & H).
  apply bind_Ok in H as (r4 & H4 & H).
  revert L2 L3 L4 L5 L6 L7 L8. lookup_through. intros L2 L3 L4 L5 L6 L7 L8.
  eexists r1, _, r3, r4. split; [exact H1|]. split; [|eauto].
  exists v1, v1', v2, v2', v3, v3', v4, v4', v5, v5', v6, v6', v7, v7',
    v8, v8'. auto 20.
Qed.

End SpecRecordStages.

Section SpecRecordShape.

Lemma spec_undefined_values_inv (r0 r1 : dict) :
  Legacy.spec_undefined_values r0 = Ok r1 ->
  exists (bh bz : list byte) (nh nz : Z) (vt vp : value),
    r0 !! "relative_humidity" = Some (VBytes bh)
    /\ Io.bits_2_int (Io.bytes_2_bits bh false) false = Ok nh
    /\ r0 !! "tropopause_height" = Some (VBytes bz)
    /\ Io.bits_2_int (Io.bytes_2_bits bz false) false = Ok nz
    /\ r0 !! "temperature" = Some vt
    /\ r0 !! "pressure" = Some vp
    /\ r1
       = <["tropopause_height" :=
             if eq_int (VInt nz) (-9) then VFloat nan else VInt nz]>
         (<["relative_humidity" :=
              if eq_int (VInt nh) (-99) then VFloat nan else VInt nh]>
         (<["pressure" := if eq_int vp (-9999) then VFloat nan else vp]>
         (<["temperature" := if eq_int vt (-9999) then VFloat nan else vt]>
         (<["tropopause_height" := VInt nz]>
         (delete "tropopause_height"
         (<["relative_humidity" := VInt nh]>
         (delete "relative_humidity" r0))))))).
Proof.
  unfold Legacy.spec_undefined_values. intros H.
  apply bind_Ok in H as (a1 & E1 & H).
  apply spec_parse_byte_inv in E1 as (bh & nh & Lh & Nh & ->).
  apply bind_Ok in H as (a2 & E2 & H).
  apply spec_parse_byte_inv in E2 as (bz & nz & Lz & Nz & ->).
  apply bind_Ok in H as (a3 & E3 & H).
  apply spec_undefined_inv in E3 as (vt & Lt & ->).
  apply bind_Ok in H as (a4 & E4 & H).
  apply spec_undefined_inv in E4 as (vp & Lp & ->).
  apply bind_Ok in H as (a5 & E5 & H).
  apply spec_undefined_inv in E5 as (vh & Lh' & ->).
  apply spec_undefined_inv in H as (vz & Lz' & ->).
  revert Lz Lt Lp Lh' Lz'. lookup_through.
  intros Lz Lt Lp [= <-] [= <-].
  exists bh, bz, nh, nz, vt, vp. auto 10.
Qed.

(** The last three stages of [spec_record]: the three datetimes, the
    name and the quality flags. *)
Lemma spec_record_tail (r2 r3 r4 r : dict) :
  foldM Legacy.spec_datetime r2 ["avg"; "begin"; "end"] = Ok r3 ->
  Legacy.decode_strip r3 "name" = Ok r4 ->
  Legacy.spec_quality r4 = Ok r ->
  exists (ya na yb nb ye ne : Z) (ha hb he : value)
         (ta0 ta tb0 tb te0 te : datetime) (s_name : string)
         (b0 b1 b2 b5 b6 b7 b8 b9 b10 b11 : bool) (n34 w : Z),
    r2 !! "year_avg" = Some (VInt ya)
    /\ r2 !! "dayofyear_avg" = Some (VInt na)
    /\ r2 !! "hour_avg" = Some ha
    /\ Legacy.year_day (VInt ya) (VInt na) = Ok ta0
    /\ Legacy.plus_hours ta0 ha = Ok ta
    /\ r2 !! "year_begin" = Some (VInt yb)
    /\ r2 !! "dayofyear_begin" = Some (VInt nb)
    /\ r2 !! "hour_begin" = Some hb
    /\ Legacy.year_day (VInt yb) (VInt nb) = Ok tb0
    /\ Legacy.plus_hours tb0 hb = Ok tb
    /\ r2 !! "year_end" = Some (VInt ye)
    /\ r2 !! "dayofyear_end" = Some (VInt ne)
    /\ r2 !! "hour_end" = Some he
    /\ Legacy.year_day (VInt ye) (VInt ne) = Ok te0
    /\ Legacy.plus_hours te0 he = Ok te
    /\ is_Some (r2 !! "name") /\ is_Some (r2 !! "quality")
    /\ r
       = <["weather_id" := VInt w]>
         (<["has_technical_problem" := VBool b11]>
         (<["has_fast_signal_variation" := VBool b10]>
         (<["has_slow_signal_variation" := VBool b9]>
         (<["has_pollution" := VBool b8]>
         (<["is_sun_centered" := VBool b7]>
         (<["has_bad_ils" := VBool b6]>
         (<["has_bad_sn_ratio" := VBool b5]>
         (<["fringing_level" := VInt n34]>
         (<["is_bad_zero" := VBool b2]>
         (<["is_mean_spectrum" := VBool b1]>
         (<["is_bad_spectrum" := VBool b0]>
         (delete "quality"
         (<["name" := VStr s_name]>
         (<["datetime_end" := VDatetime te]>
         (delete "hour_end" (delete "dayofyear_end" (delete "year_end"
         (<["datetime_begin" := VDatetime tb]>
         (delete "hour_begin" (delete "dayofyear_begin" (delete "year_begin"
         (<["datetime_avg" := VDatetime ta]>
         (delete "hour_avg" (delete "dayofyear_avg" (delete "year_avg"
          r2))))))))))))))))))))))))).
Proof.
  intros H3 H4 H5. cbn [foldM] in H3.
  apply bind_Ok in H3 as (a1 & E1 & H3).
  apply spec_datetime_inv in E1
    as (ya & na & ha & ta0 & ta & Ya & Na & Ha & Da & Pa & ->).
  apply bind_Ok in H3 as (a2 & E2 & H3).
  apply spec_datetime_inv in E2
    as (yb & nb & hb & tb0 & tb & Yb & Nb & Hb & Db & Pb & ->).
  apply bind_Ok in H3 as (a3 & E3 & H3).
  apply spec_datetime_inv in E3
    as (ye & ne & he & te0 & te & Ye & Ne & He & De & Pe & ->).
  apply Ok_inj in H3 as <-.
  cbn [String.concat append] in *.
  apply decode_strip_Ok in H4 as (bn & sn & Ln & _ & ->).
  apply spec_quality_inv in H5
    as (b0 & b1 & b2 & b5 & b6 & b7 & b8 & b9 & b10 & b11 & n34 & w & Lq & ->).
  revert Na Ha Yb Nb Hb Ye Ne He Ln Lq. lookup_through.
  intros Na Ha Yb Nb Hb Ye Ne He Ln Lq.
  exists ya, na, yb, nb, ye, ne, ha, hb, he, ta0, ta, tb0, tb, te0, te,
    (strip sn), b0, b1, b2, b5, b6, b7, b8, b9, b10, b11, n34, w.
  repeat split; try assumption; try reflexivity; by eexists.
Qed.

Lemma spec_record_keys_NoDup : NoDup (omap fst Iofmt.spec_record_ffmt).
Proof. apply (bool_decide_unpack _). vm_compute. exact I. Qed.

Lemma spec_record_layout :
  layout Iofmt.spec_record_ffmt
  = ltac:(let x := eval vm_compute in (layout Iofmt.spec_record_ffmt) in
          exact x).
Proof. vm_compute. reflexivity. Qed.

Lemma length_1_inv {A : Type} (l : list A) :
  length l = 1%nat -> exists a, l = [a].
Proof. destruct l as [|a [|b l]]; try discriminate. eauto. Qed.

(** The types of the raw fields of a record that the post-processing
    computes from. *)
Lemma spec_record_raw (f f' : file) (r0 : dict) :
  Io.read_bin_block f Iofmt.spec_record_ffmt None "<" = Ok (r0, f') ->
  Forall (fun k => exists x, r0 !! k = Some (VFloat x))
    ["hour_avg"; "hour_begin"; "hour_end"; "wavenumber_step"]
  /\ Forall (fun k => exists n, r0 !! k = Some (VInt n))
       ["n_points_itf"; "n_points_fft"; "resistance"; "temperature";
        "pressure"]
  /\ Forall (fun k => exists b, r0 !! k = Some (VBytes [b]))
       ["relative_humidity"; "tropopause_height"].
Proof.
  intros H.
  pose proof (proj1 (header_lookup _ _ _ _ 0 "name" (VInt 0) H
                       spec_record_keys_NoDup eq_refl)) as Hlen.
  rewrite spec_record_layout in Hlen.
  change (Struct.items_size _) with 128%nat in Hlen.
  split; [|split];
    repeat (apply List.Forall_cons; [|]); try apply List.Forall_nil.
  - eexists.
    refine (proj2 (header_lookup _ _ _ _ 3 "hour_avg" _ H spec_record_keys_NoDup eq_refl) _).
    rewrite spec_record_layout. header_value.
  - eexists.
    refine (proj2 (header_lookup _ _ _ _ 1 "hour_begin" _ H spec_record_keys_NoDup eq_refl) _).
    rewrite spec_record_layout. header_value.
  - eexists.
    refine (proj2 (header_lookup _ _ _ _ 2 "hour_end" _ H spec_record_keys_NoDup eq_refl) _).
    rewrite spec_record_layout. header_value.
  - eexists.
    refine (proj2 (header_lookup _ _ _ _ 40 "wavenumber_step" _ H spec_record_keys_NoDup eq_refl) _).
    rewrite spec_record_layout. header_value.
  - eexists.
    refine (proj2 (header_lookup _ _ _ _ 9 "n_points_itf" _ H spec_record_keys_NoDup eq_refl) _).
    rewrite spec_record_layout. header_value.
  - eexists.
    refine (proj2 (header_lookup _ _ _ _ 10 "n_points_fft" _ H spec_record_keys_NoDup eq_refl) _).
    rewrite spec_record_layout. header_value.
  - eexists.
    refine (proj2 (header_lookup _ _ _ _ 20 "resistance" _ H spec_record_keys_NoDup eq_refl) _).
    rewrite spec_record_layout. header_value.
  - eexists.
    refine (proj2 (header_lookup _ _ _ _ 32 "temperature" _ H spec_record_keys_NoDup eq_refl) _).
    rewrite spec_record_layout. header_value.
  - eexists.
    refine (proj2 (header_lookup _ _ _ _ 33 "pressure" _ H spec_record_keys_NoDup eq_refl) _).
    rewrite spec_record_layout. header_value.
  - set (data := firstn 128 (skipn (position f) (content f))) in *.
    destruct (length_1_inv (firstn 1 (firstn 1 (skipn 102 data)))) as [b Hb].
    { rewrite !length_firstn, length_skipn. lia. }
    exists b. rewrite <- Hb.
    refine (proj2 (header_lookup _ _ _ _ 34 "relative_humidity" _ H spec_record_keys_NoDup eq_refl) _).
    rewrite spec_record_layout.
    change (Struct.items_size _) with 128%nat. fold data.
    cbn [Struct.unpack_items Struct.unpack_item Struct.item_size fst snd
         Struct.width Nat.mul Nat.add Struct.chunks map app
         Struct.decode1 lookup list_lookup Struct.items_size foldr].
    rewrite !skipn_skipn. reflexivity.
  - set (data := firstn 128 (skipn (position f) (content f))) in *.
    destruct (length_1_inv (firstn 1 (firstn 1 (skipn 103 data)))) as [b Hb].
    { rewrite !length_firstn, length_skipn. lia. }
    exists b. rewrite <- Hb.
    refine (proj2 (header_lookup _ _ _ _ 35 "tropopause_height" _ H spec_record_keys_NoDup eq_refl) _).
    rewrite spec_record_layout.
    change (Struct.items_size _) with 128%nat. fold data.
    cbn [Struct.unpack_items Struct.unpack_item Struct.item_size fst snd
         Struct.width Nat.mul Nat.add Struct.chunks map app
         Struct.decode1 lookup list_lookup Struct.items_size foldr].
    rewrite !skipn_skipn. reflexivity.
Qed.

End SpecRecordShape.

(** ** [read_spec]: what a post-processed record holds *)

Section SpecRecord.

Lemma bits_2_int_byte (b : byte) :
  Io.bits_2_int (Io.bytes_2_bits [b] false) false
  = Ok (be_value (lsb_bits b)).
Proof.
  rewrite bytes_2_bits_cons.
  change (Io.bytes_2_bits [] false) with (@nil Z). rewrite app_nil_r.
  unfold byte_bits. rewrite bits_2_int_be; [reflexivity | apply lsb_bits_01 |].
  discriminate.
Qed.

Lemma mul_int_float (n : Z) (c : float) (v : value) :
  mul (VInt n) (VFloat c) = Ok v -> v = VFloat (float_of_Z n * c)%float.
Proof.
  cbn [mul as_float]. unfold float_of_int.
  destruct (PrimFloat.is_infinity (float_of_Z n)); [discriminate|].
  cbn [bind]. intros H. by apply Ok_inj in H as <-.
Qed.

(** X19. For a record read from a catalog and post-processed, each of
    [datetime_avg], [datetime_begin] and [datetime_end] is January 1 of
    the stored year (which lies in 1..9999) plus (day of year - 1) days
    plus the timedelta of hour * 3600 seconds, the hour being the stored
    float; the three raw fields it is built from are gone from the
    record.  ([datetime_us] counts microseconds from the start of the
    calendar.) *)
Theorem spec_record_datetimes (f f' : file) (r0 r : dict) (suffix : string) :
  Io.read_bin_block f Iofmt.spec_record_ffmt None "<" = Ok (r0, f') ->
  Legacy.spec_record r0 = Ok r ->
  suffix ∈ ["avg"; "begin"; "end"] ->
  exists (y n : Z) (h : float) (t : datetime) (offset : timedelta),
    r0 !! ("year_" ++ suffix)%string = Some (VInt y)
    /\ r0 !! ("dayofyear_" ++ suffix)%string = Some (VInt n)
    /\ r0 !! ("hour_" ++ suffix)%string = Some (VFloat h)
    /\ 1 <= y <= 9999
    /\ timedelta_seconds (h * 3600)%float = Ok offset
    /\ r !! ("datetime_" ++ suffix)%string = Some (VDatetime t)
    /\ datetime_us t
       = (ymd2ord y 1 1 + (n - 1)) * us_per_day + total_us offset
    /\ r !! ("year_" ++ suffix)%string = None
    /\ r !! ("dayofyear_" ++ suffix)%string = None
    /\ r !! ("hour_" ++ suffix)%string = None.
Proof.
  intros Hread H Hs.
  destruct (spec_record_raw _ _ _ Hread) as (Hfl & _ & _).
  apply Forall_cons in Hfl as [[xa Xa] Hfl].
  apply Forall_cons in Hfl as [[xb Xb] Hfl].
  apply Forall_cons in Hfl as [[xe Xe] _].
  apply spec_record_stages in H as (r1 & r2 & r3 & r4 & H1 & H2 & H3 & H4 & H5).
  apply spec_undefined_values_inv in H1
    as (bh & bz & nh & nz & vt & vp & _ & _ & _ & _ & _ & _ & ->).
  destruct H2 as (v1 & v1' & v2 & v2' & v3 & v3' & v4 & v4' & v5 & v5' & v6
                  & v6' & v7 & v7' & v8 & v8' & H2).
  repeat match type of H2 with _ /\ _ => destruct H2 as [_ H2] end.
  subst r2.
  destruct (spec_record_tail _ _ _ _ H3 H4 H5)
    as (ya & na & yb & nb & ye & ne & ha & hb & he & ta0 & ta & tb0 & tb
        & te0 & te & s_name & b0 & b1 & b2 & b5 & b6 & b7 & b8 & b9 & b10
        & b11 & n34 & w & Ya & Na & Ha & Da & Pa & Yb & Nb & Hb & Db & Pb
        & Ye & Ne & He & De & Pe & _ & _ & ->).
  revert Ya Na Ha Yb Nb Hb Ye Ne He. lookup_through.
  intros Ya Na Ha Yb Nb Hb Ye Ne He.
  rewrite Xa in Ha. injection Ha as <-.
  rewrite Xb in Hb. injection Hb as <-.
  rewrite Xe in He. injection He as <-.
  assert (Hplus : forall t0 x t,
             Legacy.plus_hours t0 (VFloat x) = Ok t ->
             exists offset, timedelta_seconds (x * 3600)%float = Ok offset
                            /\ datetime_us t = datetime_us t0 + total_us offset).
  { intros t0 x t Hp. unfold Legacy.plus_hours in Hp.
    apply bind_Ok in Hp as (secs & Hsec & Hp).
    apply bind_Ok in Hp as (offset & Ho & Hp).
    cbn in Hsec. apply Ok_inj in Hsec as <-.
    cbn [Legacy.timedelta_seconds_of] in Ho.
    exists offset. split; [exact Ho|]. by apply datetime_add_us. }
  assert (Hday : forall y n t0,
             Legacy.year_day (VInt y) (VInt n) = Ok t0 ->
             1 <= y <= 9999
             /\ datetime_us t0 = (ymd2ord y 1 1 + (n - 1)) * us_per_day).
  { intros y n t0 Hd.
    apply year_day_Ok in Hd as (? & ? & [= <-] & [= <-] & Hy & _ & Hd).
    split; [exact Hy|]. apply datetime_add_us in Hd. rewrite Hd.
    unfold datetime_us.
    cbn [year month day hour minute second microsecond total_us]. lia. }
  repeat (apply elem_of_cons in Hs as [-> | Hs]);
    [..|by apply elem_of_nil in Hs]; cbn [append].
  - destruct (Hplus _ _ _ Pa) as (offset & Ho & Ua).
    destruct (Hday _ _ _ Da) as [Ry U0].
    exists ya, na, xa, ta, offset.
    repeat split; try assumption; try lia; lookup_through;
      first [reflexivity | apply lookup_delete_eq].
  - destruct (Hplus _ _ _ Pb) as (offset & Ho & Ub).
    destruct (Hday _ _ _ Db) as [Ry U0].
    exists yb, nb, xb, tb, offset.
    repeat split; try assumption; try lia; lookup_through;
      first [reflexivity | apply lookup_delete_eq].
  - destruct (Hplus _ _ _ Pe) as (offset & Ho & Ue).
    destruct (Hday _ _ _ De) as [Ry U0].
    exists ye, ne, xe, te, offset.
    repeat split; try assumption; try lia; lookup_through;
      first [reflexivity | apply lookup_delete_eq].
Qed.

Lemma rec_a_read_Ok :
  Io.read_bin_block (open Samples.rec_a) Iofmt.spec_record_ffmt None "<"
  = Ok (Samples.rec_a_read.1, Samples.rec_a_read.2).
Proof.
  rewrite <- surjective_pairing. apply is_Ok_get. vm_compute. reflexivity.
Qed.

Lemma rec_a_result_Ok :
  Legacy.spec_record Samples.rec_a_read.1 = Ok Samples.rec_a_result.
Proof. apply is_Ok_get. vm_compute. reflexivity. Qed.

Lemma spec_record_datetimes_witness :
  exists t,
    Samples.rec_a_result !! "datetime_avg" = Some (VDatetime t)
    /\ datetime_us t = ymd2ord 2000 1 1 * us_per_day.
Proof.
  destruct (spec_record_datetimes _ _ _ _ "avg" rec_a_read_Ok rec_a_result_Ok)
    as (y & n & h & t & offset & Hy & Hn & Hh & _ & Ho & Ht & Hus & _).
  - apply elem_of_cons. by left.
  - exists t. split; [exact Ht|]. rewrite Hus. clear Hus Ht.
    vm_compute in Hy, Hn, Hh. injection Hy as <-. injection Hn as <-.
    injection Hh as <-. vm_compute in Ho. injection Ho as <-.
    reflexivity.
Defined.

(** X20. For a record read from a catalog and post-processed: the two
    point counts are the stored integers times 1000 and stay integers;
    [resistance] is the stored integer times 1e3, [temperature] and
    [pressure] are NaN when the stored integer is -9999 and the stored
    integer times 0.1 otherwise, [tropopause_height] and
    [relative_humidity] are the stored byte, read with its first bit
    most significant, times 0.1 and times 1.0, and [wavenumber_step] is
    the stored float times 1e-3, all of these binary64 floats. *)
Theorem spec_record_scaled (f f' : file) (r0 r : dict) :
  Io.read_bin_block f Iofmt.spec_record_ffmt None "<" = Ok (r0, f') ->
  Legacy.spec_record r0 = Ok r ->
  exists (itf fft res t p : Z) (h z : byte) (step : float),
    r0 !! "n_points_itf" = Some (VInt itf)
    /\ r0 !! "n_points_fft" = Some (VInt fft)
    /\ r0 !! "resistance" = Some (VInt res)
    /\ r0 !! "temperature" = Some (VInt t)
    /\ r0 !! "pressure" = Some (VInt p)
    /\ r0 !! "relative_humidity" = Some (VBytes [h])
    /\ r0 !! "tropopause_height" = Some (VBytes [z])
    /\ r0 !! "wavenumber_step" = Some (VFloat step)
    /\ r !! "n_points_itf" = Some (VInt (itf * 1000))
    /\ r !! "n_points_fft" = Some (VInt (fft * 1000))
    /\ r !! "resistance" = Some (VFloat (float_of_Z res * 1e3))
    /\ r !! "temperature"
       = Some (VFloat (if t =? -9999 then nan else float_of_Z t * 0.1))
    /\ r !! "pressure"
       = Some (VFloat (if p =? -9999 then nan else float_of_Z p * 0.1))
    /\ r !! "tropopause_height"
       = Some (VFloat (float_of_Z (be_value (lsb_bits z)) * 0.1))
    /\ r !! "relative_humidity"
       = Some (VFloat (float_of_Z (be_value (lsb_bits h)) * 1))
    /\ r !! "wavenumber_step" = Some (VFloat (step * 1e-3)).
Proof.
  intros Hread H.
  destruct (spec_record_raw _ _ _ Hread) as (Hfl & Hint & Hby).
  apply Forall_cons in Hfl as [_ Hfl]. apply Forall_cons in Hfl as [_ Hfl].
  apply Forall_cons in Hfl as [_ Hfl].
  apply Forall_cons in Hfl as [[step Xs] _].
  apply Forall_cons in Hint as [[itf Xi] Hint].
  apply Forall_cons in Hint as [[fft Xf] Hint].
  apply Forall_cons in Hint as [[res Xr] Hint].
  apply Forall_cons in Hint as [[t Xt] Hint].
  apply Forall_cons in Hint as [[p Xp] _].
  apply Forall_cons in Hby as [[h Xh] Hby].
  apply Forall_cons in Hby as [[z Xz] _].
  apply spec_record_stages in H as (r1 & r2 & r3 & r4 & H1 & H2 & H3 & H4 & H5).
  apply spec_undefined_values_inv in H1
    as (bh & bz & nh & nz & vt & vp & Lh & Nh & Lz & Nz & Lt & Lp & ->).
  rewrite Xh in Lh. injection Lh as <-.
  rewrite Xz in Lz. injection Lz as <-.
  rewrite Xt in Lt. injection Lt as <-.
  rewrite Xp in Lp. injection Lp as <-.
  rewrite bits_2_int_byte in Nh, Nz.
  apply Ok_inj in Nh as <-. apply Ok_inj in Nz as <-.
  pose proof (be_value_lsb_bits_range h) as Rh.
  pose proof (be_value_lsb_bits_range z) as Rz.
  cbn [eq_int] in H2.
  replace (be_value (lsb_bits h) =? -99) with false in H2
    by (symmetry; apply Z.eqb_neq; lia).
  replace (be_value (lsb_bits z) =? -9) with false in H2
    by (symmetry; apply Z.eqb_neq; lia).
  destruct H2 as (v1 & v1' & v2 & v2' & v3 & v3' & v4 & v4' & v5 & v5' & v6
                  & v6' & v7 & v7' & v8 & v8' & L1 & M1 & L2 & M2 & L3 & M3
                  & L4 & M4 & L5 & M5 & L6 & M6 & L7 & M7 & L8 & M8 & ->).
  revert L1 L2 L3 L4 L5 L6 L7 L8. lookup_through.
  rewrite Xi, Xf, Xr, Xs.
  intros [= <-] [= <-] [= <-] [= <-] [= <-] [= <-] [= <-] [= <-].
  cbn [mul] in M1, M2. apply Ok_inj in M1 as <-. apply Ok_inj in M2 as <-.
  apply mul_int_float in M3 as ->.
  apply mul_int_float in M6 as ->.
  apply mul_int_float in M7 as ->.
  cbn [mul as_float bind] in M8. apply Ok_inj in M8 as <-.
  assert (E4 : v4' = VFloat (if t =? -9999 then nan
                             else float_of_Z t * 0.1)).
  { destruct (t =? -9999).
    - cbn [mul as_float bind] in M4. apply Ok_inj in M4.
      rewrite <- M4. reflexivity.
    - by apply mul_int_float in M4. }
  assert (E5 : v5' = VFloat (if p =? -9999 then nan
                             else float_of_Z p * 0.1)).
  { destruct (p =? -9999).
    - cbn [mul as_float bind] in M5. apply Ok_inj in M5.
      rewrite <- M5. reflexivity.
    - by apply mul_int_float in M5. }
  subst v4' v5'. clear M4 M5.
  destruct (spec_record_tail _ _ _ _ H3 H4 H5)
    as (ya & na & yb & nb & ye & ne & ha & hb & he & ta0 & ta & tb0 & tb
        & te0 & te & s_name & b0 & b1 & b2 & b5 & b6 & b7 & b8 & b9 & b10
        & b11 & n34 & w & Htail).
  repeat match type of Htail with _ /\ _ => destruct Htail as [_ Htail] end.
  subst r.
  exists itf, fft, res, t, p, h, z, step.
  repeat split; try assumption; lookup_through; reflexivity.
Qed.

Lemma spec_record_scaled_witness :
  Samples.rec_a_result !! "temperature" = Some (VFloat nan)
  /\ Samples.rec_a_result !! "relative_humidity" = Some (VFloat 185).
Proof.
  destruct (spec_record_scaled _ _ _ _ rec_a_read_Ok rec_a_result_Ok)
    as (itf & fft & res & t & p & h & z & step & _ & _ & _ & Ht & _ & Hh
        & _ & _ & _ & _ & _ & Rt & _ & _ & Rh & _).
  rewrite Rt, Rh. clear Rt Rh.
  vm_compute in Ht, Hh. injection Ht as <-. injection Hh as <-.
  split; vm_compute; reflexivity.
Defined.

(** X21. A record read from a catalog and post-processed has exactly
    the keys listed: the fields kept or rescaled in place, the three
    datetimes and the twelve entries decoded from the quality field;
    the year, day-of-year and hour fields and [quality] itself are
    gone. *)
Theorem spec_record_keys (f f' : file) (r0 r : dict) (k : string) :
  Io.read_bin_block f Iofmt.spec_record_ffmt None "<" = Ok (r0, f') ->
  Legacy.spec_record r0 = Ok r ->
  is_Some (r !! k)
  <-> k ∈ ["name"; "sun_elevation"; "air_mass"; "mec_velocity";
           "filter_io_ratio"; "sampling_frequency"; "n_points_itf";
           "n_points_fft"; "source_id"; "detector_id"; "beamsplitter_id";
           "filter_id"; "n_scan_forward"; "n_scan_backward"; "sn_ratio";
           "aperture"; "detector_potential"; "resistance"; "tape_id";
           "max_transmittance"; "band_id"; "rms_noise"; "temperature";
           "pressure"; "relative_humidity"; "tropopause_height";
           "wavenumber_begin"; "wavenumber_end"; "n_points"; "resolution";
           "wavenumber_step"; "datetime_avg"; "datetime_begin";
           "datetime_end"; "is_bad_spectrum"; "is_mean_spectrum";
           "is_bad_zero"; "fringing_level"; "has_bad_sn_ratio";
           "has_bad_ils"; "is_sun_centered"; "has_pollution";
           "has_slow_signal_variation"; "has_fast_signal_variation";
           "has_technical_problem"; "weather_id"].
Proof.
  intros Hread H.
  apply spec_record_stages in H as (r1 & r2 & r3 & r4 & H1 & H2 & H3 & H4 & H5).
  apply spec_undefined_values_inv in H1
    as (bh & bz & nh & nz & vt & vp & _ & _ & _ & _ & _ & _ & ->).
  destruct H2 as (v1 & v1' & v2 & v2' & v3 & v3' & v4 & v4' & v5 & v5' & v6
                  & v6' & v7 & v7' & v8 & v8' & H2).
  repeat match type of H2 with _ /\ _ => destruct H2 as [_ H2] end.
  subst r2.
  destruct (spec_record_tail _ _ _ _ H3 H4 H5)
    as (ya & na & yb & nb & ye & ne & ha & hb & he & ta0 & ta & tb0 & tb
        & te0 & te & s_name & b0 & b1 & b2 & b5 & b6 & b7 & b8 & b9 & b10
        & b11 & n34 & w & Htail).
  repeat match type of Htail with _ /\ _ => destruct Htail as [_ Htail] end.
  subst r.
  rewrite <- elem_of_dom, <- (elem_of_list_to_set (C := gset string)).
  repeat (rewrite dom_insert_L || rewrite dom_delete_L).
  assert (Hlen : length (omap fst Iofmt.spec_record_ffmt)
                 = values_count (layout Iofmt.spec_record_ffmt))
    by (vm_compute; reflexivity).
  rewrite (header_dom _ _ _ _ Hread Hlen).
  match goal with
  | |- _ ∈ ?a <-> _ ∈ ?b => replace a with b; [reflexivity|]
  end.
  apply (bool_decide_unpack _). vm_compute. exact I.
Qed.

Lemma spec_record_keys_witness :
  is_Some (Samples.rec_a_result !! "weather_id")
  /\ Samples.rec_a_result !! "quality" = None.
Proof.
  split.
  - apply (spec_record_keys _ _ _ _ "weather_id" rec_a_read_Ok rec_a_result_Ok).
    apply (bool_decide_unpack _). vm_compute. exact I.
  - apply eq_None_not_Some. intros Hs.
    apply (spec_record_keys _ _ _ _ "quality" rec_a_read_Ok rec_a_result_Ok)
      in Hs.
    revert Hs. apply (bool_decide_unpack (_ ∉ _)). vm_compute. exact I.
Defined.

End SpecRecord.

(** ** [read_str_block] on the Rinsland header *)

Section RegexGroups.
Context {R : Type}.

Lemma try_longest_Some (lo extra : nat) (s : list Z)
    (k : list Z -> option R) (x : R) :
  Re.try_longest lo extra s k = Some x -> exists s', k s' = Some x.
Proof.
  induction extra as [|extra IH]; cbn [Re.try_longest];
    destruct (k (skipn _ s)) eqn:E; intros H; try discriminate;
    try (injection H as <-; eauto); auto.
Qed.

Lemma group_free_outside (r : Re.re) :
  group_names r = [] -> groups_outside_alt r = true.
Proof.
  induction r as [| | | |r1 IH1 r2 IH2|r1 IH1 r2 IH2|name r1 IH];
    cbn [group_names groups_outside_alt]; intros H; try reflexivity.
  - apply app_eq_nil in H as [H1 H2]. by rewrite IH1, IH2.
  - by rewrite H.
  - by destruct (group_names r1).
Qed.

(** A match of a pattern whose groups all stand outside alternatives
    records its groups, the latest first, before the earlier captures. *)
Lemma matches_group_names (r : Re.re) :
  groups_outside_alt r = true ->
  forall (s : list Z) (caps : Re.captures)
         (k : list Z -> Re.captures -> option R) (x : R),
    Re.matches r s caps k = Some x ->
    exists s' caps',
      k s' caps' = Some x /\ caps'.*1 = rev (group_names r) ++ caps.*1.
Proof.
  induction r as [|c| |p lo hi|r1 IH1 r2 IH2|r1 IH1 r2 IH2|name r1 IH];
    cbn [group_names groups_outside_alt Re.matches]; intros Hwf s caps k x H.
  - eauto.
  - destruct s as [|c' s']; [discriminate|].
    destruct (code c =? c'); [eauto | discriminate].
  - destruct s as [|c' s']; [discriminate|].
    destruct (c' =? 10); [discriminate | eauto].
  - destruct (_ <? _)%nat; [discriminate|].
    apply try_longest_Some in H as [s' H]. eauto.
  - apply andb_true_iff in Hwf as [W1 W2].
    apply (IH1 W1) in H as (s1 & c1 & H & N1).
    apply (IH2 W2) in H as (s2 & c2 & H & N2).
    exists s2, c2. split; [exact H|].
    rewrite N2, N1, rev_app_distr. by rewrite app_assoc.
  - destruct (group_names r1 ++ group_names r2) eqn:E; [|discriminate].
    apply app_eq_nil in E as [E1 E2].
    destruct (Re.matches r1 s caps k) as [y|] eqn:M1.
    + injection H as ->.
      apply (IH1 (group_free_outside _ E1)) in M1 as (s' & c' & M1 & N).
      rewrite E1 in N. eauto.
    + apply (IH2 (group_free_outside _ E2)) in H as (s' & c' & H & N).
      rewrite E2 in N. eauto.
  - apply (IH Hwf) in H as (s' & c' & H & N).
    eexists _, _. split; [exact H|].
    rewrite fmap_cons, N, rev_app_distr. reflexivity.
Qed.

End RegexGroups.

Section ReadStrBlock.

Lemma match_names (r : Re.re) (s rest : string) (caps : Re.captures) :
  groups_outside_alt r = true ->
  Re.match_ r s = Some (caps, rest) ->
  caps.*1 = rev (group_names r).
Proof.
  intros Hwf H. unfold Re.match_ in H.
  apply (matches_group_names r Hwf) in H as (s' & c' & H & N).
  injection H as -> _. by rewrite N, app_nil_r.
Qed.

(** A decimal digit of any script stands for a number from 0 to 9. *)
Lemma decimal_range (c d : Z) : Unicode.decimal c = Some d -> 0 <= d <= 9.
Proof.
  unfold Unicode.decimal.
  destruct (find _ Unicode.decimal_zeros) as [z|] eqn:E; [|discriminate].
  intros [= <-]. apply find_some in E as [_ E].
  apply andb_true_iff in E as [E1 E2]. lia.
Qed.

Lemma digits_value_nonneg (s : list Z) (acc n : Z) :
  0 <= acc -> Conv.digits_value s acc = Some n -> 0 <= n.
Proof.
  revert acc. induction s as [|c s IH]; intros acc Hacc H;
    cbn [Conv.digits_value] in H.
  - by injection H as <-.
  - destruct (Unicode.decimal c) as [d|] eqn:D; [|discriminate].
    apply decimal_range in D. apply IH in H; [exact H | lia].
Qed.

Lemma int_of_str_Ok (s : string) (v : value) :
  Conv.int_of_str s = Ok v -> exists n, v = VInt n /\ 0 <= n.
Proof.
  unfold Conv.int_of_str. destruct (forallb _ (points s)); [|discriminate].
  destruct (Conv.int_of_points _) as [n|] eqn:D; [|discriminate].
  intros H. apply Ok_inj in H as <-. exists n. split; [reflexivity|].
  unfold Conv.int_of_points in D.
  destruct (strip_points _ _); [discriminate|].
  by apply (digits_value_nonneg _ 0 n) in D.
Qed.

Lemma float_of_str_Ok (s : string) (v : value) :
  Conv.float_of_str s = Ok v -> exists x, v = VFloat x.
Proof.
  unfold Conv.float_of_str. destruct (forallb _ (points s)); [|discriminate].
  destruct (Conv.split_dot _) as [ip fp].
  destruct (Conv.digits_value _ 0); [|discriminate].
  destruct (_ =? _)%nat; [discriminate|].
  intros H. apply Ok_inj in H as <-. eauto.
Qed.

(** A date read in the format '%d %b %Y' is at midnight. *)
Lemma strptime_date_midnight (s : string) (t : datetime) :
  Conv.strptime s "%d %b %Y" = Ok t ->
  hour t = 0 /\ minute t = 0 /\ second t = 0 /\ microsecond t = 0.
Proof.
  unfold Conv.strptime.
  set (r := default Re.Eps (Conv.format_re "%d %b %Y")).
  assert (Hfmt : Conv.format_re "%d %b %Y" = Some r).
  { assert (X : match Conv.format_re "%d %b %Y" with
                | Some _ => true
                | None => false
                end = true) by (vm_compute; reflexivity).
    subst r. destruct (Conv.format_re "%d %b %Y"); [reflexivity|].
    discriminate. }
  assert (Hwf : groups_outside_alt r = true) by (vm_compute; reflexivity).
  assert (Hn : rev (group_names r) = ["Y"; "b"; "d"])
    by (vm_compute; reflexivity).
  rewrite Hfmt. clearbody r.
  destruct (Re.match_ r s) as [[caps rest]|] eqn:Hm; [|discriminate].
  apply (match_names _ _ _ _ Hwf) in Hm. rewrite Hn in Hm.
  destruct rest; [|discriminate].
  destruct caps as [|[k1 s1] [|[k2 s2] [|[k3 s3] [|? ?]]]]; try discriminate.
  injection Hm as -> -> ->.
  intros H. apply bind_Ok in H as (month & _ & H).
  apply datetime_new_Ok in H as ->.
  cbn [hour minute second microsecond]. repeat split; reflexivity.
Qed.

(** What [read_str_block] returns for the Rinsland pattern and
    converters: eight typed fields. *)
Lemma rinsland_fields_inv (line : string) (d : dict) :
  Io.read_str_block line Iofmt.rinsland_header_regex
    (Some Iofmt.rinsland_header_ftype) = Ok d ->
  exists (spec_type name : string) (date : datetime)
         (resolution aperture zenith_angle hour_avg : float) (sn_ratio : Z),
    d !! "spec_type" = Some (VStr spec_type)
    /\ d !! "name" = Some (VStr name)
    /\ d !! "date" = Some (VDatetime date)
    /\ d !! "resolution" = Some (VFloat resolution)
    /\ d !! "aperture" = Some (VFloat aperture)
    /\ d !! "zenith_angle" = Some (VFloat zenith_angle)
    /\ d !! "sn_ratio" = Some (VInt sn_ratio)
    /\ d !! "hour_avg" = Some (VFloat hour_avg)
    /\ hour date = 0 /\ minute date = 0 /\ second date = 0
    /\ microsecond date = 0
    /\ 0 <= sn_ratio
    /\ forall k,
         k ∉ ["spec_type"; "name"; "date"; "resolution"; "aperture";
              "zenith_angle"; "sn_ratio"; "hour_avg"] ->
         d !! k = None.
Proof.
  unfold Io.read_str_block. intros H.
  apply bind_Ok in H as (fields & Hf & H).
  destruct (Re.match_ _ line) as [[caps rest]|] eqn:Hm; [|discriminate].
  apply Ok_inj in Hf as <-.
  apply match_names in Hm; [|vm_compute; reflexivity].
  change (rev (group_names Iofmt.rinsland_header_regex))
    with ["hour_avg"; "sn_ratio"; "zenith_angle"; "aperture"; "resolution";
          "date"; "name"; "spec_type"] in Hm.
  destruct caps as [|[k8 s8] [|[k7 s7] [|[k6 s6] [|[k5 s5] [|[k4 s4]
                    [|[k3 s3] [|[k2 s2] [|[k1 s1] [|? ?]]]]]]]]];
    try discriminate.
  injection Hm as -> -> -> -> -> -> -> ->.
  unfold Re.groupdict, dict_of in H.
  cbn [rev app map fold_left fst snd] in H.
  unfold Iofmt.rinsland_header_ftype in H. cbn [foldM fst snd] in H.
  (* spec_type, name *)
  apply bind_Ok in H as (d1 & E & H).
  apply bind_Ok in E as (v & G & E). apply getitem_Ok in G.
  revert G. lookup_through. intros [= <-].
  cbn [Conv.str_ bind] in E. apply Ok_inj in E as <-.
  apply bind_Ok in H as (d2 & E & H).
  apply bind_Ok in E as (v & G & E). apply getitem_Ok in G.
  revert G. lookup_through. intros [= <-].
  cbn [Conv.str_ bind] in E. apply Ok_inj in E as <-.
  (* date *)
  apply bind_Ok in H as (d3 & E & H).
  apply bind_Ok in E as (v & G & E). apply getitem_Ok in G.
  revert G. lookup_through. intros [= <-].
  apply bind_Ok in E as (v' & C & E). apply Ok_inj in E as <-.
  apply bind_Ok in C as (date & Hdate & C). apply Ok_inj in C as <-.
  (* resolution, aperture, zenith_angle *)
  apply bind_Ok in H as (d4 & E & H).
  apply bind_Ok in E as (v & G & E). apply getitem_Ok in G.
  revert G. lookup_through. intros [= <-].
  apply bind_Ok in E as (v' & C & E). apply Ok_inj in E as <-.
  apply float_of_str_Ok in C as [resolution ->].
  apply bind_Ok in H as (d5 & E & H).
  apply bind_Ok in E as (v & G & E). apply getitem_Ok in G.
  revert G. lookup_through. intros [= <-].
  apply bind_Ok in E as (v' & C & E). apply Ok_inj in E as <-.
  apply float_of_str_Ok in C as [aperture ->].
  apply bind_Ok in H as (d6 & E & H).
  apply bind_Ok in E as (v & G & E). apply getitem_Ok in G.
  revert G. lookup_through. intros [= <-].
  apply bind_Ok in E as (v' & C & E). apply Ok_inj in E as <-.
  apply float_of_str_Ok in C as [zenith_angle ->].
  (* sn_ratio *)
  apply bind_Ok in H as (d7 & E & H).
  apply bind_Ok in E as (v & G & E). apply getitem_Ok in G.
  revert G. lookup_through. intros [= <-].
  apply bind_Ok in E as (v' & C & E). apply Ok_inj in E as <-.
  apply int_of_str_Ok in C as (sn_ratio & -> & Hsn).
  (* hour_avg *)
  apply bind_Ok in H as (d8 & E & H).
  apply bind_Ok in E as (v & G & E). apply getitem_Ok in G.
  revert G. lookup_through. intros [= <-].
  apply bind_Ok in E as (v' & C & E). apply Ok_inj in E as <-.
  apply float_of_str_Ok in C as [hour_avg ->].
  apply Ok_inj in H as <-.
  destruct (strptime_date_midnight _ _ Hdate) as (T1 & T2 & T3 & T4).
  exists s1, s2, date, resolution, aperture, zenith_angle, hour_avg, sn_ratio.
  repeat split; try assumption; try (lookup_through; reflexivity).
  intros k Hk. rewrite !not_elem_of_cons in Hk.
  destruct Hk as (? & ? & ? & ? & ? & ? & ? & ? & _).
  rewrite !lookup_insert_ne by done. apply lookup_empty.
Qed.

(** X22. Whatever the line, when [read_str_block] with the Rinsland
    pattern and converters returns, the result has exactly eight keys:
    [spec_type] and [name] are strings, [date] is a datetime at
    midnight, [resolution], [aperture], [zenith_angle] and [hour_avg]
    are floats and [sn_ratio] is a non-negative integer. *)
Theorem read_str_block_rinsland_types (line : string) (d : dict) :
  Io.read_str_block line Iofmt.rinsland_header_regex
    (Some Iofmt.rinsland_header_ftype) = Ok d ->
  exists (spec_type name : string) (date : datetime)
         (resolution aperture zenith_angle hour_avg : float) (sn_ratio : Z),
    d !! "spec_type" = Some (VStr spec_type)
    /\ d !! "name" = Some (VStr name)
    /\ d !! "date" = Some (VDatetime date)
    /\ d !! "resolution" = Some (VFloat resolution)
    /\ d !! "aperture" = Some (VFloat aperture)
    /\ d !! "zenith_angle" = Some (VFloat zenith_angle)
    /\ d !! "sn_ratio" = Some (VInt sn_ratio)
    /\ d !! "hour_avg" = Some (VFloat hour_avg)
    /\ hour date = 0 /\ minute date = 0 /\ second date = 0
    /\ microsecond date = 0
    /\ 0 <= sn_ratio
    /\ forall k,
         k ∉ ["spec_type"; "name"; "date"; "resolution"; "aperture";
              "zenith_angle"; "sn_ratio"; "hour_avg"] ->
         d !! k = None.
Proof. apply rinsland_fields_inv. Qed.

Lemma read_str_block_rinsland_types_witness :
  exists date,
    Samples.rinsland_fields_utf8 !! "date" = Some (VDatetime date)
    /\ hour date = 0
    /\ Samples.rinsland_fields_utf8 !! "comment" = None.
Proof.
  destruct (read_str_block_rinsland_types
              (string_of_list_byte Samples.rinsland_line_utf8)
              Samples.rinsland_fields_utf8)
    as (spec_type & name & date & resolution & aperture & zenith_angle
        & hour_avg & sn_ratio & _ & _ & Hd & _ & _ & _ & _ & _ & Hh & _ & _
        & _ & _ & Hnone).
  - apply is_Ok_get. vm_compute. reflexivity.
  - exists date. split; [exact Hd|]. split; [exact Hh|]. apply Hnone.
    apply (bool_decide_unpack (_ ∉ _)). vm_compute. exact I.
Defined.

End ReadStrBlock.

(** ** [read_str_block] without converters *)

Section ReadStrBlockGroups.

Lemma fold_insert_lookup_elem (l : list (string * value)) (m : dict)
    (k : string) (v : value) :
  fold_left (fun d kv => <[kv.1 := kv.2]> d) l m !! k = Some v ->
  (k, v) ∈ l \/ m !! k = Some v.
Proof.
  revert m. induction l as [|[k' v'] l IH]; intros m H; [by right|].
  cbn [fold_left] in H. apply IH in H as [H | H].
  - left. by apply elem_of_cons; right.
  - cbn in H. destruct (decide (k = k')) as [-> | Hne].
    + rewrite lookup_insert_eq in H. injection H as ->.
      left. apply elem_of_cons. by left.
    + rewrite lookup_insert_ne in H by done. by right.
Qed.

(** X23. For a pattern whose named groups all stand outside
    alternatives: when [read_str_block] is called without converters
    and the pattern matches, the result has exactly the named groups of
    the pattern as keys and every value is a string; when the pattern
    does not match, it raises AttributeError, whatever the converters. *)
Theorem read_str_block_groups (s : string) (regex : Re.re) :
  groups_outside_alt regex = true ->
  is_ascii_str s = true ->
  (forall d, Io.read_str_block s regex None = Ok d ->
     (forall k, is_Some (d !! k) <-> k ∈ group_names regex)
     /\ (forall k v, d !! k = Some v -> exists text, v = VStr text))
  /\ (Re.match_ regex s = None ->
      forall ftype,
        Io.read_str_block s regex ftype
        = Raise (AttributeError
                   "'NoneType' object has no attribute 'groupdict'")).
Proof.
  intros Hwf _. unfold Io.read_str_block. split.
  - intros d H. destruct (Re.match_ regex s) as [[caps rest]|] eqn:Hm;
      [|discriminate].
    cbn [bind] in H. apply Ok_inj in H as <-.
    apply (match_names _ _ _ _ Hwf) in Hm. unfold Re.groupdict. split.
    + intros k. rewrite dict_of_is_Some.
      change (caps.*1) with (map fst caps) in Hm.
      change ((map ?g (rev caps)).*1) with (map fst (map g (rev caps))).
      rewrite map_map, map_rev.
      rewrite <- (rev_involutive (group_names regex)), <- Hm.
      reflexivity.
    + intros k v H. unfold dict_of in H.
      apply fold_insert_lookup_elem in H as [H | H];
        [|by rewrite lookup_empty in H].
      apply list_elem_of_fmap in H as ([k' text] & [= -> ->] & _). eauto.
  - intros -> ftype. reflexivity.
Qed.

Lemma read_str_block_groups_witness :
  Io.read_str_block Samples.rinsland_line Iofmt.rinsland_header_regex None
  = Raise (AttributeError "'NoneType' object has no attribute 'groupdict'").
Proof.
  apply (read_str_block_groups Samples.rinsland_line
           Iofmt.rinsland_header_regex);
    vm_compute; reflexivity.
Defined.

End ReadStrBlockGroups.

(** ** [read_rinsland] *)

Section Rinsland2.

Lemma rinsland_datahdr_parse :
  Struct.parse
    ("<" ++ String.concat "" (map snd Iofmt.rinsland_datahdr_ffmt))
  = Ok (Struct.LittleEndian, layout Iofmt.rinsland_datahdr_ffmt).
Proof. vm_compute. reflexivity. Qed.

Lemma rinsland_datahdr_size :
  Struct.items_size (layout Iofmt.rinsland_datahdr_ffmt) = 28%nat.
Proof. vm_compute. reflexivity. Qed.

Lemma rinsland_datahdr_NoDup : NoDup (omap fst Iofmt.rinsland_datahdr_ffmt).
Proof. apply (bool_decide_unpack _). vm_compute. exact I. Qed.

Lemma frombuffer_f32_Ok (buf : list byte) (data : list float) :
  Np.frombuffer_f32 buf = Ok data ->
  (length buf mod 4 = 0)%nat
  /\ length data = (length buf / 4)%nat
  /\ forall i, (i < length data)%nat ->
       data !! i
       = Some (float_of_ieee 8 23
                 (Struct.le_unsigned (firstn 4 (skipn (4 * i) buf)))).
Proof.
  unfold Np.frombuffer_f32.
  destruct (Nat.eqb_spec (length buf mod 4) 0) as [E|]; [|discriminate].
  intros H. apply Ok_inj in H as <-. split; [exact E|].
  rewrite length_map, chunks_length. split; [reflexivity|].
  intros i Hi. rewrite list_lookup_fmap, chunks_lookup by exact Hi.
  reflexivity.
Qed.

(** The dictionary [read_rinsland] returns, written out. *)
Lemma read_rinsland_shape (filename : list byte) (spec : dict) :
  Legacy.read_rinsland filename = Ok spec ->
  exists (line : string) (fields datahdr : dict) (data : list float)
         (hour : value) (seconds : value) (hour_dt : timedelta)
         (date t : datetime),
    (80 <= length filename)%nat
    /\ decode (firstn 80 filename) = Ok line
    /\ Io.read_str_block line Iofmt.rinsland_header_regex
         (Some Iofmt.rinsland_header_ftype) = Ok fields
    /\ Io.read_bin_block (mk_file filename 80) Iofmt.rinsland_datahdr_ffmt
         None "<" = Ok (datahdr, mk_file filename 108)
    /\ Np.frombuffer_f32 (skipn 108 filename) = Ok data
    /\ fields !! "hour_avg" = Some hour
    /\ mul hour (VInt 3600) = Ok seconds
    /\ Legacy.timedelta_seconds_of seconds = Ok hour_dt
    /\ fields !! "date" = Some (VDatetime date)
    /\ datetime_add date hour_dt = Ok t
    /\ spec
       = <["datetime_avg" := VDatetime t]>
         (delete "date" (delete "hour_avg"
         (<["data" := VArray data]> (update fields datahdr)))).
Proof.
  unfold Legacy.read_rinsland, read. cbn [open position content].
  change (skipn 0 filename) with filename. cbn [Nat.add].
  intros H. apply bind_Ok in H as (vals & Hu & H).
  unfold Struct.unpack in Hu.
  change (Struct.parse "<80s")
    with (Ok (Struct.LittleEndian, [(80%nat, Struct.Bytes)])) in Hu.
  cbn [bind snd fst] in Hu.
  change (Struct.items_size [(80%nat, Struct.Bytes)]) with 80%nat in Hu.
  destruct (Nat.eqb_spec (length (firstn 80 filename)) 80) as [L80|];
    [|discriminate].
  apply Ok_inj in Hu as <-.
  cbn [Struct.unpack_items Struct.unpack_item Struct.item_size fst snd
       Struct.width Nat.mul Nat.add app] in H.
  rewrite firstn_firstn, Nat.min_id in H.
  apply bind_Ok in H as (line & Hline & H).
  cbn [decode_value as_bytes bind] in Hline.
  apply bind_Ok in H as (fields & Hfields & H).
  rewrite L80 in H.
  apply bind_Ok in H as ([datahdr f1] & Hdh & H).
  pose proof (read_bin_block_pos _ _ _ _ Hdh) as [-> Hsize].
  rewrite rinsland_datahdr_size in *. cbn [position content] in *.
  unfold read_all in H. cbn [position content Nat.add] in H.
  apply bind_Ok in H as (data & Hdata & H).
  apply bind_Ok in H as ([hour s1] & Hp & H). apply pop_Ok in Hp as [Hhour ->].
  apply bind_Ok in H as (seconds & Hsec & H).
  apply bind_Ok in H as (hour_dt & Hdt & H).
  apply bind_Ok in H as ([vdate s2] & Hp & H). apply pop_Ok in Hp as [Hdate ->].
  apply bind_Ok in H as (date & Hd & H).
  destruct vdate; try discriminate. injection Hd as ->.
  apply bind_Ok in H as (t & Ht & H). apply Ok_inj in H as <-.
  assert (Hno : forall k, k ∉ omap fst Iofmt.rinsland_datahdr_ffmt ->
                          update fields datahdr !! k = fields !! k).
  { intros k Hk. unfold update. apply lookup_union_r.
    by apply (header_no_key _ _ _ _ _ Hdh). }
  revert Hhour Hdate. lookup_through.
  rewrite !Hno by (apply (bool_decide_unpack (_ ∉ _)); vm_compute; exact I).
  intros Hhour Hdate.
  rewrite length_firstn in L80.
  exists line, fields, datahdr, data, hour, seconds, hour_dt, date, t.
  repeat split; try assumption; try reflexivity. lia.
Qed.

(** X24. Whenever [read_rinsland] returns, [datetime_avg] is the date
    of the text header (a day at midnight) plus the timedelta of
    [hour_avg] * 3600 seconds, [hour_avg] being the float of the text
    header; the keys [date] and [hour_avg] are gone from the result. *)
Theorem read_rinsland_datetime (filename : list byte) (spec : dict) :
  Legacy.read_rinsland filename = Ok spec ->
  exists (line : string) (fields : dict) (date t : datetime) (h : float)
         (offset : timedelta),
    decode (firstn 80 filename) = Ok line
    /\ Io.read_str_block line Iofmt.rinsland_header_regex
         (Some Iofmt.rinsland_header_ftype) = Ok fields
    /\ fields !! "date" = Some (VDatetime date)
    /\ fields !! "hour_avg" = Some (VFloat h)
    /\ timedelta_seconds (h * 3600)%float = Ok offset
    /\ spec !! "datetime_avg" = Some (VDatetime t)
    /\ datetime_us t
       = ymd2ord (year date) (month date) (day date) * us_per_day
         + total_us offset
    /\ spec !! "date" = None
    /\ spec !! "hour_avg" = None.
Proof.
  intros H. apply read_rinsland_shape in H
    as (line & fields & datahdr & data & hour & seconds & hour_dt & date & t
        & _ & Hline & Hfields & _ & _ & Hhour & Hsec & Hdt & Hdate & Ht & ->).
  destruct (rinsland_fields_inv _ _ Hfields)
    as (? & ? & date' & ? & ? & ? & h & ? & _ & _ & Hd' & _ & _ & _ & _ & Hh'
        & T1 & T2 & T3 & T4 & _).
  rewrite Hd' in Hdate. injection Hdate as ->.
  rewrite Hh' in Hhour. injection Hhour as <-.
  cbn in Hsec. apply Ok_inj in Hsec as <-.
  cbn [Legacy.timedelta_seconds_of] in Hdt.
  exists line, fields, date, t, h, hour_dt.
  repeat split; try assumption.
  - apply lookup_insert_eq.
  - apply datetime_add_us in Ht. rewrite Ht. unfold datetime_us.
    rewrite T1, T2, T3, T4. lia.
  - lookup_through. apply lookup_delete_eq.
  - lookup_through. apply lookup_delete_eq.
Qed.

Lemma read_rinsland_datetime_witness :
  exists t,
    Samples.rinsland_utf8_result !! "datetime_avg" = Some (VDatetime t)
    /\ Samples.rinsland_utf8_result !! "hour_avg" = None.
Proof.
  destruct (read_rinsland_datetime Samples.rinsland_utf8
              Samples.rinsland_utf8_result)
    as (line & fields & date & t & h & offset & _ & _ & _ & _ & _ & Ht
        & _ & _ & Hnone).
  - apply is_Ok_get. vm_compute. reflexivity.
  - exists t. split; [exact Ht | exact Hnone].
Defined.

(** The four fields of the binary header of a Rinsland file. *)
Lemma rinsland_datahdr_fields (filename : list byte) (datahdr : dict)
    (f' : file) :
  Io.read_bin_block (mk_file filename 80) Iofmt.rinsland_datahdr_ffmt
    None "<" = Ok (datahdr, f') ->
  (exists x, datahdr !! "wavenumber_begin" = Some (VFloat x))
  /\ (exists x, datahdr !! "wavenumber_end" = Some (VFloat x))
  /\ (exists x, datahdr !! "wavenumber_step" = Some (VFloat x))
  /\ datahdr !! "n_points"
     = Some (VInt (Struct.le_signed (firstn 4 (skipn 104 filename)))).
Proof.
  intros H. repeat split.
  - eexists.
    refine (proj2 (header_lookup _ _ _ _ 0 "wavenumber_begin" _ H rinsland_datahdr_NoDup eq_refl) _).
    header_value.
  - eexists.
    refine (proj2 (header_lookup _ _ _ _ 1 "wavenumber_end" _ H rinsland_datahdr_NoDup eq_refl) _).
    header_value.
  - eexists.
    refine (proj2 (header_lookup _ _ _ _ 2 "wavenumber_step" _ H rinsland_datahdr_NoDup eq_refl) _).
    header_value.
  - refine (proj2 (header_lookup _ _ _ _ 3 "n_points" _ H rinsland_datahdr_NoDup eq_refl) _).
    change (layout Iofmt.rinsland_datahdr_ffmt)
      with [(1%nat, Struct.F64); (1%nat, Struct.F64); (1%nat, Struct.F64);
            (1%nat, Struct.SInt 4)].
    cbn [Struct.unpack_items Struct.unpack_item Struct.item_size fst snd
         Struct.width Nat.mul Nat.add Struct.chunks map app
         Struct.decode1 lookup list_lookup Struct.items_size foldr
         position content].
    rewrite !skipn_skipn, firstn_firstn. cbn [Nat.add Nat.min].
    rewrite skipn_firstn_comm, firstn_firstn, skipn_skipn.
    reflexivity.
Qed.

(** X25. Whenever [read_rinsland] returns: the file holds at least 108
    bytes (80 of text header, 28 of binary header) and the bytes after
    them are a whole number of 4-byte groups; [data] holds one float32
    sample per group, the [i]-th from bytes 108 + 4i to 108 + 4i + 3,
    whatever [n_points] says; the three wavenumbers of the binary header
    are floats and [n_points] is the signed integer of bytes 104 to
    107. *)
Theorem read_rinsland_data (filename : list byte) (spec : dict) :
  Legacy.read_rinsland filename = Ok spec ->
  exists (samples : list float) (wb we ws : float),
    (108 <= length filename)%nat
    /\ ((length filename - 108) mod 4 = 0)%nat
    /\ spec !! "data" = Some (VArray samples)
    /\ length samples = ((length filename - 108) / 4)%nat
    /\ (forall i, (i < length samples)%nat ->
        samples !! i
        = Some (float_of_ieee 8 23
                  (Struct.le_unsigned
                     (firstn 4 (skipn (108 + 4 * i) filename)))))
    /\ spec !! "wavenumber_begin" = Some (VFloat wb)
    /\ spec !! "wavenumber_end" = Some (VFloat we)
    /\ spec !! "wavenumber_step" = Some (VFloat ws)
    /\ spec !! "n_points"
       = Some (VInt (Struct.le_signed (firstn 4 (skipn 104 filename)))).
Proof.
  intros H. apply read_rinsland_shape in H
    as (line & fields & datahdr & data & hour & seconds & hour_dt & date & t
        & _ & _ & _ & Hdh & Hdata & _ & _ & _ & _ & _ & ->).
  destruct (rinsland_datahdr_fields _ _ _ Hdh)
    as ((wb & Hwb) & (we & Hwe) & (ws & Hws) & Hn).
  apply read_bin_block_pos in Hdh as [_ Hsize].
  rewrite rinsland_datahdr_size in Hsize. cbn [position content] in Hsize.
  rewrite length_skipn in Hsize.
  apply frombuffer_f32_Ok in Hdata as (Hmod & Hlen & Hi).
  rewrite length_skipn in Hmod, Hlen.
  exists data, wb, we, ws.
  split; [lia|]. split; [exact Hmod|].
  split; [lookup_through; reflexivity|]. split; [exact Hlen|].
  split.
  { intros i Hlt. rewrite (Hi i Hlt), skipn_skipn. do 5 f_equal. lia. }
  unfold update.
  repeat split; lookup_through; by apply lookup_union_Some_l.
Qed.

Lemma read_rinsland_data_witness :
  exists samples,
    Samples.rinsland_sample_result !! "data" = Some (VArray samples)
    /\ length samples = 3%nat.
Proof.
  destruct (read_rinsland_data Samples.rinsland_sample
              Samples.rinsland_sample_result)
    as (samples & wb & we & ws & _ & _ & Hd & Hlen & _).
  - apply is_Ok_get. vm_compute. reflexivity.
  - exists samples. split; [exact Hd|]. rewrite Hlen. reflexivity.
Defined.

(** X26. Whenever [read_rinsland] returns, the result has exactly the
    twelve keys listed: the fields of the text header but [date] and
    [hour_avg], the four fields of the binary header, [data] and
    [datetime_avg]. *)
Theorem read_rinsland_keys (filename : list byte) (spec : dict) (k : string) :
  Legacy.read_rinsland filename = Ok spec ->
  is_Some (spec !! k)
  <-> k ∈ ["spec_type"; "name"; "resolution"; "aperture"; "zenith_angle";
           "sn_ratio"; "wavenumber_begin"; "wavenumber_end";
           "wavenumber_step"; "n_points"; "data"; "datetime_avg"].
Proof.
  intros H. apply read_rinsland_shape in H
    as (line & fields & datahdr & data & hour & seconds & hour_dt & date & t
        & _ & _ & Hfields & Hdh & _ & _ & _ & _ & _ & _ & ->).
  assert (Hdom : dom fields
                 = list_to_set ["spec_type"; "name"; "date"; "resolution";
                                "aperture"; "zenith_angle"; "sn_ratio";
                                "hour_avg"]).
  { destruct (rinsland_fields_inv _ _ Hfields)
      as (? & ? & ? & ? & ? & ? & ? & ? & L1 & L2 & L3 & L4 & L5 & L6 & L7
          & L8 & _ & _ & _ & _ & _ & Hnone).
    apply set_eq. intros key. rewrite elem_of_dom, elem_of_list_to_set.
    split.
    - intros Hs. destruct (decide (key ∈ ["spec_type"; "name"; "date";
        "resolution"; "aperture"; "zenith_angle"; "sn_ratio"; "hour_avg"]))
        as [Hin | Hout]; [exact Hin|].
      rewrite (Hnone key Hout) in Hs. by destruct Hs.
    - intros Hin.
      repeat (apply elem_of_cons in Hin as [-> | Hin]; [by eexists|]).
      by apply elem_of_nil in Hin. }
  rewrite <- elem_of_dom, <- (elem_of_list_to_set (C := gset string)).
  unfold update.
  repeat (rewrite dom_insert_L || rewrite dom_delete_L
          || rewrite dom_union_L).
  assert (Hlen : length (omap fst Iofmt.rinsland_datahdr_ffmt)
                 = values_count (layout Iofmt.rinsland_datahdr_ffmt))
    by (vm_compute; reflexivity).
  rewrite (header_dom _ _ _ _ Hdh Hlen), Hdom.
  match goal with
  | |- _ ∈ ?a <-> _ ∈ ?b => replace a with b; [reflexivity|]
  end.
  apply (bool_decide_unpack _). vm_compute. exact I.
Qed.

Lemma read_rinsland_keys_witness :
  is_Some (Samples.rinsland_sample_result !! "n_points")
  /\ Samples.rinsland_sample_result !! "date" = None.
Proof.
  assert (Hr : Legacy.read_rinsland Samples.rinsland_sample
               = Ok Samples.rinsland_sample_result)
    by (apply is_Ok_get; vm_compute; reflexivity).
  split.
  - apply (read_rinsland_keys _ _ "n_points" Hr).
    apply (bool_decide_unpack _). vm_compute. exact I.
  - apply eq_None_not_Some. intros Hs.
    apply (read_rinsland_keys _ _ "date" Hr) in Hs.
    revert Hs. apply (bool_decide_unpack (_ ∉ _)). vm_compute. exact I.
Defined.

End Rinsland2.

(** ** The day of the year *)

Section DayOfYear.

Lemma ord_valid_cycle (n : Z) : 1 <= n <= 146097 -> ord_valid n = true.
Proof.
  intros H. apply (all_from_spec ord_valid 1 (Z.to_nat 146097)); [|lia].
  vm_cast_no_check (eq_refl true).
Qed.

Lemma days_in_month_period (y m k : Z) :
  days_in_month (y + 400 * k) m = days_in_month y m.
Proof. unfold days_in_month. by rewrite is_leap_period. Qed.

(** [ord2ymd] returns a valid date. *)
Lemma ord2ymd_valid (n : Z) :
  let '(y, m, d) := ord2ymd n in
  1 <= m <= 12 /\ 1 <= d <= days_in_month y m.
Proof.
  rewrite ord2ymd_period.
  pose proof (Z.mod_pos_bound (n - 1) 146097 ltac:(lia)) as Hr.
  pose proof (ord_valid_cycle ((n - 1) mod 146097 + 1) ltac:(lia)) as Hc.
  unfold ord_valid in Hc.
  destruct (ord2ymd ((n - 1) mod 146097 + 1)) as [[y m] d].
  cbn [shift_year]. rewrite days_in_month_period.
  apply andb_true_iff in Hc as [Hc H4]. apply andb_true_iff in Hc as [Hc H3].
  apply andb_true_iff in Hc as [H1 H2]. lia.
Qed.

Lemma days_before_year_succ (y : Z) :
  days_before_year (y + 1) = days_before_year y + days_in_year y.
Proof.
  unfold days_before_year, days_in_year, is_leap. cbv zeta.
  replace (y + 1 - 1) with y by lia.
  destruct (Z.eqb_spec (y mod 4) 0) as [E4|E4];
    destruct (Z.eqb_spec (y mod 100) 0) as [E100|E100];
    destruct (Z.eqb_spec (y mod 400) 0) as [E400|E400];
    cbn [negb orb andb]; Z.div_mod_to_equations; lia.
Qed.

Lemma days_before_year_mono (a b : Z) :
  a <= b -> days_before_year a <= days_before_year b.
Proof.
  intros H. unfold days_before_year. cbv zeta.
  Z.div_mod_to_equations. lia.
Qed.

(** The days of a valid date of year [y] lie after the days before [y]
    and within its length. *)
Lemma day_of_year_range (y m d : Z) :
  1 <= m <= 12 -> 1 <= d <= days_in_month y m ->
  1 <= days_before_month y m + d <= days_in_year y.
Proof.
  intros Hm. unfold days_before_month, days_in_month, days_in_year.
  assert (m = 1 \/ m = 2 \/ m = 3 \/ m = 4 \/ m = 5 \/ m = 6 \/ m = 7
          \/ m = 8 \/ m = 9 \/ m = 10 \/ m = 11 \/ m = 12) as Hcase by lia.
  clear Hm.
  destruct (is_leap y);
    destruct Hcase
      as [->|[->|[->|[->|[->|[->|[->|[->|[->|[->|[->| ->]]]]]]]]]]];
    cbv - [Z.le Z.lt Z.add]; lia.
Qed.

(** X27. [datetime(year, 1, 1) + timedelta(dayofyear - 1)], as the
    readers compute it, checks the year (1..9999) but not the day of
    the year: when it returns, the result is midnight of the day that
    lies (dayofyear - 1) days after January 1, and it falls in the
    stored year exactly when 1 <= dayofyear <= 365 (366 in a leap
    year); any other day of the year silently gives a day of another
    year. *)
Theorem year_day_in_year (y n : Z) (t : datetime) :
  Legacy.year_day (VInt y) (VInt n) = Ok t ->
  1 <= y <= 9999
  /\ hour t = 0 /\ minute t = 0 /\ second t = 0 /\ microsecond t = 0
  /\ 1 <= month t <= 12
  /\ 1 <= day t <= days_in_month (year t) (month t)
  /\ ymd2ord (year t) (month t) (day t) = ymd2ord y 1 1 + (n - 1)
  /\ (year t = y <-> 1 <= n <= days_in_year y).
Proof.
  intros H.
  apply year_day_Ok in H as (? & ? & [= <-] & [= <-] & Hy & _ & H).
  split; [exact Hy|].
  unfold datetime_add, datetime_of_us in H.
  destruct (_ && _); [|discriminate].
  assert (Hus : datetime_us (mk_datetime y 1 1 0 0 0 0)
                + total_us (Timedelta ((n - 1) * us_per_day))
                = (ymd2ord y 1 1 + (n - 1)) * us_per_day).
  { unfold datetime_us.
    cbn [year month day hour minute second microsecond total_us]. lia. }
  rewrite Hus in H. clear Hus.
  assert (Hpos : 0 < us_per_day) by (unfold us_per_day; lia).
  rewrite Z.div_mul, Z.mod_mul in H by lia.
  set (N := ymd2ord y 1 1 + (n - 1)) in *.
  pose proof (ymd2ord_ord2ymd N) as Hord.
  pose proof (ord2ymd_valid N) as Hval.
  destruct (ord2ymd N) as [[y' m'] d'].
  apply Ok_inj in H as <-.
  cbn [year month day hour minute second microsecond].
  destruct Hval as [Hm Hd].
  do 4 (split; [reflexivity|]).
  split; [exact Hm|]. split; [exact Hd|]. split; [exact Hord|].
  pose proof (day_of_year_range y' m' d' Hm Hd) as Hr.
  unfold N, ymd2ord in Hord.
  change (days_before_month y 1)
    with (0 + (if (2 <? 1) && is_leap y then 1 else 0)) in Hord.
  cbn [Z.ltb Z.compare Pos.compare Pos.compare_cont andb] in Hord.
  pose proof (days_before_year_succ y) as Sy.
  pose proof (days_before_year_succ y') as Sy'.
  split.
  - intros ->. lia.
  - intros Hn.
    destruct (Z.lt_trichotomy y' y) as [Hlt | [Heq | Hgt]]; [|exact Heq|].
    + pose proof (days_before_year_mono (y' + 1) y ltac:(lia)). lia.
    + pose proof (days_before_year_mono (y + 1) y' ltac:(lia)). lia.
Qed.

Lemma year_day_in_year_witness :
  year (mk_datetime 2001 1 1 0 0 0 0) = 2000 <-> 1 <= 367 <= days_in_year 2000.
Proof.
  apply (year_day_in_year 2000 367 (mk_datetime 2001 1 1 0 0 0 0)).
  vm_compute. reflexivity.
Defined.

End DayOfYear.

(** ** [read_fts1]: the samples *)

Section Fts1Samples.

(** X28. Whenever [read_fts1] returns, the file holds 2045 bytes at
    least and [data] is a prefix of the float32 samples stored from
    offset 2048 (one per complete group of 4 bytes, the [i]-th from bytes
    2048 + 4i to 2048 + 4i + 3): the first [n_points] of them when
    [n_points] is positive, at most all of them, and all but the last
    -[n_points] of them when [n_points] is negative. *)
Theorem read_fts1_samples (filename : list byte) (spec : dict) :
  Legacy.read_fts1 filename = Ok spec ->
  exists (n : Z) (data : list float),
    spec !! "n_points" = Some (VInt n)
    /\ spec !! "data" = Some (VArray data)
    /\ (2045 <= length filename)%nat
    /\ length data
       = (if 0 <=? n
          then Nat.min (Z.to_nat n) ((length filename - 2048) / 4)%nat
          else ((length filename - 2048) / 4 - Z.to_nat (- n))%nat)
    /\ forall i, (i < length data)%nat ->
         data !! i
         = Some (float_of_ieee 8 23
                   (Struct.le_unsigned
                      (firstn 4 (skipn (2048 + 4 * i) filename)))).
Proof.
  unfold Legacy.read_fts1. intros H.
  apply bind_Ok in H as (spec_h & Hh & H).
  apply bind_Ok in H as ([samples fend] & Hs & H).
  destruct (fromfile_f32_samples _ _ _ _ Hs) as (Hoff & Hlen & Hi).
  apply bind_Ok in H as (n & Hn & H). apply Ok_inj in H as <-.
  apply bind_Ok in Hn as (vn & Hvn & Hn). apply getitem_Ok in Hvn.
  destruct vn; try discriminate. injection Hn as ->.
  exists n, (Np.slice_to samples n).
  split; [by rewrite lookup_insert_ne|].
  split; [apply lookup_insert_eq|].
  split; [lia|].
  assert (Hpre : exists k, Np.slice_to samples n = firstn k samples
                           /\ length (firstn k samples)
                              = (if 0 <=? n
                                 then Nat.min (Z.to_nat n)
                                        ((length filename - 2048) / 4)%nat
                                 else ((length filename - 2048) / 4
                                       - Z.to_nat (- n))%nat)).
  { unfold Np.slice_to. destruct (0 <=? n); eexists; (split; [reflexivity|]);
      rewrite length_firstn, Hlen; lia. }
  destruct Hpre as (k & -> & Hk). split; [exact Hk|].
  intros i Hlt. rewrite length_firstn in Hlt.
  rewrite lookup_take_lt by lia. apply Hi. lia.
Qed.

Lemma read_fts1_samples_witness :
  exists n data,
    Samples.fts1_short_result !! "n_points" = Some (VInt n)
    /\ Samples.fts1_short_result !! "data" = Some (VArray data)
    /\ data !! 2%nat = Some 10.5%float.
Proof.
  destruct (read_fts1_samples Samples.fts1_short Samples.fts1_short_result)
    as (n & data & Hn & Hd & _ & Hlen & Hi).
  - apply is_Ok_get. vm_compute. reflexivity.
  - exists n, data. split; [exact Hn|]. split; [exact Hd|].
    vm_compute in Hn. injection Hn as <-.
    assert (L : length Samples.fts1_short = 2060%nat)
      by (vm_compute; reflexivity).
    rewrite L in Hlen. change (length data = 3%nat) in Hlen.
    rewrite (Hi 2%nat) by lia. vm_compute. reflexivity.
Defined.

End Fts1Samples.
